(** * Google Workspace tools on Composio: a shallow embedding

    The development follows the TypeScript sources of the repository:

    - [composio-client]: [executeTool], the wrapper around the SDK call
      [composio.tools.execute];
    - [GoogleWorkspaceAgent]: the convenience methods guarded by the
      [connectedServices] set, and the meeting workflow built on
      [Promise.all];
    - [GoogleWorkspaceMCP] ([index.ts]): the eleven groups of
      [createCustomTool] registrations made by [initializeCustomTools], and
      a few of the executors that are registered;
    - [GoogleWorkspaceService]: the readiness flag behind the health probe,
      and the start of the service;
    - the rest of [composio-client] and of the agent (initialization,
      queries, the daily summary), the methods of [GoogleWorkspaceMCP]
      that go through the LLM, its authentication, trigger and [main], and
      the executor of [WORKSPACE_WORKFLOW].

    Asynchronous functions are embedded in a monad [M] that threads the
    trace of observable events (console lines and calls into the SDK) and
    either fulfils with a value or rejects with a thrown error.  The SDK and
    the language runtime are collaborators whose answers are parameters. *)

From Stdlib Require Import ZArith Lia DecimalString.
From stdpp Require Import base option list strings gmap.

Set Warnings "-register-all".


(** ** JavaScript values *)

(** Numbers that the modelled code computes are array lengths and small
    integer constants, so a number is an integer here. *)
Inductive JSValue : Type :=
| JUndefined
| JNull
| JBool (b : bool)
| JNum (n : Z)
| JStr (s : string)
| JArr (items : list JSValue)
| JObj (fields : list (string * JSValue)).

(** [o.key]: a missing key reads [undefined].  No object literal below
    binds a key twice. *)
Fixpoint get_field (key : string) (fields : list (string * JSValue)) : JSValue :=
  match fields with
  | [] => JUndefined
  | (k, v) :: rest => if String.eqb k key then v else get_field key rest
  end.

Definition get (key : string) (o : JSValue) : JSValue :=
  match o with
  | JObj fields => get_field key fields
  | _ => JUndefined
  end.

(** A property is populated when it holds something else than [undefined]
    or [null]. *)
Definition populated (v : JSValue) : bool :=
  match v with
  | JUndefined | JNull => false
  | _ => true
  end.

(** [x ? ... : ...] and [x || y] on a string: the empty string is falsy. *)
Definition truthy_string (s : option string) : bool :=
  match s with
  | Some s => negb (String.eqb s EmptyString)
  | None => false
  end.

Definition js_string_list (l : list string) : JSValue := JArr (JStr <$> l).

(** The double quote character, for template literals that print one. *)
Definition dq : string := String (Ascii.ascii_of_nat 34) EmptyString.

(** [`${n}`] for an integer below 10^21 in magnitude, which JavaScript
    prints with all its digits (from 10^21 on it prints an exponent). *)
Definition string_of_number (n : Z) : string :=
  NilZero.string_of_int (Z.to_int n).

(** ** Thrown errors and settled promises *)

Inductive JSError : Type :=
| Error (message : string)
| TypeError (message : string).

Definition error_message (e : JSError) : string :=
  match e with
  | Error m | TypeError m => m
  end.

Inductive Outcome (A : Type) : Type :=
| Fulfilled (value : A)
| Rejected (reason : JSError).
Arguments Fulfilled {A} value.
Arguments Rejected {A} reason.

Definition is_fulfilled {A} (o : Outcome A) : bool :=
  match o with
  | Fulfilled _ => true
  | Rejected _ => false
  end.

(** ** Observable events *)

Inductive Event : Type :=
| ConsoleLog (line : string)
| ConsoleError (line : string)
| ToolsExecute (toolSlug userId : string) (toolArguments : JSValue)
| ToolsGet (userId : string) (tools : list string)
| ToolsCreateCustomTool (slug : string)
| MessagesCreate (content : string)
| HandleToolCalls (userId : string).

Abbreviation Trace := (list Event).

(** ** The monad of asynchronous functions *)

Definition M (A : Type) : Type := Trace -> Trace * Outcome A.

Definition ret {A} (a : A) : M A := fun w => (w, Fulfilled a).

Definition throw {A} (e : JSError) : M A := fun w => (w, Rejected e).

Definition bind {A B} (m : M A) (k : A -> M B) : M B :=
  fun w =>
    match m w with
    | (w', Fulfilled a) => k a w'
    | (w', Rejected e) => (w', Rejected e)
    end.

(** [try { m } catch (error) { h error }] *)
Definition try_catch {A} (m : M A) (h : JSError -> M A) : M A :=
  fun w =>
    match m w with
    | (w', Fulfilled a) => (w', Fulfilled a)
    | (w', Rejected e) => h e w'
    end.

Definition emit (e : Event) : M unit := fun w => (w ++ [e], Fulfilled tt).

(** [await call(...)]: the call is recorded, then the promise it returned
    settles as the collaborator decides. *)
Definition await {A} (call : Event) (answer : Outcome A) : M A :=
  fun w => (w ++ [call], answer).

Definition console_log (line : string) : M unit := emit (ConsoleLog line).
Definition console_error (line : string) : M unit := emit (ConsoleError line).

Declare Scope async_scope.
Delimit Scope async_scope with async.
Notation "'let!' x ':=' m 'in' k" := (bind m (fun x => k))
  (at level 10, x name, m at level 100, k at level 200) : async_scope.
Notation "m ';;' k" := (bind m (fun _ => k))
  (at level 100, k at level 200, right associativity) : async_scope.
Local Open Scope async_scope.

(** ** Collaborators *)

(** What [composio.tools.execute] resolves to. *)
Record ToolExecuteResponse : Type := {
  data : JSValue;
  successful : bool;
  error : option string (* [null] is [None] *)
}.

(** The literal fields of what is passed to [createCustomTool]; the
    [inputParams] and [execute] fields of the tools studied below are
    given further down. *)
Record CustomTool : Type := {
  name : string;
  description : string;
  slug : string
}.

(** The SDK, the LLM client and the locale of the runtime.  Console lines
    are recorded without their leading pictograph, and an error object is
    printed as its message. *)
Record Collaborators : Type := {
  tools_execute : string -> string -> JSValue -> Outcome ToolExecuteResponse;
  tools_get : string -> list string -> Outcome JSValue;
  tools_createCustomTool : Trace -> CustomTool -> Outcome unit;
  messages_create : string -> JSValue -> Outcome JSValue;
  handleToolCalls : string -> JSValue -> Outcome JSValue;
  toLocaleString : string -> string
}.

(** [String(x)] for [x : string | null], as [new Error(x)] computes it. *)
Definition String_of_error (e : option string) : string :=
  match e with
  | Some s => s
  | None => "null"
  end.

(** ** composio-client: [executeTool] *)

Section ComposioClient.
Variable sdk : Collaborators.

Definition executeTool (toolSlug userId : string) (toolArguments : JSValue)
  : M JSValue :=
  try_catch
    (console_log ("Executing tool: " +:+ toolSlug) ;;
     let! result := await (ToolsExecute toolSlug userId toolArguments)
                          (tools_execute sdk toolSlug userId toolArguments) in
     if successful result then
       console_log "Tool executed successfully" ;;
       ret (data result)
     else
       console_error ("Tool execution failed: " +:+ String_of_error (error result)) ;;
       throw (Error (String_of_error (error result))))
    (fun error =>
       console_error ("Failed to execute tool " +:+ toolSlug +:+ ": "
                      +:+ error_message error) ;;
       throw error).
End ComposioClient.

(** ** [Promise.all]

    Every element is a promise together with the console lines its
    continuation prints when it settles.  The promises settle in the order
    [completion] (indices into the array); a promise that the order does
    not name settles after those it names, so that every promise settles
    exactly once.  The aggregate rejects with the first rejection it sees
    and otherwise fulfils with the array of values, slot [i] holding the
    value of promise [i]. *)

Abbreviation Settled A := (list Event * Outcome A)%type.

Fixpoint settle_all {A} (promises : list (Settled A)) (order : list nat)
    (values : list (option A)) : Settled (list A) :=
  match order with
  | [] => ([], Fulfilled (omap id values))
  | i :: rest =>
      match values !! i, promises !! i with
      | Some None, Some (lines, Fulfilled v) =>
          let (lines', result) := settle_all promises rest (<[i := Some v]> values) in
          (lines ++ lines', result)
      | Some None, Some (lines, Rejected e) => (lines, Rejected e)
      | _, _ => settle_all promises rest values
      end
  end.

Definition promise_all {A} (completion : list nat) (promises : list (Settled A))
  : M (list A) :=
  fun w =>
    let n := length promises in
    let (lines, result) :=
      settle_all promises (completion ++ seq 0 n) (replicate n None) in
    (w ++ lines, result).

(** A call of an async function that is not awaited at once: the function
    runs up to its first [await] ([started]), and the promise it returns
    settles later ([settled]). *)
Record Promise (A : Type) : Type := {
  started : list Event;
  settled : Settled A
}.
Arguments started {A} p.
Arguments settled {A} p.

(** [array.map(async x => ...)]: the callbacks start in the order of the
    array. *)
Definition map_async {A B} (f : A -> Promise B) (l : list A) : M (list (Settled B)) :=
  fun w => (w ++ concat (started <$> (f <$> l)), Fulfilled (settled <$> (f <$> l))).

(** [[f(), g(), ...]]: the calls of an array literal start from left to
    right, each one seeing what the calls before it have done. *)
Fixpoint start_all {B} (calls : list (Trace -> Promise B)) : M (list (Settled B)) :=
  match calls with
  | [] => ret []
  | call :: rest =>
      fun w =>
        bind (start_all rest) (fun promises => ret (settled (call w) :: promises))
          (w ++ started (call w))
  end.

(** [array.forEach(x => ...)] with a callback that only prints. *)
Fixpoint for_each {A} (f : A -> M unit) (l : list A) : M unit :=
  match l with
  | [] => ret tt
  | x :: rest => f x ;; for_each f rest
  end.

(** ** GoogleWorkspaceAgent *)

Record GoogleWorkspaceAgent : Type := {
  userId : string;
  connectedServices : gset string
}.

Record EmailOptions : Type := {
  cc : option string;
  bcc : option string;
  attachments : option (list string)
}.

Record CalendarEvent : Type := {
  event_title : string;
  event_start : string;
  event_end : string;
  event_description : option string;
  event_attendees : option (list string);
  event_location : option string
}.

Record Meeting : Type := {
  meeting_title : string;
  meeting_start : string;
  meeting_end : string;
  meeting_attendees : list string;
  meeting_agenda : option string;
  meeting_location : option string
}.

Record MeetingResult : Type := {
  event : JSValue;
  emailsSent : list JSValue
}.

Definition optional_string (s : option string) : JSValue :=
  match s with
  | Some s => JStr s
  | None => JUndefined
  end.

Definition present (key : string) (v : option JSValue) : list (string * JSValue) :=
  match v with
  | Some v => [(key, v)]
  | None => []
  end.

(** [...options] *)
Definition spread_options (options : option EmailOptions) : list (string * JSValue) :=
  match options with
  | None => []
  | Some o =>
      present "cc" (JStr <$> cc o) ++ present "bcc" (JStr <$> bcc o)
      ++ present "attachments" (js_string_list <$> attachments o)
  end.

Definition nl : string := String (Ascii.ascii_of_nat 10) EmptyString.

Section Agent.
Variable sdk : Collaborators.

Definition emailData (to subject body : string) (options : option EmailOptions)
  : JSValue :=
  JObj ([("to", JStr to); ("subject", JStr subject); ("body", JStr body)]
        ++ spread_options options).

Definition sendEmail (agent : GoogleWorkspaceAgent) (to subject body : string)
    (options : option EmailOptions) : M JSValue :=
  if negb (bool_decide ("gmail" ∈ connectedServices agent)) then
    throw (Error "Gmail not connected. Please authenticate first.")
  else
    console_log ("Sending email to " +:+ to +:+ ": " +:+ dq +:+ subject +:+ dq) ;;
    executeTool sdk "GMAIL_SEND_EMAIL" (userId agent)
      (emailData to subject body options).

(** The arguments that [createCalendarEvent] passes to its tool. *)
Definition eventData (event : CalendarEvent) : JSValue :=
  JObj [("summary", JStr (event_title event));
        ("start", JObj [("dateTime", JStr (event_start event))]);
        ("end", JObj [("dateTime", JStr (event_end event))]);
        ("description", optional_string (event_description event));
        ("attendees",
         match event_attendees event with
         | Some l => JArr ((fun email => JObj [("email", JStr email)]) <$> l)
         | None => JUndefined
         end);
        ("location", optional_string (event_location event))].

Definition createCalendarEvent (agent : GoogleWorkspaceAgent) (event : CalendarEvent)
  : M JSValue :=
  if negb (bool_decide ("googlecalendar" ∈ connectedServices agent)) then
    throw (Error "Google Calendar not connected. Please authenticate first.")
  else
    console_log ("Creating calendar event: " +:+ dq +:+ event_title event +:+ dq) ;;
    executeTool sdk "GOOGLECALENDAR_CREATE_EVENT" (userId agent) (eventData event).

Definition uploadParams (filename content : string) (parentFolderId : option string)
  : JSValue :=
  JObj [("name", JStr filename);
        ("content", JStr content);
        ("parents",
         if truthy_string parentFolderId
         then JArr [optional_string parentFolderId]
         else JUndefined)].

Definition uploadToDrive (agent : GoogleWorkspaceAgent) (filename content : string)
    (parentFolderId : option string) : M JSValue :=
  if negb (bool_decide ("googledrive" ∈ connectedServices agent)) then
    throw (Error "Google Drive not connected. Please authenticate first.")
  else
    console_log ("Uploading file to Drive: " +:+ dq +:+ filename +:+ dq) ;;
    executeTool sdk "GOOGLEDRIVE_UPLOAD_FILE" (userId agent)
      (uploadParams filename content parentFolderId).

(** *** The meeting workflow *)

(** [executeTool] after [composio.tools.execute] has settled. *)
Definition executeTool_settled (toolSlug : string)
    (answer : Outcome ToolExecuteResponse) : Settled JSValue :=
  match answer with
  | Fulfilled result =>
      if successful result then
        ([ConsoleLog "Tool executed successfully"], Fulfilled (data result))
      else
        ([ConsoleError ("Tool execution failed: " +:+ String_of_error (error result));
          ConsoleError ("Failed to execute tool " +:+ toolSlug +:+ ": "
                        +:+ String_of_error (error result))],
         Rejected (Error (String_of_error (error result))))
  | Rejected e =>
      ([ConsoleError ("Failed to execute tool " +:+ toolSlug +:+ ": "
                      +:+ error_message e)],
       Rejected e)
  end.

(** [this.sendEmail(...)] called without [await]: what runs at once and
    what the returned promise settles to. *)
Definition sendEmail_promise (agent : GoogleWorkspaceAgent) (to subject body : string)
    (options : option EmailOptions) : Promise JSValue :=
  if negb (bool_decide ("gmail" ∈ connectedServices agent)) then
    {| started := [];
       settled := ([], Rejected (Error "Gmail not connected. Please authenticate first.")) |}
  else
    {| started :=
         [ConsoleLog ("Sending email to " +:+ to +:+ ": " +:+ dq +:+ subject +:+ dq);
          ConsoleLog "Executing tool: GMAIL_SEND_EMAIL";
          ToolsExecute "GMAIL_SEND_EMAIL" (userId agent)
            (emailData to subject body options)];
       settled :=
         executeTool_settled "GMAIL_SEND_EMAIL"
           (tools_execute sdk "GMAIL_SEND_EMAIL" (userId agent)
              (emailData to subject body options)) |}.

Definition emailBody (meeting : Meeting) : string :=
  "Hi," +:+ nl +:+ nl
  +:+ "You're invited to " +:+ dq +:+ meeting_title meeting +:+ dq +:+ nl +:+ nl
  +:+ "📅 When: " +:+ toLocaleString sdk (meeting_start meeting) +:+ " - "
  +:+ toLocaleString sdk (meeting_end meeting) +:+ nl
  +:+ "📍 Where: "
  +:+ (if truthy_string (meeting_location meeting)
       then default EmptyString (meeting_location meeting) else "Online")
  +:+ nl +:+ nl
  +:+ (if truthy_string (meeting_agenda meeting)
       then "📋 Agenda:" +:+ nl +:+ default EmptyString (meeting_agenda meeting)
       else EmptyString)
  +:+ nl +:+ nl
  +:+ "Please confirm your attendance." +:+ nl +:+ nl
  +:+ "Best regards".

(** [createCalendarEvent(meeting)]: the meeting is read as an event; it
    has no [description]. *)
Definition event_of_meeting (meeting : Meeting) : CalendarEvent :=
  {| event_title := meeting_title meeting;
     event_start := meeting_start meeting;
     event_end := meeting_end meeting;
     event_description := None;
     event_attendees := Some (meeting_attendees meeting);
     event_location := meeting_location meeting |}.

Definition invite (agent : GoogleWorkspaceAgent) (meeting : Meeting)
    (attendee : string) : Promise JSValue :=
  sendEmail_promise agent attendee ("Meeting Invite: " +:+ meeting_title meeting)
    (emailBody meeting) None.

(** [completion] is the order in which the invitations settle. *)
Definition scheduleMeetingWithInvites (completion : list nat)
    (agent : GoogleWorkspaceAgent) (meeting : Meeting) : M MeetingResult :=
  console_log ("Orchestrating meeting workflow: " +:+ dq +:+ meeting_title meeting +:+ dq) ;;
  let! event := createCalendarEvent agent (event_of_meeting meeting) in
  let! emailPromises := map_async (invite agent meeting) (meeting_attendees meeting) in
  let! emailsSent := promise_all completion emailPromises in
  console_log ("Meeting workflow completed: Event created, "
               +:+ string_of_number (Z.of_nat (length emailsSent))
               +:+ " invites sent") ;;
  ret {| event := event; emailsSent := emailsSent |}.
End Agent.

(** ** GoogleWorkspaceMCP: the custom tools of [index.ts]

    Each group below lists, in the order of the source, the [name],
    [description] and [slug] of the tools that the group's method passes
    to [composio.tools.createCustomTool]. *)

Definition gmailCustomTools : list CustomTool :=
  [ {| name := "Get Gmail Messages Content Batch";
       description :=
         "Retrieves the full content (subject, body, attachments) of multiple Gmail messages by their IDs";
       slug := "GMAIL_GET_MESSAGES_CONTENT_BATCH" |};
    {| name := "Get Gmail Threads Content Batch";
       description :=
         "Retrieves the full content of multiple Gmail threads by their IDs";
       slug := "GMAIL_GET_THREADS_CONTENT_BATCH" |};
    {| name := "Draft Gmail Message";
       description :=
         "Creates a draft email in Gmail without sending it";
       slug := "GMAIL_DRAFT_MESSAGE" |};
    {| name := "Batch Modify Gmail Message Labels";
       description :=
         "Add or remove labels from multiple Gmail messages in a single operation";
       slug := "GMAIL_BATCH_MODIFY_LABELS" |};
    {| name := "Create Gmail Label";
       description :=
         "Creates a new Gmail label with optional color and type settings";
       slug := "GMAIL_CREATE_LABEL" |};
    {| name := "Search Gmail Messages with Filters";
       description :=
         "Advanced Gmail search with comprehensive filtering options and pagination";
       slug := "GMAIL_SEARCH_MESSAGES_FILTERS" |};
    {| name := "Get Gmail Message Raw";
       description :=
         "Retrieves the raw RFC 2822 email content of a Gmail message";
       slug := "GMAIL_GET_MESSAGE_RAW" |};
    {| name := "Batch Delete Gmail Messages";
       description :=
         "Permanently delete multiple Gmail messages by their IDs";
       slug := "GMAIL_BATCH_DELETE_MESSAGES" |};
    {| name := "Get Gmail User Profile";
       description :=
         "Retrieves the Gmail user profile information including storage quota";
       slug := "GMAIL_GET_USER_PROFILE" |};
    {| name := "Watch Gmail Mailbox";
       description :=
         "Set up Gmail push notifications for mailbox changes";
       slug := "GMAIL_WATCH_MAILBOX" |};
    {| name := "Get Gmail Attachment";
       description :=
         "Downloads a specific Gmail attachment by message ID and attachment ID";
       slug := "GMAIL_GET_ATTACHMENT" |};
    {| name := "Batch Archive Gmail Messages";
       description :=
         "Archive multiple Gmail messages by removing INBOX label";
       slug := "GMAIL_BATCH_ARCHIVE_MESSAGES" |};
    {| name := "Get Gmail History";
       description :=
         "Lists the history of changes to the user's mailbox";
       slug := "GMAIL_GET_HISTORY" |};
    {| name := "Stop Gmail Watch";
       description :=
         "Stops Gmail push notifications for the user's mailbox";
       slug := "GMAIL_STOP_WATCH" |} ].

Definition calendarCustomTools : list CustomTool :=
  [ {| name := "List Calendar Events with Filters";
       description :=
         "Lists Google Calendar events with advanced filtering and pagination options";
       slug := "CALENDAR_LIST_EVENTS_FILTERS" |};
    {| name := "Get Calendar Event Details";
       description :=
         "Retrieves detailed information about a specific Calendar event";
       slug := "CALENDAR_GET_EVENT" |};
    {| name := "Update Calendar Event";
       description :=
         "Updates an existing Google Calendar event with new details";
       slug := "CALENDAR_UPDATE_EVENT" |};
    {| name := "Delete Calendar Event";
       description :=
         "Deletes a Google Calendar event permanently";
       slug := "CALENDAR_DELETE_EVENT" |};
    {| name := "List User Calendars";
       description :=
         "Lists all calendars accessible by the user";
       slug := "CALENDAR_LIST_CALENDARS" |} ].

Definition driveCustomTools : list CustomTool :=
  [ {| name := "Search Drive Files with Filters";
       description :=
         "Advanced Google Drive file search with comprehensive filtering options";
       slug := "DRIVE_SEARCH_FILES_FILTERS" |};
    {| name := "Get Drive File Content";
       description :=
         "Downloads and retrieves the content of a Google Drive file";
       slug := "DRIVE_GET_FILE_CONTENT" |};
    {| name := "Upload File to Drive";
       description :=
         "Uploads a file to Google Drive with metadata";
       slug := "DRIVE_UPLOAD_FILE" |};
    {| name := "Create Drive Folder";
       description :=
         "Creates a new folder in Google Drive";
       slug := "DRIVE_CREATE_FOLDER" |};
    {| name := "Copy Drive File";
       description :=
         "Creates a copy of an existing Google Drive file";
       slug := "DRIVE_COPY_FILE" |};
    {| name := "Batch Get Drive File Metadata";
       description :=
         "Retrieves metadata for multiple Google Drive files";
       slug := "DRIVE_BATCH_GET_METADATA" |} ].

Definition docsCustomTools : list CustomTool :=
  [ {| name := "Get Document Content with Structure";
       description :=
         "Retrieves Google Docs content with structural elements and formatting";
       slug := "DOCS_GET_CONTENT_STRUCTURE" |};
    {| name := "Batch Update Document Content";
       description :=
         "Performs multiple content updates to a Google Docs document in a single request";
       slug := "DOCS_BATCH_UPDATE_CONTENT" |};
    {| name := "Insert Image into Document";
       description :=
         "Inserts an image into a Google Docs document at specified location";
       slug := "DOCS_INSERT_IMAGE" |};
    {| name := "Create Document from Template";
       description :=
         "Creates a new Google Docs document from an existing template";
       slug := "DOCS_CREATE_FROM_TEMPLATE" |};
    {| name := "Replace Text in Document";
       description :=
         "Replaces all instances of specified text in a Google Docs document";
       slug := "DOCS_REPLACE_TEXT" |};
    {| name := "Get Document Suggestions";
       description :=
         "Retrieves all suggestions and comments from a Google Docs document";
       slug := "DOCS_GET_SUGGESTIONS" |};
    {| name := "Apply Document Formatting";
       description :=
         "Applies text formatting to specified ranges in a Google Docs document";
       slug := "DOCS_APPLY_FORMATTING" |};
    {| name := "Insert Table into Document";
       description :=
         "Inserts a table with specified dimensions into a Google Docs document";
       slug := "DOCS_INSERT_TABLE" |};
    {| name := "Get Document Revision History";
       description :=
         "Retrieves the revision history of a Google Docs document";
       slug := "DOCS_GET_REVISION_HISTORY" |};
    {| name := "Export Document to Format";
       description :=
         "Exports a Google Docs document to various formats (PDF, DOCX, HTML, etc.)";
       slug := "DOCS_EXPORT_DOCUMENT" |};
    {| name := "Insert Page Break";
       description :=
         "Inserts a page break at specified location in a Google Docs document";
       slug := "DOCS_INSERT_PAGE_BREAK" |};
    {| name := "Batch Get Document Metadata";
       description :=
         "Retrieves metadata for multiple Google Docs documents";
       slug := "DOCS_BATCH_GET_METADATA" |};
    {| name := "Create Named Range in Document";
       description :=
         "Creates a named range for easy reference to specific content in a Google Docs document";
       slug := "DOCS_CREATE_NAMED_RANGE" |};
    {| name := "Get Document Outline";
       description :=
         "Extracts the outline/table of contents from a Google Docs document";
       slug := "DOCS_GET_OUTLINE" |} ].

Definition sheetsCustomTools : list CustomTool :=
  [ {| name := "List Spreadsheets";
       description :=
         "Lists spreadsheets from Google Drive that the user has access to";
       slug := "SHEETS_LIST_SPREADSHEETS" |};
    {| name := "Get Spreadsheet Info";
       description :=
         "Gets information about a specific spreadsheet including its sheets";
       slug := "SHEETS_GET_SPREADSHEET_INFO" |};
    {| name := "Read Sheet Values";
       description :=
         "Reads values from a specific range in a Google Sheet";
       slug := "SHEETS_READ_SHEET_VALUES" |};
    {| name := "Modify Sheet Values";
       description :=
         "Modifies values in a specific range of a Google Sheet - can write, update, or clear values";
       slug := "SHEETS_MODIFY_SHEET_VALUES" |};
    {| name := "Create Spreadsheet";
       description :=
         "Creates a new Google Spreadsheet";
       slug := "SHEETS_CREATE_SPREADSHEET" |};
    {| name := "Create Sheet";
       description :=
         "Creates a new sheet within an existing spreadsheet";
       slug := "SHEETS_CREATE_SHEET" |} ].

Definition slidesCustomTools : list CustomTool :=
  [ {| name := "Create Presentation";
       description :=
         "Create a new Google Slides presentation";
       slug := "SLIDES_CREATE_PRESENTATION" |};
    {| name := "Get Presentation";
       description :=
         "Get details about a Google Slides presentation";
       slug := "SLIDES_GET_PRESENTATION" |};
    {| name := "Batch Update Presentation";
       description :=
         "Apply batch updates to a Google Slides presentation";
       slug := "SLIDES_BATCH_UPDATE_PRESENTATION" |};
    {| name := "Get Page";
       description :=
         "Get details about a specific page (slide) in a presentation";
       slug := "SLIDES_GET_PAGE" |};
    {| name := "Get Page Thumbnail";
       description :=
         "Generate a thumbnail URL for a specific page (slide) in a presentation";
       slug := "SLIDES_GET_PAGE_THUMBNAIL" |} ].

Definition formsCustomTools : list CustomTool :=
  [ {| name := "Create Form";
       description :=
         "Create a new form using the title given in the provided form message in the request";
       slug := "FORMS_CREATE_FORM" |};
    {| name := "Get Form";
       description :=
         "Get a form";
       slug := "FORMS_GET_FORM" |};
    {| name := "Set Publish Settings";
       description :=
         "Updates the publish settings of a form";
       slug := "FORMS_SET_PUBLISH_SETTINGS" |};
    {| name := "Get Form Response";
       description :=
         "Get one response from the form";
       slug := "FORMS_GET_FORM_RESPONSE" |};
    {| name := "List Form Responses";
       description :=
         "List a form's responses";
       slug := "FORMS_LIST_FORM_RESPONSES" |} ].

Definition chatCustomTools : list CustomTool :=
  [ {| name := "List Spaces";
       description :=
         "Lists Google Chat spaces (rooms and direct messages) accessible to the user";
       slug := "CHAT_LIST_SPACES" |};
    {| name := "Get Messages";
       description :=
         "Retrieves messages from a Google Chat space";
       slug := "CHAT_GET_MESSAGES" |};
    {| name := "Send Message";
       description :=
         "Sends a message to a Google Chat space";
       slug := "CHAT_SEND_MESSAGE" |};
    {| name := "Search Messages";
       description :=
         "Searches for messages in Google Chat spaces by text content";
       slug := "CHAT_SEARCH_MESSAGES" |} ].

Definition searchCustomTools : list CustomTool :=
  [ {| name := "Search Custom";
       description :=
         "Performs a search using Google Custom Search JSON API";
       slug := "SEARCH_CUSTOM" |};
    {| name := "Get Search Engine Info";
       description :=
         "Retrieves metadata about a Programmable Search Engine";
       slug := "SEARCH_GET_SEARCH_ENGINE_INFO" |};
    {| name := "Search Custom Site Restrict";
       description :=
         "Performs a search restricted to specific sites using Google Custom Search";
       slug := "SEARCH_CUSTOM_SITERESTRICT" |} ].

Definition tasksCustomTools : list CustomTool :=
  [ {| name := "List Task Lists";
       description :=
         "List all task lists for the user";
       slug := "TASKS_LIST_TASK_LISTS" |};
    {| name := "Get Task List";
       description :=
         "Get details of a specific task list";
       slug := "TASKS_GET_TASK_LIST" |};
    {| name := "Create Task List";
       description :=
         "Create a new task list";
       slug := "TASKS_CREATE_TASK_LIST" |};
    {| name := "Update Task List";
       description :=
         "Update an existing task list";
       slug := "TASKS_UPDATE_TASK_LIST" |};
    {| name := "Delete Task List";
       description :=
         "Delete a task list. Note: This will also delete all tasks in the list";
       slug := "TASKS_DELETE_TASK_LIST" |};
    {| name := "List Tasks";
       description :=
         "List all tasks in a specific task list";
       slug := "TASKS_LIST_TASKS" |};
    {| name := "Get Task";
       description :=
         "Get details of a specific task";
       slug := "TASKS_GET_TASK" |};
    {| name := "Create Task";
       description :=
         "Create a new task in a task list";
       slug := "TASKS_CREATE_TASK" |};
    {| name := "Update Task";
       description :=
         "Update an existing task";
       slug := "TASKS_UPDATE_TASK" |};
    {| name := "Delete Task";
       description :=
         "Delete a specific task";
       slug := "TASKS_DELETE_TASK" |};
    {| name := "Move Task";
       description :=
         "Move a task to another position in the task list or to another parent";
       slug := "TASKS_MOVE_TASK" |};
    {| name := "Clear Completed Tasks";
       description :=
         "Clear all completed tasks from a task list";
       slug := "TASKS_CLEAR_COMPLETED_TASKS" |} ].

Definition commentCustomTools : list CustomTool :=
  [ {| name := "Read Document Comments";
       description :=
         "Read all comments from a Google Document";
       slug := "DOCS_READ_COMMENTS" |};
    {| name := "Create Document Comment";
       description :=
         "Create a new comment on a Google Document";
       slug := "DOCS_CREATE_COMMENT" |};
    {| name := "Reply to Document Comment";
       description :=
         "Reply to a specific comment in a Google Document";
       slug := "DOCS_REPLY_COMMENT" |};
    {| name := "Resolve Document Comment";
       description :=
         "Resolve a comment in a Google Document";
       slug := "DOCS_RESOLVE_COMMENT" |};
    {| name := "Read Spreadsheet Comments";
       description :=
         "Read all comments from a Google Spreadsheet";
       slug := "SHEETS_READ_COMMENTS" |};
    {| name := "Create Spreadsheet Comment";
       description :=
         "Create a new comment on a Google Spreadsheet";
       slug := "SHEETS_CREATE_COMMENT" |};
    {| name := "Reply to Spreadsheet Comment";
       description :=
         "Reply to a specific comment in a Google Spreadsheet";
       slug := "SHEETS_REPLY_COMMENT" |};
    {| name := "Resolve Spreadsheet Comment";
       description :=
         "Resolve a comment in a Google Spreadsheet";
       slug := "SHEETS_RESOLVE_COMMENT" |};
    {| name := "Read Presentation Comments";
       description :=
         "Read all comments from a Google Presentation";
       slug := "SLIDES_READ_COMMENTS" |};
    {| name := "Create Presentation Comment";
       description :=
         "Create a new comment on a Google Presentation";
       slug := "SLIDES_CREATE_COMMENT" |};
    {| name := "Reply to Presentation Comment";
       description :=
         "Reply to a specific comment in a Google Presentation";
       slug := "SLIDES_REPLY_COMMENT" |};
    {| name := "Resolve Presentation Comment";
       description :=
         "Resolve a comment in a Google Presentation";
       slug := "SLIDES_RESOLVE_COMMENT" |} ].

(** *** Registration *)

Section Registration.
Variable sdk : Collaborators.

(** [await this.composio.tools.createCustomTool({...})]; the SDK may
    answer according to what was registered before. *)
Definition createCustomTool (tool : CustomTool) : M unit :=
  fun w => (w ++ [ToolsCreateCustomTool (slug tool)], tools_createCustomTool sdk w tool).

(** The registrations of one group, one [await] after the other. *)
Fixpoint createCustomTools (tools : list CustomTool) : M unit :=
  match tools with
  | [] => ret tt
  | tool :: rest => createCustomTool tool ;; createCustomTools rest
  end.

Definition createGmailCustomTools : M unit :=
  createCustomTools gmailCustomTools ;;
  console_log "Created 11 custom Gmail tools".

Definition createCalendarCustomTools : M unit :=
  createCustomTools calendarCustomTools ;;
  console_log "Created 5 custom Calendar tools".

Definition createDriveCustomTools : M unit :=
  createCustomTools driveCustomTools ;;
  console_log "Created 6 custom Drive tools".

Definition createDocsCustomTools : M unit :=
  createCustomTools docsCustomTools ;;
  console_log "Created 14 custom Docs tools".

Definition createSheetsCustomTools : M unit :=
  createCustomTools sheetsCustomTools ;;
  console_log "Created 6 custom Sheets tools".

Definition createSlidesCustomTools : M unit :=
  createCustomTools slidesCustomTools ;;
  console_log "Created 5 custom Slides tools".

Definition createFormsCustomTools : M unit :=
  createCustomTools formsCustomTools ;;
  console_log "Created 5 custom Forms tools".

Definition createChatCustomTools : M unit :=
  createCustomTools chatCustomTools ;;
  console_log "Created 4 custom Chat tools".

Definition createSearchCustomTools : M unit :=
  createCustomTools searchCustomTools ;;
  console_log "Created 3 custom Search tools".

Definition createTasksCustomTools : M unit :=
  createCustomTools tasksCustomTools ;;
  console_log "Created 12 custom Tasks tools".

Definition createCommentCustomTools : M unit :=
  createCustomTools commentCustomTools ;;
  console_log "Created 10 custom Comments tools (4 Docs + 4 Sheets + 4 Slides)".

Definition initializeCustomTools : M unit :=
  console_log "Creating 84 custom Google Workspace tools..." ;;
  createGmailCustomTools ;;
  createCalendarCustomTools ;;
  createDriveCustomTools ;;
  createDocsCustomTools ;;
  createSheetsCustomTools ;;
  createSlidesCustomTools ;;
  createFormsCustomTools ;;
  createChatCustomTools ;;
  createSearchCustomTools ;;
  createTasksCustomTools ;;
  createCommentCustomTools ;;
  console_log "All 84 custom tools created successfully!".
End Registration.

(** The groups in the order in which [initializeCustomTools] runs them. *)
Definition customToolGroups : list (list CustomTool) :=
  [ gmailCustomTools;
    calendarCustomTools;
    driveCustomTools;
    docsCustomTools;
    sheetsCustomTools;
    slidesCustomTools;
    formsCustomTools;
    chatCustomTools;
    searchCustomTools;
    tasksCustomTools;
    commentCustomTools ].

Definition customTools : list CustomTool := concat customToolGroups.

(** *** [searchGmailMessages] *)

Section Search.
Variable sdk : Collaborators.

(** The template literal handed to the LLM. *)
Definition searchPrompt (query : string) (maxResults : Z) : string :=
  "Search Gmail for messages matching " +:+ dq +:+ query +:+ dq
  +:+ " and return the first " +:+ string_of_number maxResults +:+ " results".

(** [async searchGmailMessages(query: string, maxResults: number = 10)];
    an omitted argument is [None]. *)
Definition searchGmailMessages (userId query : string) (maxResults : option Z)
  : M JSValue :=
  let maxResults := default 10%Z maxResults in
  try_catch
    (console_log ("Searching Gmail messages: " +:+ dq +:+ query +:+ dq) ;;
     let! tools := await (ToolsGet userId ["GMAIL_SEARCH_MESSAGES"])
                         (tools_get sdk userId ["GMAIL_SEARCH_MESSAGES"]) in
     let! msg := await (MessagesCreate (searchPrompt query maxResults))
                       (messages_create sdk (searchPrompt query maxResults) tools) in
     let! result := await (HandleToolCalls userId) (handleToolCalls sdk userId msg) in
     console_log ("Found Gmail messages for query: " +:+ query) ;;
     ret result)
    (fun error =>
       console_error ("Failed to search Gmail messages: " +:+ error_message error) ;;
       throw error).
End Search.

(** *** Executors

    An executor receives the input that its [inputParams] schema has
    parsed, so its input is a record of the schema's fields, an optional
    field being an [option].  It returns the object literal of the
    source. *)

Definition number_of_length {A} (l : list A) : JSValue := JNum (Z.of_nat (length l)).

Module GMAIL_GET_MESSAGES_CONTENT_BATCH.
Record Input : Type := {
  message_ids : list string;
  user_google_email : string;
  include_attachments : option bool
}.

Definition execute (input : Input) : JSValue :=
  JObj [("data",
         JObj [("messages", JArr []);
               ("count", number_of_length (message_ids input));
               ("user_email", JStr (user_google_email input))])].
End GMAIL_GET_MESSAGES_CONTENT_BATCH.

Module GMAIL_SEARCH_MESSAGES_FILTERS.
Record Input : Type := {
  query : string;
  user_google_email : string;
  max_results : option Z;
  label_ids : option (list string);
  include_spam_trash : option bool;
  page_token : option string
}.

Definition execute (input : Input) : JSValue :=
  let max_results := default 10%Z (max_results input) in
  JObj [("data",
         JObj [("messages", JArr []);
               ("next_page_token", JNull);
               ("result_size_estimate", JNum 0);
               ("query", JStr (query input));
               ("max_results", JNum max_results)])].
End GMAIL_SEARCH_MESSAGES_FILTERS.

Module GMAIL_BATCH_DELETE_MESSAGES.
Record Input : Type := {
  message_ids : list string;
  user_google_email : string
}.

Definition execute (input : Input) : JSValue :=
  JObj [("data",
         JObj [("deleted_count", number_of_length (message_ids input));
               ("message_ids", js_string_list (message_ids input));
               ("status", JStr "success")])].
End GMAIL_BATCH_DELETE_MESSAGES.

Module SHEETS_MODIFY_SHEET_VALUES.
Record Input : Type := {
  user_google_email : string;
  spreadsheet_id : string;
  range_name : string;
  values : option (list (list string));
  value_input_option : option string;
  clear_values : option bool
}.

(** [values?.length || 0] *)
Definition rows (values : option (list (list string))) : Z :=
  match values with
  | Some rows => Z.of_nat (length rows)
  | None => 0
  end.

(** [values?.[0]?.length || 0] *)
Definition columns (values : option (list (list string))) : Z :=
  match values with
  | Some (row :: _) => Z.of_nat (length row)
  | Some [] | None => 0
  end.

Definition execute (input : Input) : JSValue :=
  let clear_values := default false (clear_values input) in
  JObj [("data",
         JObj [("updated_cells", JNum (if clear_values then 0 else rows (values input)));
               ("updated_rows", JNum (if clear_values then 0 else rows (values input)));
               ("updated_columns",
                JNum (if clear_values then 0 else columns (values input)));
               ("range", JStr (range_name input));
               ("operation", JStr (if clear_values then "clear" else "update"));
               ("spreadsheet_id", JStr (spreadsheet_id input))])].
End SHEETS_MODIFY_SHEET_VALUES.

(** The first of the four custom tools of [custom-tools]; its executor
    draws random numbers and reads the clock, which are passed in. *)
Module EMAIL_ANALYTICS.
Inductive Timeframe : Type := day | week | month.
Inductive AnalysisType : Type := volume | sentiment | response_time.

Record Input : Type := {
  timeframe : Timeframe;
  analysisType : AnalysisType;
  includeThreads : bool
}.

Record Ambient : Type := {
  draw_total_emails : Z;   (* [Math.floor(Math.random() * 100)] *)
  draw_avg_daily : Z;      (* [Math.floor(Math.random() * 20)] *)
  draw_response_rate : Z;  (* [Math.floor(Math.random() * 40)] *)
  sentiment_score : JSValue;
  generated_at : string
}.

Definition timeframe_string (t : Timeframe) : string :=
  match t with day => "day" | week => "week" | month => "month" end.

Definition analysisType_string (a : AnalysisType) : string :=
  match a with
  | volume => "volume" | sentiment => "sentiment" | response_time => "response_time"
  end.

Definition sender (email : string) (count : Z) : JSValue :=
  JObj [("email", JStr email); ("count", JNum count)].

Definition execute (env : Ambient) (input : Input) : JSValue :=
  let analytics :=
    JObj [("period", JStr (timeframe_string (timeframe input)));
          ("analysis_type", JStr (analysisType_string (analysisType input)));
          ("metrics",
           JObj [("total_emails", JNum (draw_total_emails env + 20));
                 ("avg_daily", JNum (draw_avg_daily env + 5));
                 ("response_rate", JNum (draw_response_rate env + 60));
                 ("top_senders",
                  JArr [sender "colleague@company.com" 12;
                        sender "client@external.com" 8;
                        sender "notifications@service.com" 25]);
                 ("busiest_hours", js_string_list ["9-10 AM"; "2-3 PM"; "4-5 PM"]);
                 ("sentiment_score", sentiment_score env)]);
          ("insights",
           js_string_list
             ["Peak email activity occurs during mid-morning and afternoon";
              "Response rate is above average for your industry";
              "Consider email batching during high-volume periods"]);
          ("generated_at", JStr (generated_at env))] in
  JObj [("data", analytics); ("successful", JBool true); ("error", JNull)].
End EMAIL_ANALYTICS.

(** ** custom-tools: the four custom tools and their initialization *)

Module CustomTools.

Definition emailAnalyticsTool : CustomTool :=
  {| name := "Email Analytics";
     description := "Analyze email patterns and generate insights";
     slug := "EMAIL_ANALYTICS" |}.

Definition meetingOptimizerTool : CustomTool :=
  {| name := "Meeting Time Optimizer";
     description := "Find optimal meeting times based on attendee availability";
     slug := "MEETING_OPTIMIZER" |}.

Definition documentIntelligenceTool : CustomTool :=
  {| name := "Document Intelligence Analyzer";
     description := "Extract insights and metadata from Google Drive documents";
     slug := "DOCUMENT_INTELLIGENCE" |}.

Definition workflowAutomationTool : CustomTool :=
  {| name := "Google Workspace Workflow Automation";
     description := "Create and execute automated workflows across Google Workspace apps";
     slug := "WORKSPACE_WORKFLOW" |}.

Section Initialization.
Variable sdk : Collaborators.

(** [async () => { return await composio.tools.createCustomTool({...}) }]
    called without [await]: the SDK is called at once, and the promise
    settles to the tool that was registered or to the SDK's refusal. *)
Definition createTool (tool : CustomTool) (w : Trace) : Promise CustomTool :=
  {| started := [ToolsCreateCustomTool (slug tool)];
     settled :=
       ([],
        match tools_createCustomTool sdk w tool with
        | Fulfilled _ => Fulfilled tool
        | Rejected e => Rejected e
        end) |}.

Definition createEmailAnalyticsTool := createTool emailAnalyticsTool.
Definition createMeetingOptimizerTool := createTool meetingOptimizerTool.
Definition createDocumentIntelligenceTool := createTool documentIntelligenceTool.
Definition createWorkflowAutomationTool := createTool workflowAutomationTool.

(** [completion] is the order in which the four registrations settle. *)
Definition initializeCustomTools (completion : list nat) : M (list CustomTool) :=
  console_log "Initializing custom tools..." ;;
  try_catch
    (let! promises := start_all [createEmailAnalyticsTool;
                                 createMeetingOptimizerTool;
                                 createDocumentIntelligenceTool;
                                 createWorkflowAutomationTool] in
     let! tools := promise_all completion promises in
     console_log ("Created " +:+ string_of_number (Z.of_nat (length tools))
                  +:+ " custom tools:") ;;
     for_each (fun tool =>
                 console_log ("  • " +:+ name tool +:+ ": " +:+ description tool))
              tools ;;
     ret tools)
    (fun error =>
       console_error ("Failed to initialize custom tools: " +:+ error_message error) ;;
       throw error).
End Initialization.

End CustomTools.

(** ** GoogleWorkspaceService: the readiness flag *)

Definition USER_ID_default : string := "rsherman@velocityinteractive.com".

Record HealthReport : Type := {
  status : string;
  service : string;
  tools_count : Z;
  user_id : string
}.

(** [pending] counts the calls of [initialize] that wait for
    [initializeCustomTools]; [exit_scheduled] is the timer set by
    [/shutdown]; [running] falls when the process exits. *)
Record ServiceState : Type := {
  isReady : bool;
  pending : nat;
  exit_scheduled : bool;
  running : bool;
  console : Trace
}.

Inductive Action : Type :=
| CallInitialize      (* [initialize()] runs up to its [await] *)
| ResumeInitialize    (* [initializeCustomTools()] has settled *)
| GetHealth
| GetStatus
| GetShutdown
| ExitTimer.

Section Service.
Variable sdk : Collaborators.
Variable USER_ID : string.
Variable PORT : string.

(** [new GoogleWorkspaceService()] *)
Definition new_service : ServiceState :=
  {| isReady := false; pending := 0; exit_scheduled := false; running := true;
     console := [] |}.

(** The [/health] route; the timestamp, uptime and memory figures of the
    reply come from the runtime and are left out. *)
Definition health (s : ServiceState) : HealthReport :=
  {| status := if isReady s then "ready" else "initializing";
     service := "google-workspace-tools";
     tools_count := 84;
     user_id := USER_ID |}.

(** One step of the service.  [CallInitialize] records the lines of
    [initialize] itself; what [initializeCustomTools] does before its
    first [await] (its opening line and the first submission) is recorded
    with the resumption.  Requests are served between the two and read
    [isReady] only. *)
Definition service_step (s : ServiceState) (a : Action) : ServiceState :=
  if negb (running s) then s else
  match a with
  | CallInitialize =>
      {| isReady := isReady s;
         pending := S (pending s);
         exit_scheduled := exit_scheduled s;
         running := true;
         console := console s
                    ++ [ConsoleLog "Google Workspace Service Starting...";
                        ConsoleLog ("User: " +:+ USER_ID);
                        ConsoleLog "Initializing 84 custom tools..."] |}
  | ResumeInitialize =>
      match pending s with
      | O => s
      | S n =>
          match initializeCustomTools sdk (console s) with
          | (w, Fulfilled _) =>
              {| isReady := true;
                 pending := n;
                 exit_scheduled := exit_scheduled s;
                 running := true;
                 console := w ++ [ConsoleLog "Google Workspace Service Ready!";
                                  ConsoleLog ("Health endpoint: http://localhost:"
                                              +:+ PORT +:+ "/health");
                                  ConsoleLog ("Status endpoint: http://localhost:"
                                              +:+ PORT +:+ "/status")] |}
          | (w, Rejected e) =>
              {| isReady := isReady s;
                 pending := n;
                 exit_scheduled := exit_scheduled s;
                 running := true;
                 console := w ++ [ConsoleError ("Service initialization failed: "
                                                +:+ error_message e)] |}
          end
      end
  | GetHealth | GetStatus => s
  | GetShutdown =>
      {| isReady := isReady s; pending := pending s; exit_scheduled := true;
         running := true; console := console s |}
  | ExitTimer =>
      if exit_scheduled s then
        {| isReady := isReady s; pending := pending s; exit_scheduled := true;
           running := false; console := console s |}
      else s
  end.

End Service.

(** [initializeCustomTools] has completed when its last statement has
    printed its line. *)
Definition completion_line : Event :=
  ConsoleLog "All 84 custom tools created successfully!".

Definition initialization_completed (w : Trace) : Prop := completion_line ∈ w.

(** ** Auxiliary notions for the statements *)

(** The tool executions that a trace records. *)
Definition executions (w : Trace) : list (string * string * JSValue) :=
  omap (fun e =>
          match e with
          | ToolsExecute toolSlug userId toolArguments =>
              Some (toolSlug, userId, toolArguments)
          | _ => None
          end) w.

(** How a call of the SDK fails: the promise rejects, or it resolves to a
    response that is not [successful]. *)
Definition tool_failure (answer : Outcome ToolExecuteResponse) : option JSError :=
  match answer with
  | Rejected e => Some e
  | Fulfilled result =>
      if successful result then None else Some (Error (String_of_error (error result)))
  end.

(** [method] belongs to [service]: when the agent is not connected to it
    the method rejects with [notConnected] and leaves no trace, and the
    tool [toolSlug] is executed, once, exactly when the agent is
    connected. *)
Definition guarded_by (agent : GoogleWorkspaceAgent) (service notConnected : string)
    (toolSlug : string) (toolArguments : JSValue) (method : M JSValue) : Prop :=
  forall w : Trace,
    (service ∉ connectedServices agent ->
       method w = (w, Rejected (Error notConnected))) /\
    (service ∈ connectedServices agent ->
       executions (method w).1 =
         executions w ++ [(toolSlug, userId agent, toolArguments)]) /\
    (executions (method w).1 <> executions w -> service ∈ connectedServices agent).


(** A slot of the values array is empty or holds the value of its own
    promise. *)
Definition slots_agree {A} (values : list (option A)) (vs : list A) : Prop :=
  Forall2 (fun slot v => slot = None \/ slot = Some v) values vs.

(** The outcome of a request run on its own. *)
Definition outcome_of {A} (m : M A) : Outcome A := (m []).2.

(** The slugs that a trace registers, in order. *)
Definition registrations (w : Trace) : list string :=
  omap (fun e =>
          match e with
          | ToolsCreateCustomTool slug => Some slug
          | _ => None
          end) w.

(** ** A concrete set of collaborators

    Used to run the code on examples.  Sending mail to
    [bob@example.com] is refused by the service; every other execution
    succeeds. *)

Definition example_execute (toolSlug userId : string) (toolArguments : JSValue)
  : Outcome ToolExecuteResponse :=
  match get "to" toolArguments with
  | JStr "bob@example.com" =>
      Fulfilled {| data := JNull; successful := false;
                   error := Some "Recipient address rejected" |}
  | _ =>
      Fulfilled {| data := JObj [("tool", JStr toolSlug); ("for", get "to" toolArguments)];
                   successful := true; error := None |}
  end.

(** Modelled from the spec: registration in the SDK, which is missing from
    the sources; an identifier that is already registered is refused
    (section 3). *)
Definition register_custom_tool (registered : Trace) (tool : CustomTool)
  : Outcome unit :=
  if bool_decide (slug tool ∈ registrations registered)
  then Rejected (Error ("DuplicateIdentifier: " +:+ slug tool))
  else Fulfilled tt.

Definition example_sdk : Collaborators :=
  {| tools_execute := example_execute;
     tools_get := fun _ tools => Fulfilled (js_string_list tools);
     tools_createCustomTool := register_custom_tool;
     messages_create := fun content _ => Fulfilled (JObj [("content", JStr content)]);
     handleToolCalls := fun _ msg => Fulfilled msg;
     toLocaleString := fun date => date |}.

Definition example_agent : GoogleWorkspaceAgent :=
  {| userId := "default"; connectedServices := {["gmail"; "googlecalendar"]} |}.

Definition unconnected_agent : GoogleWorkspaceAgent :=
  {| userId := "default"; connectedServices := ∅ |}.

Definition example_meeting (attendees : list string) : Meeting :=
  {| meeting_title := "Planning";
     meeting_start := "2024-01-15T14:00:00Z";
     meeting_end := "2024-01-15T15:00:00Z";
     meeting_attendees := attendees;
     meeting_agenda := None;
     meeting_location := None |}.

(** The request that the meeting workflow makes for one attendee. *)
Definition invitation (sdk : Collaborators) (agent : GoogleWorkspaceAgent)
    (meeting : Meeting) (attendee : string) : M JSValue :=
  sendEmail sdk agent attendee ("Meeting Invite: " +:+ meeting_title meeting)
    (emailBody sdk meeting) None.

(** *** Scripts

    The events of a run that meets no failure.  A run that fails stops
    right after the registration call that was refused. *)

Definition failed_registration (evs : list Event) : Prop :=
  exists pre slug, evs = pre ++ [ToolsCreateCustomTool slug].

Definition follows (script : list Event) (m : M unit) : Prop :=
  forall w : Trace,
    match m w with
    | (w', Fulfilled _) => w' = w ++ script
    | (w', Rejected _) =>
        exists evs, w' = w ++ evs /\ evs `prefix_of` script /\ failed_registration evs
    end.

Definition group_script (tools : list CustomTool) (line : string) : list Event :=
  (ToolsCreateCustomTool <$> (slug <$> tools)) ++ [ConsoleLog line].

Definition initialization_script : list Event :=
  [ConsoleLog "Creating 84 custom Google Workspace tools..."]
  ++ group_script gmailCustomTools "Created 11 custom Gmail tools"
  ++ group_script calendarCustomTools "Created 5 custom Calendar tools"
  ++ group_script driveCustomTools "Created 6 custom Drive tools"
  ++ group_script docsCustomTools "Created 14 custom Docs tools"
  ++ group_script sheetsCustomTools "Created 6 custom Sheets tools"
  ++ group_script slidesCustomTools "Created 5 custom Slides tools"
  ++ group_script formsCustomTools "Created 5 custom Forms tools"
  ++ group_script chatCustomTools "Created 4 custom Chat tools"
  ++ group_script searchCustomTools "Created 3 custom Search tools"
  ++ group_script tasksCustomTools "Created 12 custom Tasks tools"
  ++ group_script commentCustomTools
       "Created 10 custom Comments tools (4 Docs + 4 Sheets + 4 Slides)"
  ++ [completion_line].

(** The script without its last line. *)
Definition initialization_body : list Event :=
  removelast initialization_script.

(** The lines that a trace prints with [console.log]. *)
Definition console_lines (w : Trace) : list string :=
  omap (fun e =>
          match e with
          | ConsoleLog line => Some line
          | _ => None
          end) w.


(** The report of [SHEETS_MODIFY_SHEET_VALUES] and the result of the Gmail
    search. *)
Definition modify_report (input : SHEETS_MODIFY_SHEET_VALUES.Input) : JSValue :=
  get "data" (SHEETS_MODIFY_SHEET_VALUES.execute input).

Definition search_result (input : GMAIL_SEARCH_MESSAGES_FILTERS.Input) : JSValue :=
  get "data" (GMAIL_SEARCH_MESSAGES_FILTERS.execute input).

Definition example_values_input : SHEETS_MODIFY_SHEET_VALUES.Input :=
  {| SHEETS_MODIFY_SHEET_VALUES.user_google_email := "user@example.com";
     SHEETS_MODIFY_SHEET_VALUES.spreadsheet_id := "sheet-1";
     SHEETS_MODIFY_SHEET_VALUES.range_name := "Sheet1!A1:C2";
     SHEETS_MODIFY_SHEET_VALUES.values := Some [["a"; "b"; "c"]; ["d"; "e"; "f"]];
     SHEETS_MODIFY_SHEET_VALUES.value_input_option := None;
     SHEETS_MODIFY_SHEET_VALUES.clear_values := None |}.

Definition example_search_input : GMAIL_SEARCH_MESSAGES_FILTERS.Input :=
  {| GMAIL_SEARCH_MESSAGES_FILTERS.query := "from:me";
     GMAIL_SEARCH_MESSAGES_FILTERS.user_google_email := "user@example.com";
     GMAIL_SEARCH_MESSAGES_FILTERS.max_results := None;
     GMAIL_SEARCH_MESSAGES_FILTERS.label_ids := None;
     GMAIL_SEARCH_MESSAGES_FILTERS.include_spam_trash := None;
     GMAIL_SEARCH_MESSAGES_FILTERS.page_token := None |}.

Definition example_batch_input : GMAIL_GET_MESSAGES_CONTENT_BATCH.Input :=
  {| GMAIL_GET_MESSAGES_CONTENT_BATCH.message_ids := ["m1"];
     GMAIL_GET_MESSAGES_CONTENT_BATCH.user_google_email := "user@example.com";
     GMAIL_GET_MESSAGES_CONTENT_BATCH.include_attachments := None |}.

(** ** The registry and the dispatcher of the specification *)

Module Dispatcher.

(** The capability registry and the dispatcher are, in the repository,
    the Composio SDK and the validation library behind [inputParams]: the
    sources hold the schemas and executors handed to them and no
    validating or dispatching code.  This module follows sections 3, 4.1,
    4.2 and 7 of the specification. *)

(** Modelled from the spec: the type of a schema field (section 3), which
    the sources write with the validation library. *)

Inductive FieldType : Type :=
| TString
| TNumber
| TBoolean
| TList (element : FieldType)
| TObject
| TEnum (allowed : list string).

Fixpoint has_type (t : FieldType) (v : JSValue) : bool :=
  match t, v with
  | TString, JStr _ => true
  | TNumber, JNum _ => true
  | TBoolean, JBool _ => true
  | TList element, JArr items => forallb (has_type element) items
  | TObject, JObj _ => true
  | TEnum allowed, JStr s => bool_decide (s ∈ allowed)
  | _, _ => false
  end.

Fixpoint type_name (t : FieldType) : string :=
  match t with
  | TString => "string"
  | TNumber => "number"
  | TBoolean => "boolean"
  | TList element => "list of " +:+ type_name element
  | TObject => "object"
  | TEnum _ => "enumeration"
  end.

Record Field : Type := {
  field_name : string;
  field_type : FieldType;
  required : bool;
  default_value : option JSValue
}.

Definition ExecutionContext : Type := JSValue.

Record CapabilityDescriptor : Type := {
  identifier : string;
  displayName : string;
  description : string;
  inputSchema : list Field;
  executor : gmap string JSValue -> ExecutionContext -> Outcome JSValue
}.

Record InvocationRequest : Type := {
  request_identifier : string;
  rawInput : gmap string JSValue
}.

Record InvocationResult : Type := {
  succeeded : bool;
  data : option JSValue;
  errorMessage : option string
}.

Inductive DispatchError : Type :=
| DuplicateIdentifier (identifier : string)
| UnknownIdentifier (identifier : string)
| MissingField (field : string)
| TypeMismatch (field : string) (expected : FieldType).

(** The specification gives the text of a missing field
    ("missing field: b"); the other texts are formed alike. *)
Definition render (e : DispatchError) : string :=
  match e with
  | DuplicateIdentifier identifier => "duplicate identifier: " +:+ identifier
  | UnknownIdentifier identifier => "unknown identifier: " +:+ identifier
  | MissingField field => "missing field: " +:+ field
  | TypeMismatch field expected =>
      "type mismatch: " +:+ field +:+ " (expected " +:+ type_name expected +:+ ")"
  end.

(** *** Registry *)

Definition lookup_descriptor (identifier' : string)
    (registry : list CapabilityDescriptor) : option CapabilityDescriptor :=
  List.find (fun d => String.eqb (identifier d) identifier') registry.

(** Modelled from the spec: [register] (section 4.1), which is missing
    from the sources; a duplicate identifier fails. *)
Definition register (d : CapabilityDescriptor) (registry : list CapabilityDescriptor)
  : DispatchError + list CapabilityDescriptor :=
  match lookup_descriptor (identifier d) registry with
  | Some _ => inl (DuplicateIdentifier (identifier d))
  | None => inr (registry ++ [d])
  end.

(** *** Validation *)

Definition check_field (raw : gmap string JSValue) (f : Field)
  : DispatchError + option (string * JSValue) :=
  match raw !! field_name f with
  | Some v =>
      if has_type (field_type f) v then inr (Some (field_name f, v))
      else inl (TypeMismatch (field_name f) (field_type f))
  | None =>
      if required f then inl (MissingField (field_name f))
      else inr (pair (field_name f) <$> default_value f)
  end.

Definition violations (raw : gmap string JSValue) (schema : list Field)
  : list DispatchError :=
  omap (fun f => match check_field raw f with
                 | inl e => Some e
                 | inr _ => None
                 end) schema.

(** Unknown fields are ignored; omitted optional fields take their
    default. *)
Definition normalized (raw : gmap string JSValue) (schema : list Field)
  : gmap string JSValue :=
  list_to_map (omap (fun f => match check_field raw f with
                              | inr binding => binding
                              | inl _ => None
                              end) schema).

(** Modelled from the spec: [validate] (section 4.2), which is missing
    from the sources.  Every violation of the schema is reported, as the
    validation library of the sources does. *)
Definition validate (schema : list Field) (raw : gmap string JSValue)
  : list DispatchError + gmap string JSValue :=
  match violations raw schema with
  | [] => inr (normalized raw schema)
  | errors => inl errors
  end.

(** *** Dispatch *)

Definition failed (message : string) : InvocationResult :=
  {| succeeded := false; data := None; errorMessage := Some message |}.

(** Modelled from the spec: [dispatch] (section 4.2), which is missing
    from the sources.  The first component lists the executors that were
    invoked, with the input they received. *)
Definition dispatch (registry : list CapabilityDescriptor) (ctx : ExecutionContext)
    (request : InvocationRequest)
  : list (string * gmap string JSValue) * InvocationResult :=
  match lookup_descriptor (request_identifier request) registry with
  | None => ([], failed (render (UnknownIdentifier (request_identifier request))))
  | Some d =>
      match validate (inputSchema d) (rawInput request) with
      | inl errors => ([], failed (String.concat "; " (render <$> errors)))
      | inr input =>
          ([(identifier d, input)],
           match executor d input ctx with
           | Fulfilled v =>
               {| succeeded := true; data := Some v; errorMessage := None |}
           | Rejected e => failed (error_message e)
           end)
      end
  end.

(** *** Two descriptors *)

(** The example of the specification. *)
Definition ADD_NUMBERS : CapabilityDescriptor :=
  {| identifier := "ADD_NUMBERS";
     displayName := "Add numbers";
     description := "Adds two numbers";
     inputSchema :=
       [ {| field_name := "a"; field_type := TNumber; required := true;
            default_value := None |};
         {| field_name := "b"; field_type := TNumber; required := true;
            default_value := None |} ];
     executor := fun input _ =>
       match input !! "a", input !! "b" with
       | Some (JNum a), Some (JNum b) => Fulfilled (JObj [("sum", JNum (a + b))])
       | _, _ => Rejected (TypeError "a and b must be numbers")
       end |}.

Definition strings_of (items : list JSValue) : option (list string) :=
  mapM (fun v => match v with JStr s => Some s | _ => None end) items.

(** [GMAIL_BATCH_DELETE_MESSAGES] as [index.ts] declares it: both fields
    of its [inputParams] are required. *)
Definition BATCH_DELETE : CapabilityDescriptor :=
  {| identifier := "GMAIL_BATCH_DELETE_MESSAGES";
     displayName := "Batch Delete Gmail Messages";
     description := "Permanently delete multiple Gmail messages by their IDs";
     inputSchema :=
       [ {| field_name := "message_ids"; field_type := TList TString;
            required := true; default_value := None |};
         {| field_name := "user_google_email"; field_type := TString;
            required := true; default_value := None |} ];
     executor := fun input _ =>
       match input !! "message_ids" ≫= (fun v => match v with
                                                  | JArr items => strings_of items
                                                  | _ => None
                                                  end),
             input !! "user_google_email" with
       | Some ids, Some (JStr email) =>
           Fulfilled (GMAIL_BATCH_DELETE_MESSAGES.execute
                        {| GMAIL_BATCH_DELETE_MESSAGES.message_ids := ids;
                           GMAIL_BATCH_DELETE_MESSAGES.user_google_email := email |})
       | _, _ =>
           Rejected (TypeError "Cannot read properties of undefined (reading 'length')")
       end |}.

Definition example_registry : list CapabilityDescriptor := [ADD_NUMBERS; BATCH_DELETE].

Definition request_without_message_ids : InvocationRequest :=
  {| request_identifier := "GMAIL_BATCH_DELETE_MESSAGES";
     rawInput := {["user_google_email" := JStr "user@example.com"]} |}.

End Dispatcher.

(** * More of the sources *)

(** ** GoogleWorkspaceAgent: the other guarded methods *)

Section AgentQueries.
Variable sdk : Collaborators.

(** [query || 'in:inbox'] *)
Definition inboxQuery (query : option string) : string :=
  if truthy_string query then default EmptyString query else "in:inbox".

Definition recentEmailsParams (maxResults : Z) (query : option string) : JSValue :=
  JObj [("maxResults", JNum maxResults);
        ("query", JStr (inboxQuery query));
        ("userId", JStr "me")].

(** [async getRecentEmails(maxResults: number = 10, query?: string)] *)
Definition getRecentEmails (agent : GoogleWorkspaceAgent) (maxResults : option Z)
    (query : option string) : M JSValue :=
  let maxResults := default 10%Z maxResults in
  if negb (bool_decide ("gmail" ∈ connectedServices agent)) then
    throw (Error "Gmail not connected. Please authenticate first.")
  else
    console_log ("Fetching " +:+ string_of_number maxResults +:+ " recent emails") ;;
    executeTool sdk "GMAIL_FETCH_EMAILS" (userId agent)
      (recentEmailsParams maxResults query).

(** [now] is what [new Date().toISOString()] reads when [timeMin] is
    missing. *)
Definition upcomingEventsParams (now : string) (maxResults : Z) (timeMin : option string)
  : JSValue :=
  JObj [("maxResults", JNum maxResults);
        ("timeMin", JStr (if truthy_string timeMin
                          then default EmptyString timeMin else now));
        ("singleEvents", JBool true);
        ("orderBy", JStr "startTime")].

(** [async getUpcomingEvents(maxResults: number = 10, timeMin?: string)] *)
Definition getUpcomingEvents (now : string) (agent : GoogleWorkspaceAgent)
    (maxResults : option Z) (timeMin : option string) : M JSValue :=
  let maxResults := default 10%Z maxResults in
  if negb (bool_decide ("googlecalendar" ∈ connectedServices agent)) then
    throw (Error "Google Calendar not connected. Please authenticate first.")
  else
    console_log ("Fetching " +:+ string_of_number maxResults +:+ " upcoming events") ;;
    executeTool sdk "GOOGLECALENDAR_LIST_EVENTS" (userId agent)
      (upcomingEventsParams now maxResults timeMin).

Definition driveSearchParams (query : string) (maxResults : Z) : JSValue :=
  JObj [("q", JStr query); ("pageSize", JNum maxResults)].

(** [async searchDriveFiles(query: string, maxResults: number = 10)] *)
Definition searchDriveFiles (agent : GoogleWorkspaceAgent) (query : string)
    (maxResults : option Z) : M JSValue :=
  let maxResults := default 10%Z maxResults in
  if negb (bool_decide ("googledrive" ∈ connectedServices agent)) then
    throw (Error "Google Drive not connected. Please authenticate first.")
  else
    console_log ("Searching Drive files: " +:+ dq +:+ query +:+ dq) ;;
    executeTool sdk "GOOGLEDRIVE_SEARCH_FILES" (userId agent)
      (driveSearchParams query maxResults).
End AgentQueries.

Definition drive_agent : GoogleWorkspaceAgent :=
  {| userId := "default"; connectedServices := {["googledrive"]} |}.

Definition calendar_agent : GoogleWorkspaceAgent :=
  {| userId := "default"; connectedServices := {["googlecalendar"]} |}.

(** The tool execution of the invitation for one attendee. *)
Definition invitation_execution (sdk : Collaborators) (agent : GoogleWorkspaceAgent)
    (meeting : Meeting) (attendee : string) : string * string * JSValue :=
  ("GMAIL_SEND_EMAIL", userId agent,
   emailData attendee ("Meeting Invite: " +:+ meeting_title meeting)
     (emailBody sdk meeting) None).

Definition event_execution (agent : GoogleWorkspaceAgent) (meeting : Meeting)
  : string * string * JSValue :=
  ("GOOGLECALENDAR_CREATE_EVENT", userId agent, eventData (event_of_meeting meeting)).

(** ** Calls of the SDK beyond tools

    The functions below reach parts of the SDK that the functions above do
    not (actions, toolkits, connected accounts, triggers).  Their traces
    record console lines and these calls. *)

Inductive Call : Type :=
| ActionsList (limit : Z)
| ToolsGetToolkits (userId : string) (toolkits : list string) (limit : Z)
| ToolsGetNamed (userId : string) (tools : list string)
| ToolkitsAuthorize (userId toolkit : string)
| WaitForConnection (connectionRequestId : string) (timeoutMs : Z)
| ConnectedAccountsInitiate (authConfigId userId : string)
| RequestWaitForConnection
| TriggersCreate (userId triggerSlug connectedAccountId : string)
| TriggersSubscribe (triggerId : string).

Inductive Observation : Type :=
| Log (line : string)
| LogError (line : string)
| Called (call : Call).

Definition IO (A : Type) : Type := list Observation -> list Observation * Outcome A.

Definition io_ret {A} (a : A) : IO A := fun w => (w, Fulfilled a).

Definition io_throw {A} (e : JSError) : IO A := fun w => (w, Rejected e).

Definition io_bind {A B} (m : IO A) (k : A -> IO B) : IO B :=
  fun w =>
    match m w with
    | (w', Fulfilled a) => k a w'
    | (w', Rejected e) => (w', Rejected e)
    end.

Definition io_try_catch {A} (m : IO A) (h : JSError -> IO A) : IO A :=
  fun w =>
    match m w with
    | (w', Fulfilled a) => (w', Fulfilled a)
    | (w', Rejected e) => h e w'
    end.

Definition log (line : string) : IO unit := fun w => (w ++ [Log line], Fulfilled tt).

Definition log_error (line : string) : IO unit :=
  fun w => (w ++ [LogError line], Fulfilled tt).

(** [await sdk.call(...)] *)
Definition call {A} (c : Call) (answer : Outcome A) : IO A :=
  fun w => (w ++ [Called c], answer).

Declare Scope io_scope.
Delimit Scope io_scope with io.
Notation "'let!' x ':=' m 'in' k" := (io_bind m (fun x => k))
  (at level 10, x name, m at level 100, k at level 200) : io_scope.
Notation "m ';;' k" := (io_bind m (fun _ => k))
  (at level 100, k at level 200, right associativity) : io_scope.

Record ConnectionRequest : Type := {
  redirectUrl : option string;
  connectionRequestId : string
}.

Record ConnectedAccount : Type := {
  account_id : string
}.

Record Trigger : Type := {
  triggerId : string
}.

(** What the SDK answers.  [triggers.subscribe] is called without
    [await]: its answer is whether the call itself throws. *)
Record Services : Type := {
  actions_list : Z -> Outcome (list JSValue);
  tools_get_toolkits : string -> list string -> Z -> Outcome (list JSValue);
  tools_get_named : string -> list string -> Outcome (list JSValue);
  toolkits_authorize : string -> string -> Outcome ConnectionRequest;
  connectedAccounts_waitForConnection : string -> Z -> Outcome ConnectedAccount;
  connectedAccounts_initiate : string -> string -> Outcome ConnectionRequest;
  request_waitForConnection : ConnectionRequest -> Outcome ConnectedAccount;
  triggers_create : string -> string -> string -> Outcome Trigger;
  triggers_subscribe : string -> Outcome unit
}.

(** The calls that a trace records. *)
Definition calls (w : list Observation) : list Call :=
  omap (fun o => match o with Called c => Some c | _ => None end) w.

(** ** composio-client: the other functions *)

Module Client.
Local Open Scope io_scope.

Section Client.
Variable services : Services.

(** [COMPOSIO_API_KEY] is [process.env.COMPOSIO_API_KEY]. *)
Definition initializeComposio (COMPOSIO_API_KEY : option string) : IO unit :=
  io_try_catch
    (log "Initializing Composio SDK..." ;;
     (if negb (truthy_string COMPOSIO_API_KEY)
      then io_throw (Error "COMPOSIO_API_KEY environment variable is required")
      else io_ret tt) ;;
     let! actions := call (ActionsList 1) (actions_list services 1) in
     log ("Composio SDK initialized successfully with "
          +:+ (if bool_decide (0 < length actions)%nat
               then "access to tools" else "API connection")) ;;
     log ("Available Google Workspace toolkits: "
          +:+ String.concat ", " ["gmail"; "googlecalendar"; "googledrive"; "googlesheets"]))
    (fun error =>
       log_error ("Failed to initialize Composio SDK: " +:+ error_message error) ;;
       io_throw error).

(** [getAvailableTools(toolkits: string[], userId: string = 'default')] *)
Definition getAvailableTools (toolkits : list string) (userId : option string)
  : IO (list JSValue) :=
  let userId := default "default" userId in
  io_try_catch
    (log ("Fetching tools for toolkits: " +:+ String.concat ", " toolkits) ;;
     let! tools := call (ToolsGetToolkits userId toolkits 50)
                        (tools_get_toolkits services userId toolkits 50) in
     log ("Found " +:+ string_of_number (Z.of_nat (length tools))
          +:+ " available tools") ;;
     io_ret tools)
    (fun error =>
       log_error ("Failed to fetch tools: " +:+ error_message error) ;;
       io_throw error).

Definition setupAuthentication (userId toolkit : string) : IO ConnectionRequest :=
  io_try_catch
    (log ("Setting up authentication for " +:+ toolkit +:+ "...") ;;
     let! connectionRequest := call (ToolkitsAuthorize userId toolkit)
                                    (toolkits_authorize services userId toolkit) in
     (if truthy_string (redirectUrl connectionRequest) then
        log ("Please visit this URL to authorize " +:+ toolkit +:+ ":") ;;
        log (default EmptyString (redirectUrl connectionRequest)) ;;
        log "After authorization, the connection will be automatically established"
      else io_ret tt) ;;
     io_ret connectionRequest)
    (fun error =>
       log_error ("Failed to setup authentication for " +:+ toolkit +:+ ": "
                  +:+ error_message error) ;;
       io_throw error).

(** [waitForAuthentication(connectionRequestId: string, timeoutMs: number = 60000)] *)
Definition waitForAuthentication (connectionRequestId : string) (timeoutMs : option Z)
  : IO ConnectedAccount :=
  let timeoutMs := default 60000%Z timeoutMs in
  io_try_catch
    (log "Waiting for authentication to complete..." ;;
     let! connectedAccount :=
       call (WaitForConnection connectionRequestId timeoutMs)
            (connectedAccounts_waitForConnection services connectionRequestId timeoutMs) in
     log ("Authentication successful! Connected Account ID: " +:+ account_id connectedAccount) ;;
     io_ret connectedAccount)
    (fun error =>
       log_error ("Authentication failed or timed out: " +:+ error_message error) ;;
       io_throw error).
End Client.

End Client.

(** ** GoogleWorkspaceAgent: initialization and status *)

Module Agent.

Definition getCapabilities : list string :=
  ["Email Management"; "Calendar Operations"; "Document Processing";
   "Drive File Management"; "Meeting Scheduling"; "Task Automation"].

(** [this.connectedServices.add(service)] *)
Definition connect (service : string) (agent : GoogleWorkspaceAgent)
  : GoogleWorkspaceAgent :=
  {| userId := userId agent;
     connectedServices := {[service]} ∪ connectedServices agent |}.

Section Initialize.
Variable services : Services.

(** The loop [for (const service of services)]; the agent is returned as
    the loop has left it, also when a call of the SDK fails. *)
Fixpoint check_services (names : list string) (agent : GoogleWorkspaceAgent)
    (w : list Observation) : GoogleWorkspaceAgent * (list Observation * Outcome unit) :=
  match names with
  | [] => (agent, (w, Fulfilled tt))
  | service :: rest =>
      match Client.getAvailableTools services [service] (Some (userId agent)) w with
      | (w', Rejected e) => (agent, (w', Rejected e))
      | (w', Fulfilled tools) =>
          if bool_decide (0 < length tools)%nat then
            check_services rest (connect service agent)
              (w' ++ [Log (service +:+ " ready ("
                           +:+ string_of_number (Z.of_nat (length tools))
                           +:+ " tools available)")])
          else
            check_services rest agent
              (w' ++ [Log (service +:+ " not connected - authentication required")])
      end
  end.

(** [async initialize(services: string[] = ['gmail', 'googlecalendar',
    'googledrive'])] *)
Definition initialize (agent : GoogleWorkspaceAgent) (names : option (list string))
    (w : list Observation) : GoogleWorkspaceAgent * (list Observation * Outcome unit) :=
  let names := default ["gmail"; "googlecalendar"; "googledrive"] names in
  match check_services names agent
          (w ++ [Log ("Initializing Google Workspace Agent for user: " +:+ userId agent)])
  with
  | (agent', (w', Fulfilled _)) =>
      (agent',
       (w' ++ [Log ("Agent initialized with "
                    +:+ string_of_number (Z.of_nat (size (connectedServices agent')))
                    +:+ " connected services")],
        Fulfilled tt))
  | (agent', (w', Rejected e)) =>
      (agent',
       (w' ++ [LogError ("Failed to initialize agent: " +:+ error_message e)],
        Rejected e))
  end.
End Initialize.

(** [getStatus()]; the array made from the set of services is given as
    the set, the order of insertion not being kept. *)
Record Status : Type := {
  status_userId : string;
  status_connectedServices : gset string;
  status_capabilities : list string;
  ready : bool
}.

Definition getStatus (agent : GoogleWorkspaceAgent) : Status :=
  {| status_userId := userId agent;
     status_connectedServices := connectedServices agent;
     status_capabilities := getCapabilities;
     ready := bool_decide (0 < size (connectedServices agent))%nat |}.

(** A new agent: [new GoogleWorkspaceAgent(userId)], with [userId]
    'default' when left out. *)
Definition new (userId : option string) : GoogleWorkspaceAgent :=
  {| userId := default "default" userId; connectedServices := ∅ |}.

End Agent.

(** Services that list three tools for Gmail and the calendar and none for
    anything else. *)
Definition example_services : Services :=
  {| actions_list := fun _ => Fulfilled [JStr "GMAIL_SEND_EMAIL"];
     tools_get_toolkits := fun _ toolkits _ =>
       if bool_decide (toolkits = ["gmail"]) || bool_decide (toolkits = ["googlecalendar"])
       then Fulfilled [JStr "a"; JStr "b"; JStr "c"]
       else Fulfilled [];
     tools_get_named := fun _ tools => Fulfilled (JStr <$> tools);
     toolkits_authorize := fun _ toolkit =>
       Fulfilled {| redirectUrl := Some ("https://auth.example/" +:+ toolkit);
                    connectionRequestId := "req-1" |};
     connectedAccounts_waitForConnection := fun _ _ =>
       Rejected (Error "Connection timed out");
     connectedAccounts_initiate := fun _ _ =>
       Fulfilled {| redirectUrl := None; connectionRequestId := "req-2" |};
     request_waitForConnection := fun _ => Fulfilled {| account_id := "acc-1" |};
     triggers_create := fun _ _ _ => Fulfilled {| triggerId := "trigger-1" |};
     triggers_subscribe := fun _ => Fulfilled tt |}.

(** The SDK lists at least one tool of the toolkit [service] for the
    user. *)
Definition lists_tools (services : Services) (userId service : string) : Prop :=
  exists tools,
    tools_get_toolkits services userId [service] 50 = Fulfilled tools /\ tools <> [].

(** ** GoogleWorkspaceService: [initialize], [start] and [startService] *)

Module Service.

(** The process that runs the service: [listening] once [app.listen] has
    bound the port, [sigint_handler] once [process.on('SIGINT', ...)] has
    run, [exit_code] once the process has exited. *)
Record Process : Type := {
  state : ServiceState;
  listening : bool;
  sigint_handler : bool;
  exit_code : option Z
}.

Inductive Reply : Type :=
| HealthReply (report : HealthReport)
| StatusReply (initialized tools_ready : bool) (user_id : string)
| ShutdownReply (message : string).

Section Service.
Variable sdk : Collaborators.
Variable USER_ID : string.
Variable PORT : string.

(** [async initialize()], from its first line to its last. *)
Definition initialize (s : ServiceState) : ServiceState * Outcome unit :=
  match initializeCustomTools sdk
          (console s ++ [ConsoleLog "Google Workspace Service Starting...";
                         ConsoleLog ("User: " +:+ USER_ID);
                         ConsoleLog "Initializing 84 custom tools..."]) with
  | (w, Fulfilled _) =>
      ({| isReady := true;
          pending := pending s;
          exit_scheduled := exit_scheduled s;
          running := running s;
          console := w ++ [ConsoleLog "Google Workspace Service Ready!";
                           ConsoleLog ("Health endpoint: http://localhost:"
                                       +:+ PORT +:+ "/health");
                           ConsoleLog ("Status endpoint: http://localhost:"
                                       +:+ PORT +:+ "/status")] |},
       Fulfilled tt)
  | (w, Rejected e) =>
      ({| isReady := isReady s;
          pending := pending s;
          exit_scheduled := exit_scheduled s;
          running := running s;
          console := w ++ [ConsoleError ("Service initialization failed: "
                                         +:+ error_message e)] |},
       Rejected e)
  end.

Definition add_lines (lines : list Event) (s : ServiceState) : ServiceState :=
  {| isReady := isReady s; pending := pending s; exit_scheduled := exit_scheduled s;
     running := running s; console := console s ++ lines |}.

Definition exited (s : ServiceState) : ServiceState :=
  {| isReady := isReady s; pending := pending s; exit_scheduled := exit_scheduled s;
     running := false; console := console s |}.

(** [async start()]: the tools first, then the HTTP server.  [bound]
    tells whether [app.listen] gets the port; its callback prints when the
    server listens.  What becomes of the process when the port is taken is
    left to the runtime. *)
Definition start (bound : bool) (p : Process) : Process * Outcome unit :=
  match initialize (state p) with
  | (s, Rejected e) =>
      ({| state := s; listening := listening p; sigint_handler := sigint_handler p;
          exit_code := exit_code p |},
       Rejected e)
  | (s, Fulfilled _) =>
      ({| state :=
            if bound then
              add_lines [ConsoleLog ("Service listening on port " +:+ PORT);
                         ConsoleLog
                           "Ready to serve Google Workspace tools via Composio/Rube"] s
            else s;
          listening := bound;
          sigint_handler := sigint_handler p;
          exit_code := exit_code p |},
       Fulfilled tt)
  end.

(** [startService()]: a new service is started; a failure is printed and
    ends the process with code 1. *)
Definition startService (bound : bool) : Process :=
  match start bound {| state := new_service; listening := false;
                       sigint_handler := false; exit_code := None |} with
  | (p, Fulfilled _) =>
      {| state := state p; listening := listening p; sigint_handler := true;
         exit_code := exit_code p |}
  | (p, Rejected e) =>
      {| state := exited (add_lines [ConsoleError ("Service failed to start: "
                                                   +:+ error_message e)] (state p));
         listening := false;
         sigint_handler := sigint_handler p;
         exit_code := Some 1%Z |}
  end.

(** What a route answers. *)
Definition reply_of (s : ServiceState) (a : Action) : option Reply :=
  match a with
  | GetHealth => Some (HealthReply (health USER_ID s))
  | GetStatus => Some (StatusReply (isReady s) (isReady s) USER_ID)
  | GetShutdown => Some (ShutdownReply "Shutting down gracefully...")
  | _ => None
  end.

(** A request to a route, served when the server listens and the process
    runs; the timer of [/shutdown] ends the process with code 0. *)
Definition handle (p : Process) (a : Action) : Process * option Reply :=
  match a with
  | GetHealth | GetStatus | GetShutdown =>
      if listening p && running (state p) then
        ({| state := service_step sdk USER_ID PORT (state p) a;
            listening := listening p; sigint_handler := sigint_handler p;
            exit_code := exit_code p |},
         reply_of (state p) a)
      else (p, None)
  | ExitTimer =>
      if running (state p) && exit_scheduled (state p) then
        ({| state := service_step sdk USER_ID PORT (state p) ExitTimer;
            listening := false; sigint_handler := sigint_handler p;
            exit_code := Some 0%Z |},
         None)
      else (p, None)
  | CallInitialize | ResumeInitialize => (p, None)
  end.

(** The replies to a sequence of requests. *)
Fixpoint serve (p : Process) (requests : list Action) : list Reply :=
  match requests with
  | [] => []
  | a :: rest =>
      match handle p a with
      | (p', Some reply) => reply :: serve p' rest
      | (p', None) => serve p' rest
      end
  end.
End Service.

End Service.

(** Collaborators that refuse to register the Drive upload tool. *)
Definition refusing_sdk : Collaborators :=
  {| tools_execute := example_execute;
     tools_get := fun _ tools => Fulfilled (js_string_list tools);
     tools_createCustomTool := fun _ tool =>
       if String.eqb (slug tool) "DRIVE_UPLOAD_FILE"
       then Rejected (Error "Tool registration refused")
       else if String.eqb (slug tool) "DOCUMENT_INTELLIGENCE"
       then Rejected (Error "Tool registration refused")
       else Fulfilled tt;
     messages_create := fun content _ => Fulfilled (JObj [("content", JStr content)]);
     handleToolCalls := fun _ msg => Fulfilled msg;
     toLocaleString := fun date => date |}.

(** ** GoogleWorkspaceMCP: the other methods and [main] *)

Module MCP.

Record EventDetails : Type := {
  summary : string;
  start : string;
  end_ : string;
  description : option string;
  attendees : option (list string);
  location : option string
}.

(** [s || ''] *)
Definition or_empty (s : option string) : string := default EmptyString s.

(** [event.attendees?.join(', ') || 'None'] *)
Definition attendeesLine (attendees : option (list string)) : string :=
  let joined := String.concat ", " <$> attendees in
  if truthy_string joined then default EmptyString joined else "None".

Definition sendEmailPrompt (to subject body : string) : string :=
  "Send an email to " +:+ to +:+ " with the subject '" +:+ subject
  +:+ "' and the body '" +:+ body +:+ "'".

Definition eventDescription (event : EventDetails) : string :=
  "Create a calendar event with the following details:" +:+ nl
  +:+ "        - Title: " +:+ summary event +:+ nl
  +:+ "        - Start: " +:+ start event +:+ nl
  +:+ "        - End: " +:+ end_ event +:+ nl
  +:+ "        - Description: " +:+ or_empty (description event) +:+ nl
  +:+ "        - Location: " +:+ or_empty (location event) +:+ nl
  +:+ "        - Attendees: " +:+ attendeesLine (attendees event).

Definition googleWorkspaceTools : list string :=
  ["GMAIL_SEND_EMAIL"; "GMAIL_GET_MESSAGE"; "GMAIL_SEARCH_MESSAGES"; "GMAIL_GET_THREAD";
   "GMAIL_MODIFY_LABELS"; "GMAIL_LIST_LABELS";
   "GOOGLECALENDAR_CREATE_EVENT"; "GOOGLECALENDAR_LIST_EVENTS";
   "GOOGLECALENDAR_UPDATE_EVENT"; "GOOGLECALENDAR_DELETE_EVENT";
   "GOOGLEDRIVE_UPLOAD_FILE"; "GOOGLEDRIVE_SEARCH_FILES"; "GOOGLEDRIVE_GET_FILE";
   "GOOGLEDRIVE_DELETE_FILE";
   "GOOGLEDOCS_CREATE_DOCUMENT"; "GOOGLEDOCS_GET_DOCUMENT"; "GOOGLEDOCS_UPDATE_DOCUMENT";
   "GOOGLESHEETS_CREATE_SPREADSHEET"; "GOOGLESHEETS_READ_VALUES";
   "GOOGLESHEETS_UPDATE_VALUES"].

Section Prompted.
Variable sdk : Collaborators.

Definition sendEmail (userId to subject body : string) : M JSValue :=
  try_catch
    (console_log ("Sending email to " +:+ to +:+ ": " +:+ dq +:+ subject +:+ dq) ;;
     let! tools := await (ToolsGet userId ["GMAIL_SEND_EMAIL"])
                         (tools_get sdk userId ["GMAIL_SEND_EMAIL"]) in
     let! msg := await (MessagesCreate (sendEmailPrompt to subject body))
                       (messages_create sdk (sendEmailPrompt to subject body) tools) in
     let! result := await (HandleToolCalls userId) (handleToolCalls sdk userId msg) in
     console_log "Email sent successfully!" ;;
     ret result)
    (fun error =>
       console_error ("Failed to send email: " +:+ error_message error) ;;
       throw error).

Definition createCalendarEvent (userId : string) (event : EventDetails) : M JSValue :=
  try_catch
    (console_log ("Creating calendar event: " +:+ dq +:+ summary event +:+ dq) ;;
     let! tools := await (ToolsGet userId ["GOOGLECALENDAR_CREATE_EVENT"])
                         (tools_get sdk userId ["GOOGLECALENDAR_CREATE_EVENT"]) in
     let! msg := await (MessagesCreate (eventDescription event))
                       (messages_create sdk (eventDescription event) tools) in
     let! result := await (HandleToolCalls userId) (handleToolCalls sdk userId msg) in
     console_log "Calendar event created successfully!" ;;
     ret result)
    (fun error =>
       console_error ("Failed to create calendar event: " +:+ error_message error) ;;
       throw error).
End Prompted.

Local Open Scope io_scope.

Section Lifecycle.
Variable services : Services.

(** What the function resolves to is [undefined] ([None]) when the
    connection request carries no redirect URL. *)
Definition initializeAuthentication (userId authConfigId : string)
  : IO (option ConnectedAccount) :=
  io_try_catch
    (log ("Initializing authentication for user: " +:+ userId) ;;
     let! connectionRequest :=
       call (ConnectedAccountsInitiate authConfigId userId)
            (connectedAccounts_initiate services authConfigId userId) in
     if truthy_string (redirectUrl connectionRequest) then
       log ("Please authorize the app by visiting: "
            +:+ default EmptyString (redirectUrl connectionRequest)) ;;
       let! connectedAccount :=
         call RequestWaitForConnection
              (request_waitForConnection services connectionRequest) in
       log ("Connection established! Connected account id: "
            +:+ account_id connectedAccount) ;;
       io_ret (Some connectedAccount)
     else io_ret None)
    (fun error =>
       log_error ("Authentication failed: " +:+ error_message error) ;;
       io_throw error).

Definition getGoogleWorkspaceTools (userId : string) : IO (list JSValue) :=
  io_try_catch
    (log "Fetching Google Workspace tools..." ;;
     let! tools := call (ToolsGetNamed userId googleWorkspaceTools)
                        (tools_get_named services userId googleWorkspaceTools) in
     log ("Found " +:+ string_of_number (Z.of_nat (length tools))
          +:+ " Google Workspace tools") ;;
     io_ret tools)
    (fun error =>
       log_error ("Failed to fetch tools: " +:+ error_message error) ;;
       io_throw error).

(** The trigger is created for [labelIds: "INBOX"], [userId: "me"],
    [interval: 1]; the subscription prints the events it receives. *)
Definition setupGmailTrigger (userId connectedAccountId : string) : IO Trigger :=
  io_try_catch
    (log "Setting up Gmail trigger for new messages..." ;;
     let! trigger :=
       call (TriggersCreate userId "GMAIL_NEW_GMAIL_MESSAGE" connectedAccountId)
            (triggers_create services userId "GMAIL_NEW_GMAIL_MESSAGE"
               connectedAccountId) in
     log ("Trigger created successfully. Trigger Id: " +:+ triggerId trigger) ;;
     call (TriggersSubscribe (triggerId trigger))
          (triggers_subscribe services (triggerId trigger)) ;;
     io_ret trigger)
    (fun error =>
       log_error ("Failed to setup Gmail trigger: " +:+ error_message error) ;;
       io_throw error).

(** *** [main] *)

Record Env : Type := {
  COMPOSIO_API_KEY : option string;
  ANTHROPIC_API_KEY : option string;
  USER_GOOGLE_EMAIL : option string
}.

Definition COMPOSIO_PROJECT_ID : string := "pr_0gbTWo9BfjM8".

(** [process.env.USER_GOOGLE_EMAIL || 'rsherman@velocityinteractive.com'] *)
Definition USER_ID (env : Env) : string :=
  if truthy_string (USER_GOOGLE_EMAIL env)
  then default EmptyString (USER_GOOGLE_EMAIL env) else USER_ID_default.

Definition require (name : string) (value : option string) : IO unit :=
  if negb (truthy_string value)
  then io_throw (Error (name +:+ " environment variable is required"))
  else io_ret tt.

Fixpoint log_all (lines : list string) : IO unit :=
  match lines with
  | [] => io_ret tt
  | line :: rest => log line ;; log_all rest
  end.

(** The lines that [main] prints before it checks the environment, and
    those it prints once it has the tools. *)
Definition banner (env : Env) : list string :=
  ["Google Workspace MCP Server (Composio.dev Integration)";
   String.concat EmptyString (replicate 60 "=");
   "Project ID: " +:+ COMPOSIO_PROJECT_ID;
   "User ID: " +:+ USER_ID env;
   EmptyString].

Definition usage (tools : list JSValue) : list string :=
  ["Found " +:+ string_of_number (Z.of_nat (length tools))
   +:+ " tools available through Composio";
   EmptyString;
   "Example 2: Authentication Setup";
   "To set up authentication, you would call:";
   "  await mcpServer.initializeAuthentication(" +:+ dq +:+ "<authConfigId>"
   +:+ dq +:+ ")";
   EmptyString;
   "Example 3: Tool Usage Examples";
   "Once authenticated, you can use tools like:";
   "  await mcpServer.sendEmail(" +:+ dq +:+ "user@example.com" +:+ dq +:+ ", "
   +:+ dq +:+ "Hello" +:+ dq +:+ ", " +:+ dq +:+ "Test message" +:+ dq +:+ ")";
   "  await mcpServer.searchGmailMessages(" +:+ dq +:+ "from:me" +:+ dq +:+ ", 5)";
   "  await mcpServer.createCalendarEvent({...eventDetails})";
   EmptyString;
   "Google Workspace MCP Server initialized successfully!";
   "Next steps:";
   "  1. Set up Google OAuth credentials in Composio.dev";
   "  2. Create auth config and get authConfigId";
   "  3. Call initializeAuthentication() with your authConfigId";
   "  4. Use the available Google Workspace tools"].

(** The body of the [try] of [main]. *)
Definition main_body (env : Env) : IO unit :=
  log_all (banner env) ;;
  require "COMPOSIO_API_KEY" (COMPOSIO_API_KEY env) ;;
  require "ANTHROPIC_API_KEY" (ANTHROPIC_API_KEY env) ;;
  log "Example 1: Listing Google Workspace tools" ;;
  let! tools := getGoogleWorkspaceTools (USER_ID env) in
  log_all (usage tools).

(** [main()]: what it prints and calls, and the code of [process.exit]
    when it is reached. *)
Definition main (env : Env) (w : list Observation) : list Observation * option Z :=
  match main_body env w with
  | (w', Fulfilled _) => (w', None)
  | (w', Rejected e) =>
      (w' ++ [LogError ("Application failed: " +:+ error_message e)], Some 1%Z)
  end.
End Lifecycle.

End MCP.

Definition example_env : MCP.Env :=
  {| MCP.COMPOSIO_API_KEY := None;
     MCP.ANTHROPIC_API_KEY := None;
     MCP.USER_GOOGLE_EMAIL := None |}.




Definition example_event : MCP.EventDetails :=
  {| MCP.summary := "Planning";
     MCP.start := "2024-01-15T14:00:00Z";
     MCP.end_ := "2024-01-15T15:00:00Z";
     MCP.description := None;
     MCP.attendees := Some [];
     MCP.location := Some "Room 1" |}.

(** ** custom-tools: the executor of [WORKSPACE_WORKFLOW] *)

Module WORKSPACE_WORKFLOW.
Inductive WorkflowType : Type := email_to_calendar | drive_to_sheets | calendar_to_email.
Inductive TriggerType : Type := schedule | email | file_change | calendar_event.
Inductive App : Type := gmail | calendar | drive | sheets.

Record Trigger : Type := {
  trigger_type : TriggerType;
  conditions : JSValue
}.

Record Action : Type := {
  app : App;
  action : string;
  parameters : JSValue
}.

Record Input : Type := {
  workflowType : WorkflowType;
  trigger : Trigger;
  actions : list Action
}.

(** The random draws and the clock. *)
Record Ambient : Type := {
  draw : nat -> Z;      (* [Math.floor(Math.random() * 2000)] of the callback at an index *)
  timestamp : string;   (* [`${Date.now()}`] *)
  tomorrow : string     (* [new Date(Date.now() + 24 * 60 * 60 * 1000).toISOString()] *)
}.

Definition workflowType_string (t : WorkflowType) : string :=
  match t with
  | email_to_calendar => "email_to_calendar"
  | drive_to_sheets => "drive_to_sheets"
  | calendar_to_email => "calendar_to_email"
  end.

Definition app_string (a : App) : string :=
  match a with
  | gmail => "gmail" | calendar => "calendar" | drive => "drive" | sheets => "sheets"
  end.

Record StepResult : Type := {
  step : Z;
  step_app : string;
  step_action : string;
  status : string;
  execution_time : Z;
  result : string
}.

(** [actions.map((action, index) => ({...}))] *)
Definition executionResults (env : Ambient) (actions : list Action) : list StepResult :=
  imap (fun index action =>
          {| step := (Z.of_nat index + 1)%Z;
             step_app := app_string (app action);
             step_action := WORKSPACE_WORKFLOW.action action;
             status := "completed";
             execution_time := (draw env index + 200)%Z;
             result := app_string (app action) +:+ " " +:+ WORKSPACE_WORKFLOW.action action
                       +:+ " executed successfully" |})
       actions.

(** [executionResults.reduce((sum, r) => sum + r.execution_time, 0)] *)
Definition total_execution_time (results : list StepResult) : Z :=
  foldl (fun sum r => sum + execution_time r)%Z 0%Z results.

Definition step_object (r : StepResult) : JSValue :=
  JObj [("step", JNum (step r));
        ("app", JStr (step_app r));
        ("action", JStr (step_action r));
        ("status", JStr (status r));
        ("execution_time", JNum (execution_time r));
        ("result", JStr (result r))].

Definition execute (env : Ambient) (input : Input) : JSValue :=
  let executionResults := executionResults env (actions input) in
  JObj [("data",
         JObj [("workflow_id", JStr ("wf_" +:+ timestamp env));
               ("workflow_type", JStr (workflowType_string (workflowType input)));
               ("execution_summary",
                JObj [("total_steps", number_of_length (actions input));
                      ("completed_steps", number_of_length (actions input));
                      ("failed_steps", JNum 0);
                      ("total_execution_time",
                       JNum (total_execution_time executionResults))]);
               ("step_results", JArr (step_object <$> executionResults));
               ("next_execution",
                JStr (match trigger_type (trigger input) with
                      | schedule => tomorrow env
                      | _ => "on_demand"
                      end));
               ("logs",
                js_string_list ["Workflow initiated successfully";
                                "All authentication checks passed";
                                "Cross-app permissions verified";
                                "Execution completed without errors"])]);
        ("successful", JBool true);
        ("error", JNull)].
End WORKSPACE_WORKFLOW.

Definition example_ambient : WORKSPACE_WORKFLOW.Ambient :=
  {| WORKSPACE_WORKFLOW.draw := fun index => ((Z.of_nat index * 700) `mod` 2000)%Z;
     WORKSPACE_WORKFLOW.timestamp := "1700000000000";
     WORKSPACE_WORKFLOW.tomorrow := "2023-11-15T22:13:20.000Z" |}.

Definition example_workflow : WORKSPACE_WORKFLOW.Input :=
  {| WORKSPACE_WORKFLOW.workflowType := WORKSPACE_WORKFLOW.email_to_calendar;
     WORKSPACE_WORKFLOW.trigger :=
       {| WORKSPACE_WORKFLOW.trigger_type := WORKSPACE_WORKFLOW.email;
          WORKSPACE_WORKFLOW.conditions := JObj [] |};
     WORKSPACE_WORKFLOW.actions :=
       [{| WORKSPACE_WORKFLOW.app := WORKSPACE_WORKFLOW.gmail;
           WORKSPACE_WORKFLOW.action := "read";
           WORKSPACE_WORKFLOW.parameters := JObj [] |};
        {| WORKSPACE_WORKFLOW.app := WORKSPACE_WORKFLOW.calendar;
           WORKSPACE_WORKFLOW.action := "create";
           WORKSPACE_WORKFLOW.parameters := JObj [] |}] |}.

(** ** GoogleWorkspaceAgent: [generateDailySummary] *)

Definition error_name (e : JSError) : string :=
  match e with
  | Error _ => "Error"
  | TypeError _ => "TypeError"
  end.

(** [`${error}`]: the name of the error and its message. *)
Definition error_toString (e : JSError) : string :=
  if String.eqb (error_message e) EmptyString then error_name e
  else error_name e +:+ ": " +:+ error_message e.

Section DailySummary.
Variable sdk : Collaborators.
(** [new Date().toISOString()] and its part before the 'T'. *)
Variable now : string.
Variable today : string.
(** The template literal of the summary reads properties of the two
    untyped results; [summaryText targetDate emails events] is the text it
    evaluates to, or the error that reading throws. *)
Variable summaryText : string -> JSValue -> JSValue -> Outcome string.

Definition emailQuery (targetDate : string) : string :=
  "after:" +:+ targetDate +:+ " before:" +:+ targetDate.

(** [date || new Date().toISOString().split('T')[0]] *)
Definition targetDate (date : option string) : string :=
  if truthy_string date then default EmptyString date else today.

Definition generateDailySummary (agent : GoogleWorkspaceAgent) (date : option string)
  : M string :=
  let targetDate := targetDate date in
  console_log ("Generating daily summary for " +:+ targetDate) ;;
  try_catch
    (let! emails := getRecentEmails sdk agent (Some 50%Z) (Some (emailQuery targetDate)) in
     let dayStart := targetDate +:+ "T00:00:00Z" in
     let! events := getUpcomingEvents sdk now agent (Some 20%Z) (Some dayStart) in
     let! summary := (fun w => (w, summaryText targetDate emails events)) in
     console_log "Daily summary generated" ;;
     ret summary)
    (fun error =>
       console_error ("Failed to generate daily summary: " +:+ error_message error) ;;
       ret ("Failed to generate summary: " +:+ error_toString error)).
End DailySummary.

Definition gmail_agent : GoogleWorkspaceAgent :=
  {| userId := "default"; connectedServices := {["gmail"]} |}.

(** The two tool executions of the daily summary for the day [day]. *)
Definition emails_fetch (agent : GoogleWorkspaceAgent) (day : string)
  : string * string * JSValue :=
  ("GMAIL_FETCH_EMAILS", userId agent, recentEmailsParams 50 (Some (emailQuery day))).

Definition events_fetch (now : string) (agent : GoogleWorkspaceAgent) (day : string)
  : string * string * JSValue :=
  ("GOOGLECALENDAR_LIST_EVENTS", userId agent,
   upcomingEventsParams now 20 (Some (day +:+ "T00:00:00Z"))).

(** ** The input of the executors: destructuring and schemas *)

(** Every executor of [index.ts] starts with
    [const { a, b = d, ... } = input], where [input] is the object that
    the schema has parsed.  A pattern lists the names it binds, each with
    its default if it has one; the input is given by the reading of its
    properties, and a name is bound to the property of that name, or to
    the default when there is one and the property is [undefined]. *)
Definition Destructuring : Type := list (string * option JSValue).

Definition property (input : JSValue) (name : string) : JSValue := get name input.

Definition bound_value (read : string -> JSValue) (name : string)
    (default_ : option JSValue) : JSValue :=
  match read name, default_ with
  | JUndefined, Some d => d
  | v, _ => v
  end.

Definition destructure (pattern : Destructuring) (read : string -> JSValue)
  : list (string * JSValue) :=
  (fun binding => (binding.1, bound_value read binding.1 binding.2)) <$> pattern.

(** The variable [name] of an executor after its destructuring. *)
Definition variable (name : string) (bindings : list (string * JSValue)) : JSValue :=
  get_field name bindings.

(** The patterns of the 86 executors of [index.ts], in the order of their
    registration. *)
Definition executorDestructurings : list (string * Destructuring) :=
  [ ("GMAIL_GET_MESSAGES_CONTENT_BATCH",
     [("message_ids", None); ("user_google_email", None);
      ("include_attachments", Some (JBool false))]);
    ("GMAIL_GET_THREADS_CONTENT_BATCH",
     [("thread_ids", None); ("user_google_email", None);
      ("max_results_per_thread", Some (JNum 50))]);
    ("GMAIL_DRAFT_MESSAGE",
     [("to", None); ("subject", None); ("body", None); ("cc", None); ("bcc", None);
      ("user_google_email", None)]);
    ("GMAIL_BATCH_MODIFY_LABELS",
     [("message_ids", None); ("add_label_ids", Some (JArr []));
      ("remove_label_ids", Some (JArr [])); ("user_google_email", None)]);
    ("GMAIL_CREATE_LABEL",
     [("name", None); ("user_google_email", None); ("label_list_visibility", None);
      ("message_list_visibility", None); ("color", None)]);
    ("GMAIL_SEARCH_MESSAGES_FILTERS",
     [("query", None); ("user_google_email", None); ("max_results", Some (JNum 10));
      ("label_ids", Some (JArr [])); ("include_spam_trash", Some (JBool false));
      ("page_token", None)]);
    ("GMAIL_GET_MESSAGE_RAW",
     [("message_id", None); ("user_google_email", None);
      ("format", Some (JStr "raw"))]);
    ("GMAIL_BATCH_DELETE_MESSAGES",
     [("message_ids", None); ("user_google_email", None)]);
    ("GMAIL_GET_USER_PROFILE",
     [("user_google_email", None)]);
    ("GMAIL_WATCH_MAILBOX",
     [("user_google_email", None); ("topic_name", None); ("label_ids", Some (JArr []));
      ("label_filter_action", Some (JStr "include"))]);
    ("GMAIL_GET_ATTACHMENT",
     [("message_id", None); ("attachment_id", None); ("user_google_email", None)]);
    ("GMAIL_BATCH_ARCHIVE_MESSAGES",
     [("message_ids", None); ("user_google_email", None)]);
    ("GMAIL_GET_HISTORY",
     [("start_history_id", None); ("user_google_email", None);
      ("max_results", Some (JNum 100)); ("label_id", None);
      ("history_types", Some (JArr []))]);
    ("GMAIL_STOP_WATCH",
     [("user_google_email", None)]);
    ("CALENDAR_LIST_EVENTS_FILTERS",
     [("user_google_email", None); ("calendar_id", Some (JStr "primary"));
      ("time_min", None); ("time_max", None); ("max_results", Some (JNum 10));
      ("single_events", Some (JBool true)); ("order_by", Some (JStr "startTime"));
      ("page_token", None)]);
    ("CALENDAR_GET_EVENT",
     [("event_id", None); ("user_google_email", None);
      ("calendar_id", Some (JStr "primary"))]);
    ("CALENDAR_UPDATE_EVENT",
     [("event_id", None); ("user_google_email", None);
      ("calendar_id", Some (JStr "primary")); ("summary", None); ("description", None);
      ("start_time", None); ("end_time", None); ("location", None);
      ("attendees", Some (JArr []))]);
    ("CALENDAR_DELETE_EVENT",
     [("event_id", None); ("user_google_email", None);
      ("calendar_id", Some (JStr "primary")); ("send_updates", Some (JStr "all"))]);
    ("CALENDAR_LIST_CALENDARS",
     [("user_google_email", None); ("min_access_role", Some (JStr "reader"));
      ("show_deleted", Some (JBool false)); ("show_hidden", Some (JBool false))]);
    ("DRIVE_SEARCH_FILES_FILTERS",
     [("query", None); ("user_google_email", None); ("spaces", Some (JStr "drive"));
      ("corpus", Some (JStr "user")); ("order_by", Some (JStr "modifiedTime desc"));
      ("page_size", Some (JNum 10)); ("page_token", None);
      ("include_items_from_all_drives", Some (JBool false))]);
    ("DRIVE_GET_FILE_CONTENT",
     [("file_id", None); ("user_google_email", None); ("mime_type", None);
      ("acknowledge_abuse", Some (JBool false))]);
    ("DRIVE_UPLOAD_FILE",
     [("name", None); ("user_google_email", None); ("content", None);
      ("mime_type", Some (JStr "text/plain")); ("parent_folder_id", None);
      ("description", None)]);
    ("DRIVE_CREATE_FOLDER",
     [("name", None); ("user_google_email", None); ("parent_folder_id", None);
      ("description", None)]);
    ("DRIVE_COPY_FILE",
     [("file_id", None); ("user_google_email", None); ("name", None);
      ("parent_folder_id", None)]);
    ("DRIVE_BATCH_GET_METADATA",
     [("file_ids", None); ("user_google_email", None); ("fields", Some (JStr "*"))]);
    ("DOCS_GET_CONTENT_STRUCTURE",
     [("document_id", None); ("user_google_email", None);
      ("include_suggestions", Some (JBool false))]);
    ("DOCS_BATCH_UPDATE_CONTENT",
     [("document_id", None); ("user_google_email", None); ("requests", None)]);
    ("DOCS_INSERT_IMAGE",
     [("document_id", None); ("user_google_email", None); ("image_uri", None);
      ("insert_location", None); ("width", None); ("height", None)]);
    ("DOCS_CREATE_FROM_TEMPLATE",
     [("template_id", None); ("user_google_email", None); ("title", None);
      ("destination_folder_id", None)]);
    ("DOCS_REPLACE_TEXT",
     [("document_id", None); ("user_google_email", None); ("find_text", None);
      ("replace_text", None); ("match_case", Some (JBool false))]);
    ("DOCS_GET_SUGGESTIONS",
     [("document_id", None); ("user_google_email", None);
      ("include_resolved", Some (JBool false))]);
    ("DOCS_APPLY_FORMATTING",
     [("document_id", None); ("user_google_email", None); ("range", None);
      ("text_style", None)]);
    ("DOCS_INSERT_TABLE",
     [("document_id", None); ("user_google_email", None); ("insert_location", None);
      ("rows", None); ("columns", None); ("table_data", None)]);
    ("DOCS_GET_REVISION_HISTORY",
     [("document_id", None); ("user_google_email", None);
      ("page_size", Some (JNum 25)); ("page_token", None)]);
    ("DOCS_EXPORT_DOCUMENT",
     [("document_id", None); ("user_google_email", None); ("format", None);
      ("include_headers_footers", Some (JBool true))]);
    ("DOCS_INSERT_PAGE_BREAK",
     [("document_id", None); ("user_google_email", None); ("insert_location", None)]);
    ("DOCS_BATCH_GET_METADATA",
     [("document_ids", None); ("user_google_email", None);
      ("fields", Some (JStr "*"))]);
    ("DOCS_CREATE_NAMED_RANGE",
     [("document_id", None); ("user_google_email", None); ("name", None);
      ("range", None)]);
    ("DOCS_GET_OUTLINE",
     [("document_id", None); ("user_google_email", None);
      ("max_heading_level", Some (JNum 6))]);
    ("SHEETS_LIST_SPREADSHEETS",
     [("user_google_email", None); ("max_results", Some (JNum 25))]);
    ("SHEETS_GET_SPREADSHEET_INFO",
     [("user_google_email", None); ("spreadsheet_id", None)]);
    ("SHEETS_READ_SHEET_VALUES",
     [("user_google_email", None); ("spreadsheet_id", None);
      ("range_name", Some (JStr "A1:Z1000"))]);
    ("SHEETS_MODIFY_SHEET_VALUES",
     [("user_google_email", None); ("spreadsheet_id", None); ("range_name", None);
      ("values", None); ("value_input_option", Some (JStr "USER_ENTERED"));
      ("clear_values", Some (JBool false))]);
    ("SHEETS_CREATE_SPREADSHEET",
     [("user_google_email", None); ("title", None); ("sheet_names", None)]);
    ("SHEETS_CREATE_SHEET",
     [("user_google_email", None); ("spreadsheet_id", None); ("sheet_name", None)]);
    ("SLIDES_CREATE_PRESENTATION",
     [("user_google_email", None); ("title", Some (JStr "Untitled Presentation"))]);
    ("SLIDES_GET_PRESENTATION",
     [("user_google_email", None); ("presentation_id", None)]);
    ("SLIDES_BATCH_UPDATE_PRESENTATION",
     [("user_google_email", None); ("presentation_id", None); ("requests", None)]);
    ("SLIDES_GET_PAGE",
     [("user_google_email", None); ("presentation_id", None);
      ("page_object_id", None)]);
    ("SLIDES_GET_PAGE_THUMBNAIL",
     [("user_google_email", None); ("presentation_id", None); ("page_object_id", None);
      ("thumbnail_size", Some (JStr "MEDIUM"))]);
    ("FORMS_CREATE_FORM",
     [("user_google_email", None); ("title", None); ("description", None);
      ("document_title", None)]);
    ("FORMS_GET_FORM",
     [("user_google_email", None); ("form_id", None)]);
    ("FORMS_SET_PUBLISH_SETTINGS",
     [("user_google_email", None); ("form_id", None);
      ("publish_as_template", Some (JBool false));
      ("require_authentication", Some (JBool false))]);
    ("FORMS_GET_FORM_RESPONSE",
     [("user_google_email", None); ("form_id", None); ("response_id", None)]);
    ("FORMS_LIST_FORM_RESPONSES",
     [("user_google_email", None); ("form_id", None); ("page_size", Some (JNum 10));
      ("page_token", None)]);
    ("CHAT_LIST_SPACES",
     [("user_google_email", None); ("page_size", Some (JNum 100));
      ("space_type", Some (JStr "all"))]);
    ("CHAT_GET_MESSAGES",
     [("user_google_email", None); ("space_id", None); ("page_size", Some (JNum 50));
      ("order_by", Some (JStr "createTime desc"))]);
    ("CHAT_SEND_MESSAGE",
     [("user_google_email", None); ("space_id", None); ("message_text", None);
      ("thread_key", None)]);
    ("CHAT_SEARCH_MESSAGES",
     [("user_google_email", None); ("query", None); ("space_id", None);
      ("page_size", Some (JNum 25))]);
    ("SEARCH_CUSTOM",
     [("user_google_email", None); ("q", None); ("num", Some (JNum 10));
      ("start", Some (JNum 1)); ("safe", Some (JStr "off")); ("search_type", None);
      ("site_search", None); ("site_search_filter", None); ("date_restrict", None);
      ("file_type", None); ("language", None); ("country", None)]);
    ("SEARCH_GET_SEARCH_ENGINE_INFO",
     [("user_google_email", None)]);
    ("SEARCH_CUSTOM_SITERESTRICT",
     [("user_google_email", None); ("q", None); ("sites", None);
      ("num", Some (JNum 10)); ("start", Some (JNum 1)); ("safe", Some (JStr "off"))]);
    ("TASKS_LIST_TASK_LISTS",
     [("user_google_email", None); ("max_results", None); ("page_token", None)]);
    ("TASKS_GET_TASK_LIST",
     [("user_google_email", None); ("task_list_id", None)]);
    ("TASKS_CREATE_TASK_LIST",
     [("user_google_email", None); ("title", None)]);
    ("TASKS_UPDATE_TASK_LIST",
     [("user_google_email", None); ("task_list_id", None); ("title", None)]);
    ("TASKS_DELETE_TASK_LIST",
     [("user_google_email", None); ("task_list_id", None)]);
    ("TASKS_LIST_TASKS",
     [("user_google_email", None); ("task_list_id", None);
      ("max_results", Some (JNum 20)); ("page_token", None);
      ("show_completed", Some (JBool true)); ("show_deleted", Some (JBool false));
      ("show_hidden", Some (JBool false)); ("show_assigned", Some (JBool false));
      ("completed_max", None); ("completed_min", None); ("due_max", None);
      ("due_min", None); ("updated_min", None)]);
    ("TASKS_GET_TASK",
     [("user_google_email", None); ("task_list_id", None); ("task_id", None)]);
    ("TASKS_CREATE_TASK",
     [("user_google_email", None); ("task_list_id", None); ("title", None);
      ("notes", None); ("due", None); ("parent", None); ("previous", None)]);
    ("TASKS_UPDATE_TASK",
     [("user_google_email", None); ("task_list_id", None); ("task_id", None);
      ("title", None); ("notes", None); ("status", None); ("due", None)]);
    ("TASKS_DELETE_TASK",
     [("user_google_email", None); ("task_list_id", None); ("task_id", None)]);
    ("TASKS_MOVE_TASK",
     [("user_google_email", None); ("task_list_id", None); ("task_id", None);
      ("parent", None); ("previous", None)]);
    ("TASKS_CLEAR_COMPLETED_TASKS",
     [("user_google_email", None); ("task_list_id", None)]);
    ("DOCS_READ_COMMENTS",
     [("user_google_email", None); ("document_id", None)]);
    ("DOCS_CREATE_COMMENT",
     [("user_google_email", None); ("document_id", None); ("comment_content", None)]);
    ("DOCS_REPLY_COMMENT",
     [("user_google_email", None); ("document_id", None); ("comment_id", None);
      ("reply_content", None)]);
    ("DOCS_RESOLVE_COMMENT",
     [("user_google_email", None); ("document_id", None); ("comment_id", None)]);
    ("SHEETS_READ_COMMENTS",
     [("user_google_email", None); ("spreadsheet_id", None)]);
    ("SHEETS_CREATE_COMMENT",
     [("user_google_email", None); ("spreadsheet_id", None);
      ("comment_content", None)]);
    ("SHEETS_REPLY_COMMENT",
     [("user_google_email", None); ("spreadsheet_id", None); ("comment_id", None);
      ("reply_content", None)]);
    ("SHEETS_RESOLVE_COMMENT",
     [("user_google_email", None); ("spreadsheet_id", None); ("comment_id", None)]);
    ("SLIDES_READ_COMMENTS",
     [("user_google_email", None); ("presentation_id", None)]);
    ("SLIDES_CREATE_COMMENT",
     [("user_google_email", None); ("presentation_id", None);
      ("comment_content", None)]);
    ("SLIDES_REPLY_COMMENT",
     [("user_google_email", None); ("presentation_id", None); ("comment_id", None);
      ("reply_content", None)]);
    ("SLIDES_RESOLVE_COMMENT",
     [("user_google_email", None); ("presentation_id", None); ("comment_id", None)]) ].


Definition has_default (pattern : Destructuring) : bool :=
  bool_decide (Exists (fun binding => is_Some binding.2) pattern).

(** [GMAIL_SEARCH_MESSAGES_FILTERS]: the executor on an input given by
    its properties, and the tool as a capability of the dispatcher.  The
    schema of [index.ts] declares [query] and [user_google_email] and four
    [.optional()] fields, none with a default of its own: the defaults are
    those of the executor's pattern. *)
Definition searchFiltersPattern : Destructuring :=
  [("query", None); ("user_google_email", None); ("max_results", Some (JNum 10));
   ("label_ids", Some (JArr [])); ("include_spam_trash", Some (JBool false));
   ("page_token", None)].

Definition searchFiltersExecute (read : string -> JSValue) : JSValue :=
  let bindings := destructure searchFiltersPattern read in
  JObj [("data",
         JObj [("messages", JArr []);
               ("next_page_token", JNull);
               ("result_size_estimate", JNum 0);
               ("query", variable "query" bindings);
               ("max_results", variable "max_results" bindings)])].

(** [input.name] for the normalized input of the dispatcher. *)
Definition read_input (input : gmap string JSValue) (name : string) : JSValue :=
  default JUndefined (input !! name).

Definition optional_field (name : string) (type : Dispatcher.FieldType)
    (default_ : option JSValue) : Dispatcher.Field :=
  {| Dispatcher.field_name := name; Dispatcher.field_type := type;
     Dispatcher.required := false; Dispatcher.default_value := default_ |}.

Definition required_field (name : string) (type : Dispatcher.FieldType)
  : Dispatcher.Field :=
  {| Dispatcher.field_name := name; Dispatcher.field_type := type;
     Dispatcher.required := true; Dispatcher.default_value := None |}.

Definition SEARCH_FILTERS : Dispatcher.CapabilityDescriptor :=
  {| Dispatcher.identifier := "GMAIL_SEARCH_MESSAGES_FILTERS";
     Dispatcher.displayName := "Search Gmail Messages with Filters";
     Dispatcher.description :=
       "Advanced Gmail search with comprehensive filtering options and pagination";
     Dispatcher.inputSchema :=
       [ required_field "query" Dispatcher.TString;
         required_field "user_google_email" Dispatcher.TString;
         optional_field "max_results" Dispatcher.TNumber None;
         optional_field "label_ids" (Dispatcher.TList Dispatcher.TString) None;
         optional_field "include_spam_trash" Dispatcher.TBoolean None;
         optional_field "page_token" Dispatcher.TString None ];
     Dispatcher.executor := fun input _ =>
       Fulfilled (searchFiltersExecute (read_input input)) |}.

(** The schemas of [custom-tools] that declare defaults with
    [.default(...)]: those of [EMAIL_ANALYTICS] and
    [DOCUMENT_INTELLIGENCE], and the nested schema of the [preferences] of
    [MEETING_OPTIMIZER], which parses that object when it is present. *)
Definition EMAIL_ANALYTICS_schema : list Dispatcher.Field :=
  [ optional_field "timeframe" (Dispatcher.TEnum ["day"; "week"; "month"])
      (Some (JStr "week"));
    optional_field "analysisType"
      (Dispatcher.TEnum ["volume"; "sentiment"; "response_time"]) (Some (JStr "volume"));
    optional_field "includeThreads" Dispatcher.TBoolean (Some (JBool true)) ].

(** [EMAIL_ANALYTICS] as a capability of the dispatcher.  Its executor
    reads the three fields of the parsed input; the schema accepts no
    input on which the reading below falls through. *)
Definition timeframe_of_string (s : string) : option EMAIL_ANALYTICS.Timeframe :=
  if String.eqb s "day" then Some EMAIL_ANALYTICS.day
  else if String.eqb s "week" then Some EMAIL_ANALYTICS.week
  else if String.eqb s "month" then Some EMAIL_ANALYTICS.month
  else None.

Definition analysisType_of_string (s : string) : option EMAIL_ANALYTICS.AnalysisType :=
  if String.eqb s "volume" then Some EMAIL_ANALYTICS.volume
  else if String.eqb s "sentiment" then Some EMAIL_ANALYTICS.sentiment
  else if String.eqb s "response_time" then Some EMAIL_ANALYTICS.response_time
  else None.

Definition EMAIL_ANALYTICS_input (input : gmap string JSValue)
  : option EMAIL_ANALYTICS.Input :=
  match input !! "timeframe", input !! "analysisType", input !! "includeThreads" with
  | Some (JStr t), Some (JStr a), Some (JBool b) =>
      match timeframe_of_string t, analysisType_of_string a with
      | Some t, Some a =>
          Some {| EMAIL_ANALYTICS.timeframe := t;
                  EMAIL_ANALYTICS.analysisType := a;
                  EMAIL_ANALYTICS.includeThreads := b |}
      | _, _ => None
      end
  | _, _, _ => None
  end.

Definition EMAIL_ANALYTICS_tool (env : EMAIL_ANALYTICS.Ambient)
  : Dispatcher.CapabilityDescriptor :=
  {| Dispatcher.identifier := "EMAIL_ANALYTICS";
     Dispatcher.displayName := "Email Analytics";
     Dispatcher.description := "Analyze email patterns and generate insights";
     Dispatcher.inputSchema := EMAIL_ANALYTICS_schema;
     Dispatcher.executor := fun input _ =>
       match EMAIL_ANALYTICS_input input with
       | Some input => Fulfilled (EMAIL_ANALYTICS.execute env input)
       | None => Rejected (TypeError "input does not match the schema")
       end |}.

Definition analytics_request : Dispatcher.InvocationRequest :=
  {| Dispatcher.request_identifier := "EMAIL_ANALYTICS";
     Dispatcher.rawInput := ∅ |}.

Definition MEETING_OPTIMIZER_preferences_schema : list Dispatcher.Field :=
  [ optional_field "preferredTimeSlots" (Dispatcher.TList Dispatcher.TString) None;
    optional_field "avoidMornings" Dispatcher.TBoolean (Some (JBool false));
    optional_field "respectTimeZones" Dispatcher.TBoolean (Some (JBool true)) ].

Definition DOCUMENT_INTELLIGENCE_schema : list Dispatcher.Field :=
  [ required_field "fileId" Dispatcher.TString;
    optional_field "analysisDepth"
      (Dispatcher.TEnum ["basic"; "detailed"; "comprehensive"]) (Some (JStr "basic"));
    optional_field "extractKeywords" Dispatcher.TBoolean (Some (JBool true));
    optional_field "summarize" Dispatcher.TBoolean (Some (JBool false)) ].

(** Whenever the schema accepts an input that omits [name], the
    normalized input holds [value] for it. *)
Definition schema_default (schema : list Dispatcher.Field) (name : string)
    (value : JSValue) : Prop :=
  forall raw input,
    raw !! name = None ->
    Dispatcher.validate schema raw = inr input ->
    input !! name = Some value.

Definition search_request : Dispatcher.InvocationRequest :=
  {| Dispatcher.request_identifier := "GMAIL_SEARCH_MESSAGES_FILTERS";
     Dispatcher.rawInput := {["query" := JStr "from:alice";
                              "user_google_email" := JStr "user@example.com"]} |}.

(** ** The steps of [initializeCustomTools]

    The statements of the method in their order: a line is printed or a
    tool is submitted to the SDK. *)
Inductive Step : Type :=
| Print (line : string)
| Submit (tool : CustomTool).

Definition group_steps (tools : list CustomTool) (line : string) : list Step :=
  (Submit <$> tools) ++ [Print line].

Definition initialization_steps : list Step :=
  [Print "Creating 84 custom Google Workspace tools..."]
  ++ group_steps gmailCustomTools "Created 11 custom Gmail tools"
  ++ group_steps calendarCustomTools "Created 5 custom Calendar tools"
  ++ group_steps driveCustomTools "Created 6 custom Drive tools"
  ++ group_steps docsCustomTools "Created 14 custom Docs tools"
  ++ group_steps sheetsCustomTools "Created 6 custom Sheets tools"
  ++ group_steps slidesCustomTools "Created 5 custom Slides tools"
  ++ group_steps formsCustomTools "Created 5 custom Forms tools"
  ++ group_steps chatCustomTools "Created 4 custom Chat tools"
  ++ group_steps searchCustomTools "Created 3 custom Search tools"
  ++ group_steps tasksCustomTools "Created 12 custom Tasks tools"
  ++ group_steps commentCustomTools
       "Created 10 custom Comments tools (4 Docs + 4 Sheets + 4 Slides)"
  ++ [Print "All 84 custom tools created successfully!"].

Definition step_event (s : Step) : Event :=
  match s with
  | Print line => ConsoleLog line
  | Submit tool => ToolsCreateCustomTool (slug tool)
  end.

(** The tools that a list of steps submits. *)
Definition submitted (steps : list Step) : list CustomTool :=
  omap (fun s => match s with Submit tool => Some tool | Print _ => None end) steps.

(** The steps run one after the other, up to the first refusal. *)
Fixpoint run_steps (sdk : Collaborators) (steps : list Step) : M unit :=
  match steps with
  | [] => ret tt
  | Print line :: rest => bind (console_log line) (fun _ => run_steps sdk rest)
  | Submit tool :: rest => bind (createCustomTool sdk tool) (fun _ => run_steps sdk rest)
  end.

(** [m] does what the steps say. *)
Definition runs (sdk : Collaborators) (steps : list Step) (m : M unit) : Prop :=
  forall w : Trace, m w = run_steps sdk steps w.
(** * Properties *)

(** ** Traces *)


Lemma executions_app (w1 w2 : Trace) :
  executions (w1 ++ w2) = executions w1 ++ executions w2.
Proof. apply omap_app. Qed.

(** ** [executeTool] *)

(** [executeTool] prints its first line, calls the SDK, and goes on as
    [executeTool_settled] says. *)
Lemma executeTool_run sdk toolSlug userId toolArguments (w : Trace) :
  executeTool sdk toolSlug userId toolArguments w =
  let answer := executeTool_settled toolSlug
                  (tools_execute sdk toolSlug userId toolArguments) in
  (w ++ [ConsoleLog ("Executing tool: " +:+ toolSlug);
         ToolsExecute toolSlug userId toolArguments] ++ answer.1,
   answer.2).
Proof.
  unfold executeTool, try_catch, bind, console_log, console_error, emit, await,
    executeTool_settled, throw, ret.
  destruct (tools_execute sdk toolSlug userId toolArguments) as [result|e]; simpl.
  - destruct (successful result); simpl; by rewrite <- !app_assoc.
  - by rewrite <- !app_assoc.
Qed.

(** The settled part of [executeTool] calls no tool. *)
Lemma executions_settled toolSlug answer :
  executions (executeTool_settled toolSlug answer).1 = [].
Proof.
  destruct answer as [result|e]; simpl; [destruct (successful result)|]; done.
Qed.

Lemma executeTool_executions sdk toolSlug userId toolArguments (w : Trace) :
  executions (executeTool sdk toolSlug userId toolArguments w).1 =
  executions w ++ [(toolSlug, userId, toolArguments)].
Proof.
  rewrite executeTool_run. simpl.
  rewrite executions_app.
  change (?a :: ?b :: ?l) with ([a; b] ++ l).
  by rewrite executions_app, executions_settled.
Qed.


Lemma executeTool_settled_failure toolSlug answer e :
  tool_failure answer = Some e ->
  (executeTool_settled toolSlug answer).2 = Rejected e.
Proof.
  destruct answer as [result|e']; simpl.
  - destruct (successful result); [done|]. by intros [= <-].
  - by intros [= <-].
Qed.

Lemma executeTool_settled_success toolSlug answer :
  tool_failure answer = None ->
  exists result, answer = Fulfilled result /\ successful result = true /\
    executeTool_settled toolSlug answer =
      ([ConsoleLog "Tool executed successfully"], Fulfilled (data result)).
Proof.
  destruct answer as [result|e']; simpl; [|done].
  destruct (successful result) eqn:Hs; [|done].
  intros _. exists result. by rewrite Hs.
Qed.

(** ** The guarded methods of the agent *)


Ltac guard_cases :=
  match goal with
  | |- context [bool_decide (?s ∈ ?cs)] =>
      destruct (bool_decide_reflect (s ∈ cs)); simpl
  end.

Lemma sendEmail_guarded sdk agent to subject body options :
  guarded_by agent "gmail" "Gmail not connected. Please authenticate first."
    "GMAIL_SEND_EMAIL" (emailData to subject body options)
    (sendEmail sdk agent to subject body options).
Proof.
  intros w. unfold sendEmail. guard_cases.
  - split; [done|]. unfold bind, console_log, emit.
    rewrite executeTool_executions, executions_app. simpl. rewrite app_nil_r.
    split; done.
  - unfold throw. simpl. split; [done|]. split; done.
Qed.

Lemma createCalendarEvent_guarded sdk agent event :
  guarded_by agent "googlecalendar"
    "Google Calendar not connected. Please authenticate first."
    "GOOGLECALENDAR_CREATE_EVENT" (eventData event)
    (createCalendarEvent sdk agent event).
Proof.
  intros w. unfold createCalendarEvent. guard_cases.
  - split; [done|]. unfold bind, console_log, emit.
    rewrite executeTool_executions, executions_app. simpl. rewrite app_nil_r.
    split; done.
  - unfold throw. simpl. split; [done|]. split; done.
Qed.

Lemma uploadToDrive_guarded sdk agent filename content parentFolderId :
  guarded_by agent "googledrive"
    "Google Drive not connected. Please authenticate first."
    "GOOGLEDRIVE_UPLOAD_FILE" (uploadParams filename content parentFolderId)
    (uploadToDrive sdk agent filename content parentFolderId).
Proof.
  intros w. unfold uploadToDrive. guard_cases.
  - split; [done|]. unfold bind, console_log, emit.
    rewrite executeTool_executions, executions_app. simpl. rewrite app_nil_r.
    split; done.
  - unfold throw. simpl. split; [done|]. split; done.
Qed.

(** ** [Promise.all] *)

Lemma slots_agree_replicate {A} (vs : list A) :
  slots_agree (replicate (length vs) None) vs.
Proof.
  unfold slots_agree. induction vs as [|v vs IH]; simpl; constructor; auto.
Qed.

Lemma slots_agree_insert {A} (values : list (option A)) vs i v :
  slots_agree values vs -> vs !! i = Some v ->
  slots_agree (<[i := Some v]> values) vs.
Proof.
  unfold slots_agree. intros H. revert i.
  induction H as [|slot v' values vs Hs H IH]; intros i Hi; [done|].
  destruct i as [|i]; simpl in *.
  - injection Hi as ->. constructor; auto.
  - constructor; auto.
Qed.

Lemma slots_agree_full {A} (values : list (option A)) vs :
  slots_agree values vs ->
  (forall i, values !! i <> Some None) ->
  omap id values = vs.
Proof.
  unfold slots_agree. induction 1 as [|slot v values vs Hs H IH]; intros Hfull; [done|].
  simpl. destruct Hs as [->| ->].
  - by destruct (Hfull 0%nat).
  - simpl. f_equal. apply IH. intros i. apply (Hfull (S i)).
Qed.

(** When every promise fulfils, the aggregate fulfils with the values in
    the order of the array, whatever the order of the remaining
    completions, provided these reach every empty slot. *)
Lemma settle_all_fulfilled {A} (promises : list (Settled A)) (vs : list A) order :
  promises.*2 = Fulfilled <$> vs ->
  forall values,
    slots_agree values vs ->
    (forall i, values !! i = Some None -> i ∈ order) ->
    (settle_all promises order values).2 = Fulfilled vs.
Proof.
  intros Hps. induction order as [|i rest IH]; intros values Hagree Hcover; simpl.
  - f_equal. apply slots_agree_full; [done|].
    intros i Hi. apply Hcover in Hi. by apply elem_of_nil in Hi.
  - assert (Hrest : forall j, j <> i -> values !! j = Some None -> j ∈ rest).
    { intros j Hne Hj. apply Hcover in Hj. apply elem_of_cons in Hj as [?|?]; done. }
    destruct (values !! i) as [[v'|]|] eqn:Hslot.
    + apply IH; [done|]. intros j Hj. apply Hrest; [|done]. intros ->. congruence.
    + assert (Hlen : length values = length vs) by (eapply Forall2_length; eauto).
      assert (Hi : (i < length vs)%nat)
        by (rewrite <- Hlen; eapply lookup_lt_Some; eauto).
      destruct (lookup_lt_is_Some_2 vs i Hi) as [v Hv].
      assert (Hp : promises.*2 !! i = Some (Fulfilled v))
        by (rewrite Hps, list_lookup_fmap, Hv; done).
      apply list_lookup_fmap_Some in Hp as ([lines o] & Ho & Hpi).
      simpl in Ho. subst o. rewrite Hpi.
      specialize (IH (<[i := Some v]> values)).
      destruct (settle_all promises rest (<[i := Some v]> values)) as [lines' result].
      simpl in *. apply IH.
      * by apply slots_agree_insert.
      * intros j Hj. destruct (decide (j = i)) as [->|Hne].
        -- rewrite list_lookup_insert_eq in Hj; [done|]. lia.
        -- rewrite list_lookup_insert_ne in Hj by done. by apply Hrest.
    + destruct (promises !! i) as [[lines o]|];
        (apply IH; [done|]; intros j Hj; apply Hrest; [|done]; intros ->; congruence).
Qed.

(** When some promise rejects, so does the aggregate: the values of the
    others are lost. *)
Lemma settle_all_rejected {A} (promises : list (Settled A)) r lines e order :
  promises !! r = Some (lines, Rejected e) ->
  forall values,
    values !! r = Some None ->
    r ∈ order ->
    exists j lines' e',
      promises !! j = Some (lines', Rejected e') /\
      (settle_all promises order values).2 = Rejected e'.
Proof.
  intros Hr. induction order as [|i rest IH]; intros values Hslot Hin.
  - by apply elem_of_nil in Hin.
  - simpl. destruct (decide (i = r)) as [->|Hne].
    + rewrite Hslot, Hr. by exists r, lines, e.
    + apply elem_of_cons in Hin as [?|Hin]; [congruence|].
      destruct (values !! i) as [[v'|]|] eqn:Hi; [by apply IH| |].
      * destruct (promises !! i) as [[lines' [v|e']]|] eqn:Hpi.
        -- specialize (IH (<[i := Some v]> values)).
           destruct (settle_all promises rest (<[i := Some v]> values)) as [l res].
           simpl in *. apply IH; [|done]. by rewrite list_lookup_insert_ne.
        -- by exists i, lines', e'.
        -- by apply IH.
      * destruct (promises !! i) as [[lines' o]|]; by apply IH.
Qed.

Lemma promise_all_fulfilled {A} completion (promises : list (Settled A)) vs (w : Trace) :
  promises.*2 = Fulfilled <$> vs ->
  (promise_all completion promises w).2 = Fulfilled vs.
Proof.
  intros Hps. unfold promise_all.
  assert (Hlen : length promises = length vs).
  { rewrite <- (length_fmap snd promises), Hps. apply length_fmap. }
  pose proof (settle_all_fulfilled promises vs
                (completion ++ seq 0 (length promises)) Hps
                (replicate (length promises) None)) as H.
  destruct (settle_all promises (completion ++ seq 0 (length promises))
              (replicate (length promises) None)) as [lines result].
  simpl in *. apply H.
  - rewrite Hlen. apply slots_agree_replicate.
  - intros i Hi. apply lookup_replicate in Hi as [_ Hi].
    apply elem_of_app. right. apply elem_of_seq. lia.
Qed.

Lemma promise_all_rejected {A} completion (promises : list (Settled A)) r lines e
    (w : Trace) :
  promises !! r = Some (lines, Rejected e) ->
  exists j lines' e',
    promises !! j = Some (lines', Rejected e') /\
    (promise_all completion promises w).2 = Rejected e'.
Proof.
  intros Hr. unfold promise_all.
  pose proof (lookup_lt_Some _ _ _ Hr) as Hlt.
  destruct (settle_all_rejected promises r lines e
              (completion ++ seq 0 (length promises)) Hr
              (replicate (length promises) None)) as (j & lines' & e' & Hj & Hres).
  - apply lookup_replicate. done.
  - apply elem_of_app. right. apply elem_of_seq. lia.
  - exists j, lines', e'. split; [done|].
    destruct (settle_all promises (completion ++ seq 0 (length promises))
                (replicate (length promises) None)). done.
Qed.

(** ** The meeting workflow *)

Lemma sendEmail_promise_agrees sdk agent to subject body options (w : Trace) :
  sendEmail sdk agent to subject body options w =
  let p := sendEmail_promise sdk agent to subject body options in
  (w ++ started p ++ (settled p).1, (settled p).2).
Proof.
  unfold sendEmail, sendEmail_promise. guard_cases.
  - unfold bind, console_log, emit. rewrite executeTool_run. simpl.
    by rewrite <- !app_assoc.
  - unfold throw. by rewrite app_nil_r.
Qed.

Lemma invite_outcome sdk agent meeting attendee :
  outcome_of (invitation sdk agent meeting attendee)
  = (settled (invite sdk agent meeting attendee)).2.
Proof. unfold outcome_of, invitation, invite. by rewrite sendEmail_promise_agrees. Qed.

(** What [createCalendarEvent] settles to does not depend on the trace. *)
Lemma createCalendarEvent_outcome sdk agent event (w : Trace) :
  (createCalendarEvent sdk agent event w).2 =
  outcome_of (createCalendarEvent sdk agent event).
Proof.
  unfold outcome_of, createCalendarEvent. guard_cases; [|done].
  unfold bind, console_log, emit. by rewrite !executeTool_run.
Qed.


(** The workflow, statement by statement. *)
Lemma scheduleMeetingWithInvites_run sdk completion agent meeting (w : Trace) :
  scheduleMeetingWithInvites sdk completion agent meeting w =
  match createCalendarEvent sdk agent (event_of_meeting meeting)
          (w ++ [ConsoleLog ("Orchestrating meeting workflow: " +:+ dq
                             +:+ meeting_title meeting +:+ dq)]) with
  | (w2, Rejected e) => (w2, Rejected e)
  | (w2, Fulfilled event) =>
      let promises := invite sdk agent meeting <$> meeting_attendees meeting in
      match promise_all completion (settled <$> promises)
              (w2 ++ concat (started <$> promises)) with
      | (w4, Rejected e) => (w4, Rejected e)
      | (w4, Fulfilled emailsSent) =>
          (w4 ++ [ConsoleLog ("Meeting workflow completed: Event created, "
                              +:+ string_of_number (Z.of_nat (length emailsSent))
                              +:+ " invites sent")],
           Fulfilled {| event := event; emailsSent := emailsSent |})
      end
  end.
Proof.
  unfold scheduleMeetingWithInvites, bind, console_log, emit, map_async, ret. simpl.
  destruct (createCalendarEvent _ _ _ _) as [w2 [event|e]]; [|done].
  destruct (promise_all _ _ _) as [w4 [sent|e]]; done.
Qed.

Lemma invite_outcomes sdk agent meeting (attendees : list string) :
  (settled <$> (invite sdk agent meeting <$> attendees)).*2 =
  (fun attendee => outcome_of (invitation sdk agent meeting attendee)) <$> attendees.
Proof.
  rewrite <- !list_fmap_compose. apply list_fmap_ext.
  intros i attendee _. simpl. by rewrite invite_outcome.
Qed.

Lemma scheduleMeetingWithInvites_fulfilled sdk completion agent meeting event vs
    (w : Trace) :
  outcome_of (createCalendarEvent sdk agent (event_of_meeting meeting)) = Fulfilled event ->
  (fun attendee => outcome_of (invitation sdk agent meeting attendee))
    <$> meeting_attendees meeting = Fulfilled <$> vs ->
  (scheduleMeetingWithInvites sdk completion agent meeting w).2 =
    Fulfilled {| event := event; emailsSent := vs |}.
Proof.
  intros Hevent Hvs. rewrite scheduleMeetingWithInvites_run.
  pose proof (createCalendarEvent_outcome sdk agent (event_of_meeting meeting)
                (w ++ [ConsoleLog ("Orchestrating meeting workflow: " +:+ dq
                                   +:+ meeting_title meeting +:+ dq)])) as Hc.
  destruct (createCalendarEvent _ _ _ _) as [w2 o]. simpl in Hc.
  rewrite Hc, Hevent. cbv zeta.
  rewrite <- invite_outcomes in Hvs.
  pose proof (promise_all_fulfilled completion _ vs
                (w2 ++ concat (started <$> (invite sdk agent meeting
                                              <$> meeting_attendees meeting))) Hvs) as Hp.
  destruct (promise_all _ _ _) as [w4 o']. simpl in Hp. by rewrite Hp.
Qed.

Lemma scheduleMeetingWithInvites_rejected sdk completion agent meeting attendee e
    (w : Trace) :
  attendee ∈ meeting_attendees meeting ->
  outcome_of (invitation sdk agent meeting attendee) = Rejected e ->
  exists e', (scheduleMeetingWithInvites sdk completion agent meeting w).2 = Rejected e'.
Proof.
  intros Hin Hrej. rewrite scheduleMeetingWithInvites_run.
  destruct (createCalendarEvent _ _ _ _) as [w2 [event|e0]]; [|by exists e0].
  cbv zeta. apply list_elem_of_lookup in Hin as [r Hr].
  rewrite invite_outcome in Hrej.
  destruct (settled (invite sdk agent meeting attendee)) as [lines o] eqn:Hs.
  simpl in Hrej. subst o.
  destruct (promise_all_rejected completion
              (settled <$> (invite sdk agent meeting <$> meeting_attendees meeting))
              r lines e
              (w2 ++ concat (started <$> (invite sdk agent meeting
                                            <$> meeting_attendees meeting))))
    as (j & lines' & e' & _ & Hres).
  { rewrite !list_lookup_fmap, Hr. simpl. by rewrite Hs. }
  destruct (promise_all _ _ _) as [w4 o']. simpl in Hres. subst o'. by exists e'.
Qed.

(** ** Failures of [executeTool] *)

(** C1, as the code has it.  A tool execution that fails, by a rejected
    promise or by a response that is not successful, makes [executeTool]
    print the failure and throw it again: the caller receives the error
    (for an unsuccessful response, an [Error] whose message is the error
    text of the response), never an in-band result.  In the meeting
    workflow, whose invitations are awaited with [Promise.all], one failing
    invitation rejects the whole workflow. *)
Theorem executeTool_rethrows_failure sdk :
  (forall toolSlug userId toolArguments e (w : Trace),
      tool_failure (tools_execute sdk toolSlug userId toolArguments) = Some e ->
      (executeTool sdk toolSlug userId toolArguments w).2 = Rejected e /\
      ConsoleError ("Failed to execute tool " +:+ toolSlug +:+ ": " +:+ error_message e)
        ∈ (executeTool sdk toolSlug userId toolArguments w).1) /\
  (forall completion agent meeting attendee e (w : Trace),
      attendee ∈ meeting_attendees meeting ->
      outcome_of (invitation sdk agent meeting attendee) = Rejected e ->
      exists e',
        (scheduleMeetingWithInvites sdk completion agent meeting w).2 = Rejected e').
Proof.
  split.
  - intros toolSlug userId toolArguments e w Hfail.
    rewrite executeTool_run. cbv zeta. simpl. split.
    + by apply executeTool_settled_failure.
    + destruct (tools_execute sdk toolSlug userId toolArguments) as [result|e0];
        simpl in *; [destruct (successful result); [done|]|];
        injection Hfail as <-; simpl; set_solver.
  - intros. by eapply scheduleMeetingWithInvites_rejected.
Qed.

Lemma executeTool_rethrows_failure_witness :
  (executeTool example_sdk "GMAIL_SEND_EMAIL" "default"
     (emailData "bob@example.com" "Hi" "Hello" None) []).2
  = Rejected (Error "Recipient address rejected").
Proof.
  apply (proj1 (executeTool_rethrows_failure example_sdk) "GMAIL_SEND_EMAIL" "default"
           (emailData "bob@example.com" "Hi" "Hello" None)
           (Error "Recipient address rejected") []).
  reflexivity.
Defined.

(** C1 as the specification states it does not hold of the code: the
    failure of an execution leaves [executeTool] as a rejection, and it
    aborts a batch of three invitations of which only the second fails. *)
Lemma executeTool_failure_escapes :
  tool_failure (tools_execute example_sdk "GMAIL_SEND_EMAIL" "default"
                  (emailData "bob@example.com" "Hi" "Hello" None))
    = Some (Error "Recipient address rejected") /\
  (forall result,
      (executeTool example_sdk "GMAIL_SEND_EMAIL" "default"
         (emailData "bob@example.com" "Hi" "Hello" None) []).2 <> Fulfilled result) /\
  (forall result,
      (scheduleMeetingWithInvites example_sdk [] example_agent
         (example_meeting ["alice@example.com"; "bob@example.com"; "carol@example.com"])
         []).2 <> Fulfilled result).
Proof.
  split; [reflexivity|]. split; intros result; vm_compute; discriminate.
Qed.

(** ** The initialization of custom-tools *)

Lemma for_each_console_log {A} (line : A -> string) (l : list A) (w : Trace) :
  (for_each (fun x => console_log (line x)) l w).2 = Fulfilled tt.
Proof.
  revert w. induction l as [|x l IH]; intros w; [done|].
  simpl. unfold bind, console_log, emit. apply IH.
Qed.

Lemma createTool_outcome sdk tool (w : Trace) :
  (settled (CustomTools.createTool sdk tool w)).2 = Fulfilled tool \/
  exists e, (settled (CustomTools.createTool sdk tool w)).2 = Rejected e.
Proof.
  simpl. destruct (tools_createCustomTool sdk w tool) as [[]|e]; eauto.
Qed.


Example customTools_initialized_out_of_order :
  (CustomTools.initializeCustomTools example_sdk [3; 1; 0; 2]%nat []).2
  = Fulfilled [CustomTools.emailAnalyticsTool; CustomTools.meetingOptimizerTool;
               CustomTools.documentIntelligenceTool; CustomTools.workflowAutomationTool].
Proof. vm_compute. reflexivity. Qed.



(** C10.  [sendEmail], [createCalendarEvent] and [uploadToDrive] check
    that their service ('gmail', 'googlecalendar', 'googledrive') is in
    [connectedServices] first.  When it is not, they throw the
    'not connected' error and nothing has been executed (the trace is
    unchanged); a tool is executed only when the service is connected, and
    then it is the method's own tool, once. *)
Theorem convenience_methods_require_connection sdk agent :
  (forall to subject body options,
      guarded_by agent "gmail" "Gmail not connected. Please authenticate first."
        "GMAIL_SEND_EMAIL" (emailData to subject body options)
        (sendEmail sdk agent to subject body options)) /\
  (forall event,
      guarded_by agent "googlecalendar"
        "Google Calendar not connected. Please authenticate first."
        "GOOGLECALENDAR_CREATE_EVENT" (eventData event)
        (createCalendarEvent sdk agent event)) /\
  (forall filename content parentFolderId,
      guarded_by agent "googledrive"
        "Google Drive not connected. Please authenticate first."
        "GOOGLEDRIVE_UPLOAD_FILE" (uploadParams filename content parentFolderId)
        (uploadToDrive sdk agent filename content parentFolderId)).
Proof.
  split; [|split].
  - intros. apply sendEmail_guarded.
  - intros. apply createCalendarEvent_guarded.
  - intros. apply uploadToDrive_guarded.
Qed.

Lemma convenience_methods_require_connection_witness :
  sendEmail example_sdk unconnected_agent "alice@example.com" "Hi" "Hello" None []
  = ([], Rejected (Error "Gmail not connected. Please authenticate first.")).
Proof.
  apply (proj1 (proj1 (convenience_methods_require_connection example_sdk
                         unconnected_agent)
                  "alice@example.com" "Hi" "Hello" None [])).
  simpl. apply not_elem_of_empty.
Defined.

(** ** Registration of the custom tools *)

Lemma registrations_app (w1 w2 : Trace) :
  registrations (w1 ++ w2) = registrations w1 ++ registrations w2.
Proof. apply omap_app. Qed.

Lemma follows_bind s1 s2 (m : M unit) (k : unit -> M unit) :
  follows s1 m -> (forall a, follows s2 (k a)) -> follows (s1 ++ s2) (bind m k).
Proof.
  intros Hm Hk w. unfold bind. specialize (Hm w).
  destruct (m w) as [w1 [a|e]].
  - subst w1. specialize (Hk a (w ++ s1)).
    destruct (k a (w ++ s1)) as [w2 [b|e]].
    + subst w2. by rewrite <- app_assoc.
    + destruct Hk as (evs & -> & Hpre & pre & slug & ->).
      exists (s1 ++ pre ++ [ToolsCreateCustomTool slug]).
      split; [by rewrite <- app_assoc|].
      split; [by apply prefix_app|]. exists (s1 ++ pre), slug. by rewrite <- app_assoc.
  - destruct Hm as (evs & -> & Hpre & Hfail).
    exists evs. split; [done|]. split; [by apply prefix_app_r|done].
Qed.

Lemma follows_console_log line : follows [ConsoleLog line] (console_log line).
Proof. intros w. reflexivity. Qed.

Lemma follows_createCustomTool sdk tool :
  follows [ToolsCreateCustomTool (slug tool)] (createCustomTool sdk tool).
Proof.
  intros w. unfold createCustomTool.
  destruct (tools_createCustomTool sdk w tool) as [[]|e]; [done|].
  exists [ToolsCreateCustomTool (slug tool)]. split; [done|]. split; [done|].
  by exists [], (slug tool).
Qed.

Lemma follows_createCustomTools sdk tools :
  follows (ToolsCreateCustomTool <$> (slug <$> tools)) (createCustomTools sdk tools).
Proof.
  induction tools as [|tool tools IH].
  - intros w. simpl. unfold ret. by rewrite app_nil_r.
  - simpl. apply (follows_bind [_]); [apply follows_createCustomTool|done].
Qed.

Lemma follows_group sdk tools line (k : M unit) s :
  follows s k ->
  follows (group_script tools line ++ s)
    (bind (bind (createCustomTools sdk tools) (fun _ => console_log line)) (fun _ => k)).
Proof.
  intros Hk. apply follows_bind; [|done].
  apply follows_bind; [apply follows_createCustomTools|].
  intros _. apply follows_console_log.
Qed.

(** [initializeCustomTools] follows its script: the opening line, then
    each group's registrations and closing line, then the last line. *)
Lemma initializeCustomTools_follows sdk :
  follows initialization_script (initializeCustomTools sdk).
Proof.
  unfold initializeCustomTools, initialization_script.
  apply follows_bind; [apply follows_console_log|intros _].
  unfold createGmailCustomTools, createCalendarCustomTools, createDriveCustomTools,
    createDocsCustomTools, createSheetsCustomTools, createSlidesCustomTools,
    createFormsCustomTools, createChatCustomTools, createSearchCustomTools,
    createTasksCustomTools, createCommentCustomTools.
  do 11 apply follows_group.
  apply follows_console_log.
Qed.

Lemma registrations_script :
  registrations initialization_script = slug <$> customTools.
Proof. reflexivity. Qed.

(** A complete run registers the tools of the eleven groups, in order. *)
Lemma initializeCustomTools_registrations sdk (w : Trace) :
  is_fulfilled (initializeCustomTools sdk w).2 = true ->
  registrations (initializeCustomTools sdk w).1 =
    registrations w ++ (slug <$> customTools).
Proof.
  intros Hok. pose proof (initializeCustomTools_follows sdk w) as H.
  destruct (initializeCustomTools sdk w) as [w' [[]|e]]; [|done].
  subst w'. simpl. by rewrite registrations_app, registrations_script.
Qed.

Lemma customTools_slugs_NoDup : NoDup (slug <$> customTools).
Proof. apply (bool_decide_unpack _). vm_compute. exact I. Qed.

(** C6.  What the code does: a complete run of [initializeCustomTools]
    makes 86 registrations (14 for Gmail, 5 Calendar, 6 Drive, 14 Docs,
    6 Sheets, 5 Slides, 5 Forms, 4 Chat, 3 Search, 12 Tasks, 12 comments),
    while its own lines and the health probe say 84. *)
Theorem initializeCustomTools_registers_86 sdk (w : Trace) :
  is_fulfilled (initializeCustomTools sdk w).2 = true ->
  length (registrations (initializeCustomTools sdk w).1)
    = (length (registrations w) + 86)%nat /\
  length <$> customToolGroups = [14; 5; 6; 14; 6; 5; 5; 4; 3; 12; 12]%nat /\
  (forall USER_ID s, tools_count (health USER_ID s) = 84%Z) /\
  ConsoleLog "All 84 custom tools created successfully!"
    ∈ (initializeCustomTools sdk w).1.
Proof.
  intros Hok. split; [|split; [reflexivity|split; [reflexivity|]]].
  - rewrite initializeCustomTools_registrations by done.
    rewrite length_app. reflexivity.
  - pose proof (initializeCustomTools_follows sdk w) as H.
    destruct (initializeCustomTools sdk w) as [w' [[]|e]]; [|done].
    subst w'. simpl. apply elem_of_app. right.
    apply list_elem_of_In. vm_compute. tauto.
Qed.

Lemma initializeCustomTools_registers_86_witness :
  length (registrations (initializeCustomTools example_sdk []).1) = 86%nat.
Proof.
  apply (proj1 (initializeCustomTools_registers_86 example_sdk [] eq_refl)).
Defined.

(** C8.  The slugs that a complete run of [initializeCustomTools]
    registers (Gmail, Calendar, Drive, Docs, Sheets, Slides, Forms, Chat,
    Search, Tasks and comment groups) are pairwise distinct, so a registry
    that refuses a duplicate identifier accepts the whole startup
    sequence. *)
Theorem registered_slugs_pairwise_distinct sdk :
  is_fulfilled (initializeCustomTools sdk []).2 = true ->
  NoDup (registrations (initializeCustomTools sdk []).1) /\
  registrations (initializeCustomTools sdk []).1 = slug <$> customTools.
Proof.
  intros Hok. rewrite initializeCustomTools_registrations by done. simpl.
  split; [apply customTools_slugs_NoDup|done].
Qed.

Lemma registered_slugs_pairwise_distinct_witness :
  NoDup (registrations (initializeCustomTools example_sdk []).1).
Proof.
  apply (proj1 (registered_slugs_pairwise_distinct example_sdk eq_refl)).
Defined.

(** ** The readiness flag of the service *)

Lemma initialization_script_split :
  initialization_script = initialization_body ++ [completion_line].
Proof. reflexivity. Qed.

Lemma console_lines_elem line (w : Trace) :
  ConsoleLog line ∈ w -> line ∈ console_lines w.
Proof.
  intros H. unfold console_lines. apply list_elem_of_omap.
  by exists (ConsoleLog line).
Qed.

Lemma completion_line_not_in_body : completion_line ∉ initialization_body.
Proof.
  intros H. apply console_lines_elem in H. revert H.
  apply (bool_decide_unpack _). vm_compute. exact I.
Qed.


(** A run that fails has not printed the last line. *)
Lemma failed_run_not_completed (evs : list Event) :
  evs `prefix_of` initialization_script -> failed_registration evs ->
  completion_line ∉ evs.
Proof.
  rewrite initialization_script_split.
  intros [rest Hrest] (pre & slug & ->) Hin.
  destruct rest as [|x rest _] using rev_ind.
  - rewrite app_nil_r in Hrest. apply app_inj_tail in Hrest as [_ Heq]. done.
  - rewrite !app_assoc in Hrest. apply app_inj_tail in Hrest as [Hbody _].
    apply completion_line_not_in_body. rewrite Hbody.
    apply elem_of_app. by left.
Qed.

Lemma completed_app_lines (w lines : list Event) :
  completion_line ∉ lines ->
  initialization_completed (w ++ lines) <-> initialization_completed w.
Proof.
  intros Hlines. unfold initialization_completed. rewrite elem_of_app. tauto.
Qed.


Lemma service_step_keeps_ready sdk USER_ID PORT s a :
  isReady s = true -> isReady (service_step sdk USER_ID PORT s a) = true.
Proof.
  unfold service_step. intros Hready.
  destruct (running s); simpl; [|done].
  destruct a; simpl; try done.
  - destruct (pending s) as [|n]; [done|].
    by destruct (initializeCustomTools sdk (console s)) as [w [[]|e]].
  - by destruct (exit_scheduled s).
Qed.






(** ** Executors *)

(** C9.  [SHEETS_MODIFY_SHEET_VALUES]: when [clear_values] is true the
    report says operation 'clear' with [updated_cells], [updated_rows] and
    [updated_columns] all 0; otherwise it says operation 'update' with
    [updated_rows] the number of rows of [values] (0 when absent) and
    [updated_columns] the length of the first row (0 when absent). *)
Theorem modify_sheet_values_report (input : SHEETS_MODIFY_SHEET_VALUES.Input) :
  (SHEETS_MODIFY_SHEET_VALUES.clear_values input = Some true ->
     get "operation" (modify_report input) = JStr "clear" /\
     get "updated_cells" (modify_report input) = JNum 0 /\
     get "updated_rows" (modify_report input) = JNum 0 /\
     get "updated_columns" (modify_report input) = JNum 0) /\
  (SHEETS_MODIFY_SHEET_VALUES.clear_values input <> Some true ->
     get "operation" (modify_report input) = JStr "update" /\
     get "updated_rows" (modify_report input) =
       number_of_length (default [] (SHEETS_MODIFY_SHEET_VALUES.values input)) /\
     get "updated_columns" (modify_report input) =
       number_of_length (default [] (SHEETS_MODIFY_SHEET_VALUES.values input ≫= head))).
Proof.
  unfold modify_report, SHEETS_MODIFY_SHEET_VALUES.execute, number_of_length.
  destruct input as [email sheet range values option clear]. simpl.
  split.
  - intros ->. done.
  - intros Hclear. destruct clear as [[]|]; [done| |];
      (destruct values as [[|row rows]|]; done).
Qed.

Lemma modify_sheet_values_report_witness :
  get "operation" (modify_report example_values_input) = JStr "update" /\
  get "updated_rows" (modify_report example_values_input) = JNum 2 /\
  get "updated_columns" (modify_report example_values_input) = JNum 3.
Proof.
  apply (proj2 (modify_sheet_values_report example_values_input)).
  simpl. discriminate.
Defined.

(** ** Defaults: destructuring, schemas and the dispatcher *)

Lemma variable_destructure pattern read name o :
  NoDup pattern.*1 -> (name, o) ∈ pattern ->
  variable name (destructure pattern read) = bound_value read name o.
Proof.
  unfold variable, destructure.
  induction pattern as [|[name' o'] rest IH]; intros Hnd Hin; [by apply elem_of_nil in Hin|].
  apply NoDup_cons in Hnd as [Hfresh Hnd]. simpl.
  destruct (String.eqb_spec name' name) as [->|Hne].
  - apply elem_of_cons in Hin as [[= <-]|Hin]; [done|].
    exfalso. apply Hfresh. by apply (list_elem_of_fmap_2 fst) in Hin.
  - apply elem_of_cons in Hin as [[= ? ?]|Hin]; [congruence|]. by apply IH.
Qed.

Lemma executorDestructurings_NoDup :
  Forall (fun entry => NoDup entry.2.*1) executorDestructurings.
Proof. apply (bool_decide_unpack _). vm_compute. exact I. Qed.

Lemma executor_variable slug pattern name o read :
  (slug, pattern) ∈ executorDestructurings -> (name, o) ∈ pattern ->
  variable name (destructure pattern read) = bound_value read name o.
Proof.
  intros Hin Hname. apply variable_destructure; [|done].
  pose proof executorDestructurings_NoDup as Hall.
  rewrite Forall_forall in Hall. apply (Hall _ Hin).
Qed.

Lemma check_field_key raw f b :
  Dispatcher.check_field raw f = inr (Some b) -> b.1 = Dispatcher.field_name f.
Proof.
  unfold Dispatcher.check_field.
  destruct (raw !! Dispatcher.field_name f) as [v|].
  - destruct (Dispatcher.has_type _ _); [|done]. by intros [= <-].
  - destruct (Dispatcher.required f); [done|].
    destruct (Dispatcher.default_value f); [|done]. by intros [= <-].
Qed.

Lemma normalized_cons raw g rest :
  Dispatcher.normalized raw (g :: rest) =
  match Dispatcher.check_field raw g with
  | inr (Some b) => <[b.1 := b.2]> (Dispatcher.normalized raw rest)
  | _ => Dispatcher.normalized raw rest
  end.
Proof.
  unfold Dispatcher.normalized. simpl.
  destruct (Dispatcher.check_field raw g) as [e|[[k v]|]]; done.
Qed.

Lemma normalized_lookup raw schema f v :
  NoDup (Dispatcher.field_name <$> schema) -> f ∈ schema ->
  Dispatcher.check_field raw f = inr (Some (Dispatcher.field_name f, v)) ->
  Dispatcher.normalized raw schema !! Dispatcher.field_name f = Some v.
Proof.
  induction schema as [|g rest IH]; intros Hnd Hin Hchk; [by apply elem_of_nil in Hin|].
  apply NoDup_cons in Hnd as [Hfresh Hnd]. rewrite normalized_cons.
  apply elem_of_cons in Hin as [<-|Hin].
  - rewrite Hchk. simpl. apply lookup_insert_eq.
  - assert (Dispatcher.field_name g <> Dispatcher.field_name f) as Hne.
    { intros Heq. apply Hfresh. rewrite Heq. by apply list_elem_of_fmap_2. }
    destruct (Dispatcher.check_field raw g) as [e|[b|]] eqn:Hg; try by apply IH.
    apply check_field_key in Hg. rewrite lookup_insert_ne by congruence. by apply IH.
Qed.

Lemma normalized_lookup_omitted raw schema name :
  raw !! name = None ->
  (forall f, f ∈ schema -> Dispatcher.field_name f = name ->
             Dispatcher.default_value f = None) ->
  Dispatcher.normalized raw schema !! name = None.
Proof.
  intros Hraw. induction schema as [|g rest IH]; intros Hnone; [done|].
  rewrite normalized_cons.
  assert (Dispatcher.normalized raw rest !! name = None) as Hrest.
  { apply IH. intros f Hin. apply Hnone. by apply list_elem_of_further. }
  destruct (Dispatcher.check_field raw g) as [e|[b|]] eqn:Hg; try done.
  pose proof (check_field_key _ _ _ Hg) as Hkey.
  destruct (decide (Dispatcher.field_name g = name)) as [Heq|Hne].
  - exfalso. unfold Dispatcher.check_field in Hg. rewrite Heq, Hraw in Hg.
    rewrite (Hnone g (list_elem_of_here _ _) Heq) in Hg.
    by destruct (Dispatcher.required g).
  - rewrite lookup_insert_ne by congruence. done.
Qed.

Lemma omitted_default_checks raw f v :
  Dispatcher.required f = false -> Dispatcher.default_value f = Some v ->
  raw !! Dispatcher.field_name f = None ->
  Dispatcher.check_field raw f = inr (Some (Dispatcher.field_name f, v)).
Proof.
  intros Hreq Hdef Hraw. unfold Dispatcher.check_field. by rewrite Hraw, Hreq, Hdef.
Qed.

Lemma omitted_optional_not_missing raw schema f :
  NoDup (Dispatcher.field_name <$> schema) -> f ∈ schema ->
  Dispatcher.required f = false ->
  Dispatcher.MissingField (Dispatcher.field_name f) ∉ Dispatcher.violations raw schema.
Proof.
  intros Hnd Hin Hreq Hviol. unfold Dispatcher.violations in Hviol.
  apply list_elem_of_omap in Hviol as (g & Hg & Hchk).
  assert (Dispatcher.field_name g = Dispatcher.field_name f) as Hname.
  { unfold Dispatcher.check_field in Hchk.
    destruct (raw !! Dispatcher.field_name g).
    - by destruct (Dispatcher.has_type _ _).
    - destruct (Dispatcher.required g); [by injection Hchk|done]. }
  assert (g = f) as ->.
  { apply list_elem_of_lookup in Hg as [i Hi]. apply list_elem_of_lookup in Hin as [j Hj].
    assert (i = j) as ->.
    { apply (NoDup_lookup (Dispatcher.field_name <$> schema) i j (Dispatcher.field_name f));
        [done| |]; rewrite list_lookup_fmap.
      - by rewrite Hi, <- Hname. 
      - by rewrite Hj. }
    congruence. }
  unfold Dispatcher.check_field in Hchk.
  destruct (raw !! Dispatcher.field_name f).
  - by destruct (Dispatcher.has_type _ _).
  - by rewrite Hreq in Hchk.
Qed.

Lemma validate_default schema f v :
  NoDup (Dispatcher.field_name <$> schema) -> f ∈ schema ->
  Dispatcher.required f = false -> Dispatcher.default_value f = Some v ->
  schema_default schema (Dispatcher.field_name f) v.
Proof.
  intros Hnd Hin Hreq Hdef raw input Hraw. unfold Dispatcher.validate.
  destruct (Dispatcher.violations raw schema); [|done]. intros [= <-].
  apply normalized_lookup; [done..|]. by apply omitted_default_checks.
Qed.

Lemma dispatch_valid registry ctx request d :
  Dispatcher.lookup_descriptor (Dispatcher.request_identifier request) registry = Some d ->
  Dispatcher.violations (Dispatcher.rawInput request) (Dispatcher.inputSchema d) = [] ->
  Dispatcher.dispatch registry ctx request =
    let input := Dispatcher.normalized (Dispatcher.rawInput request)
                   (Dispatcher.inputSchema d) in
    ([(Dispatcher.identifier d, input)],
     match Dispatcher.executor d input ctx with
     | Fulfilled r =>
         {| Dispatcher.succeeded := true; Dispatcher.data := Some r;
            Dispatcher.errorMessage := None |}
     | Rejected e => Dispatcher.failed (error_message e)
     end).
Proof.
  intros Hd Hviol. unfold Dispatcher.dispatch, Dispatcher.validate.
  by rewrite Hd, Hviol.
Qed.

Lemma declared_default_applies schema name type v :
  NoDup (Dispatcher.field_name <$> schema) ->
  optional_field name type (Some v) ∈ schema ->
  schema_default schema name v.
Proof.
  intros Hnd Hin.
  by apply (validate_default schema (optional_field name type (Some v))).
Qed.

Ltac declared_default :=
  eapply declared_default_applies;
  [apply (bool_decide_unpack _); vm_compute; exact I
  |repeat first [apply list_elem_of_here|apply list_elem_of_further]].

(** The pattern of the Gmail search is that of its entry in the table. *)
Example searchFiltersPattern_in_table :
  ("GMAIL_SEARCH_MESSAGES_FILTERS", searchFiltersPattern) ∈ executorDestructurings.
Proof. do 5 apply list_elem_of_further. apply list_elem_of_here. Qed.

(** C5.  An optional field that is omitted takes its declared default
    when the executor runs.  For the dispatcher: for every registry,
    descriptor, request and optional field with a declared default that
    the raw input omits, the omission is no violation and, the request
    being valid, the executor is invoked once, on an input that holds the
    default.  For the schemas of [custom-tools] that declare defaults with
    [.default(...)]: the accepted input holds them, and [EMAIL_ANALYTICS]
    dispatched on an empty input reports the period 'week' and the
    analysis 'volume'.  For the 86 executors of [index.ts], 36 of which
    declare defaults (64 in all) in their destructuring: the variable of
    every such field holds its default when the input object omits the
    field, and the value given otherwise.  For the examples of the claim:
    [max_results] is 10 in the Gmail search, through the dispatcher and in
    the executor, [clear_values] is false in the sheet executor, and
    [maxResults] is 10 in [searchGmailMessages], whose prompt then asks
    for the first 10 results; and the default parameters of the agent and
    of the client are those of a call that gives them. *)
Theorem omitted_optional_fields_take_defaults :
  (forall registry ctx request d f v,
      Dispatcher.lookup_descriptor (Dispatcher.request_identifier request) registry
        = Some d ->
      NoDup (Dispatcher.field_name <$> Dispatcher.inputSchema d) ->
      f ∈ Dispatcher.inputSchema d ->
      Dispatcher.required f = false ->
      Dispatcher.default_value f = Some v ->
      Dispatcher.rawInput request !! Dispatcher.field_name f = None ->
      (Dispatcher.MissingField (Dispatcher.field_name f)
         ∉ Dispatcher.violations (Dispatcher.rawInput request)
             (Dispatcher.inputSchema d)) /\
      (Dispatcher.violations (Dispatcher.rawInput request) (Dispatcher.inputSchema d) = [] ->
       exists input,
         input !! Dispatcher.field_name f = Some v /\
         (Dispatcher.dispatch registry ctx request).1 = [(Dispatcher.identifier d, input)] /\
         (Dispatcher.dispatch registry ctx request).2 =
           match Dispatcher.executor d input ctx with
           | Fulfilled r =>
               {| Dispatcher.succeeded := true; Dispatcher.data := Some r;
                  Dispatcher.errorMessage := None |}
           | Rejected e => Dispatcher.failed (error_message e)
           end)) /\
  (schema_default EMAIL_ANALYTICS_schema "timeframe" (JStr "week") /\
   schema_default EMAIL_ANALYTICS_schema "analysisType" (JStr "volume") /\
   schema_default EMAIL_ANALYTICS_schema "includeThreads" (JBool true) /\
   schema_default DOCUMENT_INTELLIGENCE_schema "analysisDepth" (JStr "basic") /\
   schema_default DOCUMENT_INTELLIGENCE_schema "extractKeywords" (JBool true) /\
   schema_default DOCUMENT_INTELLIGENCE_schema "summarize" (JBool false) /\
   schema_default MEETING_OPTIMIZER_preferences_schema "avoidMornings" (JBool false) /\
   schema_default MEETING_OPTIMIZER_preferences_schema "respectTimeZones" (JBool true) /\
   forall env ctx,
     exists r,
       Dispatcher.dispatch [EMAIL_ANALYTICS_tool env] ctx analytics_request
         = ([("EMAIL_ANALYTICS",
              {["timeframe" := JStr "week"; "analysisType" := JStr "volume";
                "includeThreads" := JBool true]})],
            {| Dispatcher.succeeded := true; Dispatcher.data := Some r;
               Dispatcher.errorMessage := None |}) /\
       get "period" (get "data" r) = JStr "week" /\
       get "analysis_type" (get "data" r) = JStr "volume") /\
  (executorDestructurings.*1 = slug <$> customTools /\
   length (filter (fun entry => has_default entry.2) executorDestructurings) = 36%nat /\
   length (filter (fun binding => is_Some binding.2) (mjoin executorDestructurings.*2))
     = 64%nat /\
   forall slug pattern name fields,
     (slug, pattern) ∈ executorDestructurings ->
     NoDup fields.*1 ->
     (forall d, (name, Some d) ∈ pattern -> get_field name fields = JUndefined ->
                variable name (destructure pattern (property (JObj fields))) = d) /\
     (forall o, (name, o) ∈ pattern -> get_field name fields <> JUndefined ->
                variable name (destructure pattern (property (JObj fields)))
                  = get_field name fields)) /\
  (forall ctx raw,
      raw !! "max_results" = None ->
      Dispatcher.violations raw (Dispatcher.inputSchema SEARCH_FILTERS) = [] ->
      exists r,
        (Dispatcher.dispatch [SEARCH_FILTERS] ctx
           {| Dispatcher.request_identifier := "GMAIL_SEARCH_MESSAGES_FILTERS";
              Dispatcher.rawInput := raw |}).2
          = {| Dispatcher.succeeded := true; Dispatcher.data := Some r;
               Dispatcher.errorMessage := None |} /\
        get "max_results" (get "data" r) = JNum 10) /\
  (forall input,
      GMAIL_SEARCH_MESSAGES_FILTERS.max_results input = None ->
      get "max_results" (search_result input) = JNum 10) /\
  (forall input,
      SHEETS_MODIFY_SHEET_VALUES.clear_values input = None ->
      get "operation" (modify_report input) = JStr "update") /\
  (forall sdk userId query tools (w : Trace),
      searchGmailMessages sdk userId query None
        = searchGmailMessages sdk userId query (Some 10%Z) /\
      searchPrompt query 10 =
        "Search Gmail for messages matching " +:+ dq +:+ query +:+ dq
        +:+ " and return the first 10 results" /\
      (tools_get sdk userId ["GMAIL_SEARCH_MESSAGES"] = Fulfilled tools ->
       MessagesCreate (searchPrompt query 10)
         ∈ (searchGmailMessages sdk userId query None w).1)) /\
  (forall sdk services agent now query timeMin toolkits connectionRequestId
          (w : list Observation),
      getRecentEmails sdk agent None query
        = getRecentEmails sdk agent (Some 10%Z) query /\
      getUpcomingEvents sdk now agent None timeMin
        = getUpcomingEvents sdk now agent (Some 10%Z) timeMin /\
      (forall files, searchDriveFiles sdk agent files None
                       = searchDriveFiles sdk agent files (Some 10%Z)) /\
      Client.getAvailableTools services toolkits None
        = Client.getAvailableTools services toolkits (Some "default") /\
      Client.waitForAuthentication services connectionRequestId None
        = Client.waitForAuthentication services connectionRequestId (Some 60000%Z) /\
      Agent.initialize services agent None w
        = Agent.initialize services agent
            (Some ["gmail"; "googlecalendar"; "googledrive"]) w).
Proof.
  split; [|split; [|split; [|split; [|split; [|split; [|split]]]]]];
    [| | | | | | |repeat split].
  - intros registry ctx request d f v Hd Hnd Hin Hreq Hdef Hraw. split.
    + by apply omitted_optional_not_missing.
    + intros Hviol. rewrite (dispatch_valid _ _ _ _ Hd Hviol). cbv zeta.
      eexists. split; [|split; reflexivity].
      apply normalized_lookup; [done..|]. by apply omitted_default_checks.
  - do 8 (split; [declared_default|]).
    intros env ctx. eexists. split; [vm_compute; reflexivity|]. split; reflexivity.
  - split; [vm_compute; reflexivity|]. split; [vm_compute; reflexivity|].
    split; [vm_compute; reflexivity|].
    intros slug pattern name fields Hentry _. split.
    + intros d Hname Hread.
      rewrite (executor_variable _ _ _ _ _ Hentry Hname).
      unfold bound_value, property. simpl. by rewrite Hread.
    + intros o Hname Hread.
      rewrite (executor_variable _ _ _ _ _ Hentry Hname).
      unfold bound_value, property. simpl.
      by destruct (get_field name fields), o.
  - intros ctx raw Hraw Hviol.
    rewrite (dispatch_valid [SEARCH_FILTERS] ctx
               {| Dispatcher.request_identifier := "GMAIL_SEARCH_MESSAGES_FILTERS";
                  Dispatcher.rawInput := raw |} SEARCH_FILTERS eq_refl Hviol).
    cbv zeta. cbn [snd Dispatcher.executor SEARCH_FILTERS]. eexists. split; [reflexivity|].
    unfold searchFiltersExecute. cbn [get get_field String.eqb Ascii.eqb Bool.eqb].
    unfold variable. simpl. unfold bound_value, read_input.
    rewrite normalized_lookup_omitted; [done|done|].
    intros f Hin Hname.
    repeat (apply elem_of_cons in Hin as [->|Hin]; [done|]).
    by apply elem_of_nil in Hin.
  - intros input Hnone. unfold search_result, GMAIL_SEARCH_MESSAGES_FILTERS.execute.
    by rewrite Hnone.
  - intros input Hnone. unfold modify_report, SHEETS_MODIFY_SHEET_VALUES.execute.
    by rewrite Hnone.
  - intros sdk userId query tools w. split; [reflexivity|]. split; [reflexivity|].
    intros Hget. unfold searchGmailMessages, try_catch, bind, await, console_log,
      console_error, emit, ret, throw. simpl. rewrite Hget.
    destruct (messages_create _ _ _) as [msg|e]; simpl.
    + destruct (handleToolCalls _ _ _) as [result|e]; simpl;
        rewrite !elem_of_app, !list_elem_of_singleton; tauto.
    + rewrite !elem_of_app, !list_elem_of_singleton. tauto.
Qed.

Lemma omitted_optional_fields_take_defaults_witness :
  exists r,
    (Dispatcher.dispatch [SEARCH_FILTERS] JNull search_request).2
      = {| Dispatcher.succeeded := true; Dispatcher.data := Some r;
           Dispatcher.errorMessage := None |} /\
    get "max_results" (get "data" r) = JNum 10.
Proof.
  apply (proj1 (proj2 (proj2 (proj2 omitted_optional_fields_take_defaults)))
           JNull (Dispatcher.rawInput search_request)).
  - vm_compute. reflexivity.
  - vm_compute. reflexivity.
Defined.

(** C2.  What the code does: the executors of [index.ts] return an object
    with [data] alone.  [data] is populated and [error] is not, but
    [successful] is not set, whereas the executors of [custom-tools] set
    it to true next to their [data]. *)
Theorem workspace_executor_leaves_successful_unset
    (input : GMAIL_GET_MESSAGES_CONTENT_BATCH.Input) :
  populated (get "data" (GMAIL_GET_MESSAGES_CONTENT_BATCH.execute input)) = true /\
  populated (get "error" (GMAIL_GET_MESSAGES_CONTENT_BATCH.execute input)) = false /\
  get "successful" (GMAIL_GET_MESSAGES_CONTENT_BATCH.execute input) = JUndefined /\
  GMAIL_GET_MESSAGES_CONTENT_BATCH.execute example_batch_input =
    JObj [("data", JObj [("messages", JArr []); ("count", JNum 1);
                         ("user_email", JStr "user@example.com")])] /\
  (forall input',
      get "successful" (GMAIL_SEARCH_MESSAGES_FILTERS.execute input') = JUndefined) /\
  (forall input',
      get "successful" (GMAIL_BATCH_DELETE_MESSAGES.execute input') = JUndefined) /\
  (forall input',
      get "successful" (SHEETS_MODIFY_SHEET_VALUES.execute input') = JUndefined) /\
  (forall env input',
      populated (get "data" (EMAIL_ANALYTICS.execute env input')) = true /\
      populated (get "error" (EMAIL_ANALYTICS.execute env input')) = false /\
      get "successful" (EMAIL_ANALYTICS.execute env input') = JBool true).
Proof. repeat split. Qed.

(** ** The dispatcher of the specification *)

Lemma string_app_assoc (s1 s2 s3 : string) :
  (s1 +:+ s2) +:+ s3 = s1 +:+ s2 +:+ s3.
Proof.
  induction s1 as [|c s1 IH]; [done|].
  change (String c ((s1 +:+ s2) +:+ s3) = String c (s1 +:+ s2 +:+ s3)).
  by rewrite IH.
Qed.

Lemma string_app_nil_r (s : string) : s +:+ EmptyString = s.
Proof.
  induction s as [|c s IH]; [done|].
  change (String c (s +:+ EmptyString) = String c s). by rewrite IH.
Qed.

(** A joined message holds the text of each of its parts. *)
Lemma concat_contains (sep part : string) (parts : list string) :
  part ∈ parts ->
  exists before after, String.concat sep parts = before +:+ part +:+ after.
Proof.
  induction parts as [|x parts IH]; intros Hin; [by apply elem_of_nil in Hin|].
  apply elem_of_cons in Hin as [->|Hin].
  - exists EmptyString. destruct parts as [|y parts].
    + exists EmptyString. simpl. by rewrite string_app_nil_r.
    + by exists (sep +:+ String.concat sep (y :: parts)).
  - destruct (IH Hin) as (before & after & Heq).
    destruct parts as [|y parts]; [by apply elem_of_nil in Hin|].
    exists (x +:+ sep +:+ before), after.
    change (String.concat sep (x :: y :: parts))
      with (x +:+ sep +:+ String.concat sep (y :: parts)).
    by rewrite Heq, !string_app_assoc.
Qed.

Lemma violations_missing (raw : gmap string JSValue) schema f :
  f ∈ schema -> Dispatcher.required f = true ->
  raw !! Dispatcher.field_name f = None ->
  Dispatcher.MissingField (Dispatcher.field_name f) ∈ Dispatcher.violations raw schema.
Proof.
  intros Hin Hreq Hraw. unfold Dispatcher.violations.
  apply list_elem_of_omap. exists f. split; [done|].
  unfold Dispatcher.check_field. by rewrite Hraw, Hreq.
Qed.

(** The example scenario of the specification. *)
Example dispatch_ADD_NUMBERS :
  (Dispatcher.dispatch Dispatcher.example_registry JNull
     {| Dispatcher.request_identifier := "ADD_NUMBERS";
        Dispatcher.rawInput := {["a" := JNum 2; "b" := JNum 3]} |}).2
  = {| Dispatcher.succeeded := true;
       Dispatcher.data := Some (JObj [("sum", JNum 5)]);
       Dispatcher.errorMessage := None |} /\
  Dispatcher.dispatch Dispatcher.example_registry JNull
    {| Dispatcher.request_identifier := "ADD_NUMBERS";
       Dispatcher.rawInput := {["a" := JNum 2]} |}
  = ([], {| Dispatcher.succeeded := false;
            Dispatcher.data := None;
            Dispatcher.errorMessage := Some "missing field: b" |}).
Proof. split; vm_compute; reflexivity. Qed.

(** C4.  When the raw input of a request omits a field that the schema of
    the requested capability declares required, [dispatch] returns
    [succeeded] false with a [MissingField] error that names the field, and
    no executor is invoked. *)
Theorem missing_required_field_is_reported registry ctx request d f :
  Dispatcher.lookup_descriptor (Dispatcher.request_identifier request) registry = Some d ->
  f ∈ Dispatcher.inputSchema d ->
  Dispatcher.required f = true ->
  Dispatcher.rawInput request !! Dispatcher.field_name f = None ->
  (Dispatcher.dispatch registry ctx request).1 = [] /\
  Dispatcher.succeeded (Dispatcher.dispatch registry ctx request).2 = false /\
  Dispatcher.data (Dispatcher.dispatch registry ctx request).2 = None /\
  Dispatcher.MissingField (Dispatcher.field_name f)
    ∈ Dispatcher.violations (Dispatcher.rawInput request) (Dispatcher.inputSchema d) /\
  exists before after,
    Dispatcher.errorMessage (Dispatcher.dispatch registry ctx request).2 =
      Some (before +:+ ("missing field: " +:+ Dispatcher.field_name f) +:+ after).
Proof.
  intros Hd Hin Hreq Hraw.
  pose proof (violations_missing _ _ _ Hin Hreq Hraw) as Hviol.
  unfold Dispatcher.dispatch, Dispatcher.validate. rewrite Hd.
  destruct (Dispatcher.violations (Dispatcher.rawInput request)
              (Dispatcher.inputSchema d)) as [|e errors] eqn:Herrors;
    [by apply elem_of_nil in Hviol|].
  simpl. repeat (split; [done|]).
  destruct (concat_contains "; "
              (Dispatcher.render (Dispatcher.MissingField (Dispatcher.field_name f)))
              (Dispatcher.render <$> (e :: errors))) as (before & after & Heq).
  { by apply list_elem_of_fmap_2. }
  exists before, after. exact (f_equal Some Heq).
Qed.

Lemma missing_required_field_is_reported_witness :
  (Dispatcher.dispatch Dispatcher.example_registry JNull
     Dispatcher.request_without_message_ids).1 = [] /\
  Dispatcher.succeeded
    (Dispatcher.dispatch Dispatcher.example_registry JNull
       Dispatcher.request_without_message_ids).2 = false /\
  Dispatcher.data
    (Dispatcher.dispatch Dispatcher.example_registry JNull
       Dispatcher.request_without_message_ids).2 = None /\
  Dispatcher.MissingField "message_ids"
    ∈ Dispatcher.violations
        (Dispatcher.rawInput Dispatcher.request_without_message_ids)
        (Dispatcher.inputSchema Dispatcher.BATCH_DELETE) /\
  exists before after,
    Dispatcher.errorMessage
      (Dispatcher.dispatch Dispatcher.example_registry JNull
         Dispatcher.request_without_message_ids).2 =
      Some (before +:+ ("missing field: " +:+ "message_ids") +:+ after).
Proof.
  apply (missing_required_field_is_reported Dispatcher.example_registry JNull
           Dispatcher.request_without_message_ids Dispatcher.BATCH_DELETE
           {| Dispatcher.field_name := "message_ids";
              Dispatcher.field_type := Dispatcher.TList Dispatcher.TString;
              Dispatcher.required := true;
              Dispatcher.default_value := None |}).
  - reflexivity.
  - apply list_elem_of_here.
  - reflexivity.
  - vm_compute. reflexivity.
Defined.

Example dispatch_without_message_ids :
  Dispatcher.dispatch Dispatcher.example_registry JNull
    Dispatcher.request_without_message_ids
  = ([], {| Dispatcher.succeeded := false;
            Dispatcher.data := None;
            Dispatcher.errorMessage := Some "missing field: message_ids" |}).
Proof. vm_compute. reflexivity. Qed.

(** * More of the sources *)

(** ** [executeTool] and the guarded methods of the agent *)

(** X1.  [executeTool] fulfils exactly when the SDK resolves to a
    successful response, and then with the [data] of that response; in
    every case it has called the SDK once. *)
Theorem executeTool_fulfils_iff_successful sdk toolSlug userId toolArguments
    (w : Trace) v :
  ((executeTool sdk toolSlug userId toolArguments w).2 = Fulfilled v <->
   exists result,
     tools_execute sdk toolSlug userId toolArguments = Fulfilled result /\
     successful result = true /\ data result = v) /\
  executions (executeTool sdk toolSlug userId toolArguments w).1 =
    executions w ++ [(toolSlug, userId, toolArguments)].
Proof.
  split; [|apply executeTool_executions].
  rewrite executeTool_run. cbv zeta. simpl.
  destruct (tools_execute sdk toolSlug userId toolArguments) as [result|e]; simpl.
  - destruct (successful result) eqn:Hs; simpl.
    + split.
      * intros [= <-]. by exists result.
      * intros (result' & [= <-] & _ & <-). done.
    + split; [done|]. intros (result' & [= <-] & Hs' & _). congruence.
  - split; [done|]. intros (result' & Hr & _). done.
Qed.

Lemma executeTool_fulfils_iff_successful_witness :
  (executeTool example_sdk "GMAIL_SEND_EMAIL" "default"
     (emailData "alice@example.com" "Hi" "Hello" None) []).2
  = Fulfilled (JObj [("tool", JStr "GMAIL_SEND_EMAIL"); ("for", JStr "alice@example.com")]).
Proof.
  apply (proj2 (proj1 (executeTool_fulfils_iff_successful example_sdk
                         "GMAIL_SEND_EMAIL" "default"
                         (emailData "alice@example.com" "Hi" "Hello" None) []
                         (JObj [("tool", JStr "GMAIL_SEND_EMAIL");
                                ("for", JStr "alice@example.com")])))).
  eexists. split; [reflexivity|]. split; reflexivity.
Defined.

Ltac guarded_method :=
  intros w; guard_cases;
  [ split; [done|]; unfold bind, console_log, emit;
    rewrite executeTool_executions, executions_app; simpl; rewrite app_nil_r;
    split; done
  | unfold throw; simpl; split; [done|]; split; done ].

(** X2.  [getRecentEmails], [getUpcomingEvents] and [searchDriveFiles] are
    guarded like the other methods: without their service they throw the
    'not connected' error with nothing executed, and their tool is
    executed, once, exactly when the service is connected.  An omitted
    [maxResults] is 10. *)
Theorem query_methods_require_connection sdk agent :
  (forall maxResults query,
      guarded_by agent "gmail" "Gmail not connected. Please authenticate first."
        "GMAIL_FETCH_EMAILS" (recentEmailsParams (default 10%Z maxResults) query)
        (getRecentEmails sdk agent maxResults query)) /\
  (forall now maxResults timeMin,
      guarded_by agent "googlecalendar"
        "Google Calendar not connected. Please authenticate first."
        "GOOGLECALENDAR_LIST_EVENTS"
        (upcomingEventsParams now (default 10%Z maxResults) timeMin)
        (getUpcomingEvents sdk now agent maxResults timeMin)) /\
  (forall query maxResults,
      guarded_by agent "googledrive"
        "Google Drive not connected. Please authenticate first."
        "GOOGLEDRIVE_SEARCH_FILES" (driveSearchParams query (default 10%Z maxResults))
        (searchDriveFiles sdk agent query maxResults)).
Proof.
  split; [|split].
  - intros maxResults query. unfold getRecentEmails. guarded_method.
  - intros now maxResults timeMin. unfold getUpcomingEvents. guarded_method.
  - intros query maxResults. unfold searchDriveFiles. guarded_method.
Qed.

Lemma query_methods_require_connection_witness :
  searchDriveFiles example_sdk example_agent "report" None []
  = ([], Rejected (Error "Google Drive not connected. Please authenticate first.")).
Proof.
  apply (proj1 (proj2 (proj2 (query_methods_require_connection example_sdk
                                example_agent))
                  "report" None [])).
  vm_compute. intros H. inversion H.
Defined.

(** X3.  An empty string given for an optional argument is taken as if
    the argument were left out: [getRecentEmails] then searches
    'in:inbox', [getUpcomingEvents] reads the clock, and [uploadToDrive]
    sends no [parents]. *)
Theorem empty_argument_is_omitted sdk agent :
  (forall maxResults,
      getRecentEmails sdk agent maxResults (Some EmptyString)
        = getRecentEmails sdk agent maxResults None /\
      get "query" (recentEmailsParams (default 10%Z maxResults) (Some EmptyString))
        = JStr "in:inbox") /\
  (forall now maxResults,
      getUpcomingEvents sdk now agent maxResults (Some EmptyString)
        = getUpcomingEvents sdk now agent maxResults None /\
      get "timeMin" (upcomingEventsParams now (default 10%Z maxResults)
                       (Some EmptyString)) = JStr now) /\
  (forall filename content,
      uploadToDrive sdk agent filename content (Some EmptyString)
        = uploadToDrive sdk agent filename content None /\
      get "parents" (uploadParams filename content (Some EmptyString)) = JUndefined) /\
  (forall filename content folder,
      folder <> EmptyString ->
      get "parents" (uploadParams filename content (Some folder)) = JArr [JStr folder]).
Proof.
  repeat split.
  intros filename content folder Hne. unfold uploadParams, truthy_string. simpl.
  destruct (String.eqb_spec folder EmptyString); done.
Qed.

Lemma empty_argument_is_omitted_witness :
  get "parents" (uploadParams "notes.txt" "hello" (Some "folder-1"))
  = JArr [JStr "folder-1"].
Proof.
  apply (proj2 (proj2 (proj2 (empty_argument_is_omitted example_sdk example_agent)))
           "notes.txt" "hello" "folder-1").
  discriminate.
Defined.

(** ** The meeting workflow: what it executes and how it fails *)

(** The settling of promises prints lines of the promises and nothing
    else. *)
Lemma settle_all_executions {A} (promises : list (Settled A)) order values :
  Forall (fun p => executions p.1 = []) promises ->
  executions (settle_all promises order values).1 = [].
Proof.
  intros Hquiet. revert values.
  induction order as [|i rest IH]; intros values; [done|].
  simpl. destruct (values !! i) as [[v'|]|]; try apply IH.
  destruct (promises !! i) as [[lines [v|e]]|] eqn:Hp; try apply IH.
  - specialize (IH (<[i := Some v]> values)).
    destruct (settle_all promises rest (<[i := Some v]> values)) as [lines' result].
    simpl in *. rewrite executions_app, IH, app_nil_r.
    eapply (Forall_lookup_1 _ _ _ _ Hquiet Hp).
  - simpl. eapply (Forall_lookup_1 _ _ _ _ Hquiet Hp).
Qed.

Lemma promise_all_executions {A} completion (promises : list (Settled A)) (w : Trace) :
  Forall (fun p => executions p.1 = []) promises ->
  executions (promise_all completion promises w).1 = executions w.
Proof.
  intros Hquiet. unfold promise_all.
  pose proof (settle_all_executions promises
                (completion ++ seq 0 (length promises))
                (replicate (length promises) None) Hquiet) as H.
  destruct (settle_all _ _ _) as [lines result]. simpl in *.
  by rewrite executions_app, H, app_nil_r.
Qed.

(** The tool executions that the invitations start. *)
Lemma invites_started sdk agent meeting (attendees : list string) :
  executions (concat (started <$> (invite sdk agent meeting <$> attendees))) =
  if bool_decide ("gmail" ∈ connectedServices agent)
  then (fun attendee =>
          ("GMAIL_SEND_EMAIL", userId agent,
           emailData attendee ("Meeting Invite: " +:+ meeting_title meeting)
             (emailBody sdk meeting) None)) <$> attendees
  else [].
Proof.
  induction attendees as [|attendee attendees IH]; [by case_bool_decide|].
  rewrite !fmap_cons. simpl. rewrite executions_app, IH.
  unfold invite, sendEmail_promise. case_bool_decide; done.
Qed.

Lemma invites_settle_quietly sdk agent meeting (attendees : list string) :
  Forall (fun p : Settled JSValue => executions p.1 = [])
    (settled <$> (invite sdk agent meeting <$> attendees)).
Proof.
  rewrite <- list_fmap_compose. apply Forall_fmap, Forall_forall.
  intros attendee _. simpl. unfold invite, sendEmail_promise.
  case_bool_decide; simpl; [apply executions_settled|done].
Qed.

Lemma event_created_connected sdk agent event v :
  outcome_of (createCalendarEvent sdk agent event) = Fulfilled v ->
  "googlecalendar" ∈ connectedServices agent.
Proof.
  unfold outcome_of, createCalendarEvent. by case_bool_decide.
Qed.

(** What the workflow executes once the event is created: the event, then
    one invitation per attendee in their order when Gmail is connected. *)
Lemma scheduleMeetingWithInvites_executions sdk completion agent meeting event
    (w : Trace) :
  outcome_of (createCalendarEvent sdk agent (event_of_meeting meeting)) = Fulfilled event ->
  executions (scheduleMeetingWithInvites sdk completion agent meeting w).1 =
    executions w
    ++ [("GOOGLECALENDAR_CREATE_EVENT", userId agent, eventData (event_of_meeting meeting))]
    ++ (if bool_decide ("gmail" ∈ connectedServices agent)
        then (fun attendee =>
                ("GMAIL_SEND_EMAIL", userId agent,
                 emailData attendee ("Meeting Invite: " +:+ meeting_title meeting)
                   (emailBody sdk meeting) None)) <$> meeting_attendees meeting
        else []).
Proof.
  intros Hevent. rewrite scheduleMeetingWithInvites_run.
  pose proof (event_created_connected _ _ _ _ Hevent) as Hconnected.
  set (w1 := w ++ [ConsoleLog _]).
  pose proof (createCalendarEvent_outcome sdk agent (event_of_meeting meeting) w1) as Hc.
  destruct (createCalendarEvent_guarded sdk agent (event_of_meeting meeting) w1)
    as (_ & Hex & _).
  specialize (Hex Hconnected).
  destruct (createCalendarEvent _ _ _ _) as [w2 o]. simpl in Hc, Hex.
  rewrite Hc, Hevent. cbv zeta.
  pose proof (promise_all_executions completion
                (settled <$> (invite sdk agent meeting <$> meeting_attendees meeting))
                (w2 ++ concat (started <$> (invite sdk agent meeting
                                              <$> meeting_attendees meeting)))
                (invites_settle_quietly _ _ _ _)) as Hp.
  destruct (promise_all _ _ _) as [w4 [sent|e]]; simpl in *;
    rewrite ?executions_app, ?app_nil_r; simpl; rewrite ?app_nil_r;
    rewrite Hp, executions_app, Hex, invites_started;
    unfold w1; rewrite executions_app; simpl; rewrite app_nil_r;
    by rewrite <- app_assoc.
Qed.

(** X4.  A meeting without attendees needs the calendar only: once the
    event is created the workflow returns it with no email sent, whether
    or not Gmail is connected, and the event is all it has executed. *)
Theorem workflow_without_attendees sdk completion agent meeting event (w : Trace) :
  meeting_attendees meeting = [] ->
  outcome_of (createCalendarEvent sdk agent (event_of_meeting meeting)) = Fulfilled event ->
  (scheduleMeetingWithInvites sdk completion agent meeting w).2 =
    Fulfilled {| event := event; emailsSent := [] |} /\
  executions (scheduleMeetingWithInvites sdk completion agent meeting w).1 =
    executions w ++ [event_execution agent meeting].
Proof.
  intros Hnone Hevent. split.
  - apply scheduleMeetingWithInvites_fulfilled; [done|]. by rewrite Hnone.
  - rewrite (scheduleMeetingWithInvites_executions _ _ _ _ event) by done.
    rewrite Hnone. by case_bool_decide.
Qed.

Lemma workflow_without_attendees_witness :
  (scheduleMeetingWithInvites example_sdk [] calendar_agent (example_meeting []) []).2 =
    Fulfilled {| event := JObj [("tool", JStr "GOOGLECALENDAR_CREATE_EVENT");
                                ("for", JUndefined)];
                 emailsSent := [] |}.
Proof.
  apply (workflow_without_attendees example_sdk [] calendar_agent (example_meeting [])
           (JObj [("tool", JStr "GOOGLECALENDAR_CREATE_EVENT"); ("for", JUndefined)]) []).
  - reflexivity.
  - vm_compute. reflexivity.
Defined.

(** X5.  With the calendar connected and Gmail not, a meeting that has
    attendees is left half done: the event is created, then the workflow
    rejects with the Gmail 'not connected' error, no invitation having been
    executed. *)
Theorem workflow_without_gmail_creates_event_only sdk completion agent meeting event
    (w : Trace) :
  "gmail" ∉ connectedServices agent ->
  meeting_attendees meeting <> [] ->
  outcome_of (createCalendarEvent sdk agent (event_of_meeting meeting)) = Fulfilled event ->
  (scheduleMeetingWithInvites sdk completion agent meeting w).2 =
    Rejected (Error "Gmail not connected. Please authenticate first.") /\
  executions (scheduleMeetingWithInvites sdk completion agent meeting w).1 =
    executions w ++ [event_execution agent meeting].
Proof.
  intros Hgmail Hsome Hevent. split.
  - rewrite scheduleMeetingWithInvites_run.
    pose proof (createCalendarEvent_outcome sdk agent (event_of_meeting meeting)
                  (w ++ [ConsoleLog ("Orchestrating meeting workflow: " +:+ dq
                                     +:+ meeting_title meeting +:+ dq)])) as Hc.
    destruct (createCalendarEvent _ _ _ _) as [w2 o]. simpl in Hc.
    rewrite Hc, Hevent. cbv zeta.
    assert (Hall : forall j p,
               (settled <$> (invite sdk agent meeting <$> meeting_attendees meeting))
                 !! j = Some p ->
               p = ([], Rejected (Error "Gmail not connected. Please authenticate first."))).
    { intros j p. rewrite !list_lookup_fmap.
      destruct (meeting_attendees meeting !! j); [|done].
      simpl. intros [= <-]. unfold invite, sendEmail_promise.
      by rewrite bool_decide_eq_false_2. }
    destruct (meeting_attendees meeting) as [|attendee attendees] eqn:Hatt; [done|].
    destruct (promise_all_rejected completion
                (settled <$> (invite sdk agent meeting <$> attendee :: attendees))
                0 [] (Error "Gmail not connected. Please authenticate first.")
                (w2 ++ concat (started <$> (invite sdk agent meeting
                                              <$> attendee :: attendees))))
      as (j & lines' & e' & Hj & Hres).
    { rewrite !fmap_cons. simpl. unfold invite, sendEmail_promise.
      by rewrite bool_decide_eq_false_2. }
    apply Hall in Hj. injection Hj as _ <-.
    destruct (promise_all _ _ _) as [w4 o']. simpl in Hres. by subst o'.
  - rewrite (scheduleMeetingWithInvites_executions _ _ _ _ event) by done.
    by rewrite bool_decide_eq_false_2.
Qed.

Lemma workflow_without_gmail_creates_event_only_witness :
  (scheduleMeetingWithInvites example_sdk [] calendar_agent
     (example_meeting ["alice@example.com"]) []).2 =
    Rejected (Error "Gmail not connected. Please authenticate first.").
Proof.
  apply (workflow_without_gmail_creates_event_only example_sdk [] calendar_agent
           (example_meeting ["alice@example.com"])
           (JObj [("tool", JStr "GOOGLECALENDAR_CREATE_EVENT"); ("for", JUndefined)]) []).
  - vm_compute. intros H. inversion H.
  - discriminate.
  - vm_compute. reflexivity.
Defined.

(** X6.  With both services connected, once the event is created every
    invitation is executed, in the order of the attendees, whatever the
    outcome of each and whatever the order in which they settle: a failing
    invitation stops none of the others. *)
Theorem workflow_executes_every_invitation sdk completion agent meeting event
    (w : Trace) :
  "gmail" ∈ connectedServices agent ->
  outcome_of (createCalendarEvent sdk agent (event_of_meeting meeting)) = Fulfilled event ->
  executions (scheduleMeetingWithInvites sdk completion agent meeting w).1 =
    executions w ++ event_execution agent meeting
                    :: (invitation_execution sdk agent meeting <$> meeting_attendees meeting).
Proof.
  intros Hgmail Hevent.
  rewrite (scheduleMeetingWithInvites_executions _ _ _ _ event) by done.
  by rewrite bool_decide_eq_true_2.
Qed.

Lemma workflow_executes_every_invitation_witness :
  executions
    (scheduleMeetingWithInvites example_sdk [1]%nat example_agent
       (example_meeting ["alice@example.com"; "bob@example.com"; "carol@example.com"])
       []).1
  = event_execution example_agent
      (example_meeting ["alice@example.com"; "bob@example.com"; "carol@example.com"])
    :: (invitation_execution example_sdk example_agent
          (example_meeting ["alice@example.com"; "bob@example.com"; "carol@example.com"])
        <$> ["alice@example.com"; "bob@example.com"; "carol@example.com"]).
Proof.
  apply (workflow_executes_every_invitation example_sdk [1]%nat example_agent
           (example_meeting ["alice@example.com"; "bob@example.com"; "carol@example.com"])
           (JObj [("tool", JStr "GOOGLECALENDAR_CREATE_EVENT"); ("for", JUndefined)]) []).
  - vm_compute. tauto.
  - vm_compute. reflexivity.
Defined.

(** X7.  When the invitation of one attendee fails and all the others
    succeed, the workflow rejects with the error of that invitation, in
    whatever order the invitations settle. *)
Theorem workflow_rejects_with_the_failure sdk completion agent meeting event r attendee e
    (w : Trace) :
  outcome_of (createCalendarEvent sdk agent (event_of_meeting meeting)) = Fulfilled event ->
  meeting_attendees meeting !! r = Some attendee ->
  outcome_of (invitation sdk agent meeting attendee) = Rejected e ->
  (forall i other,
      i <> r -> meeting_attendees meeting !! i = Some other ->
      is_fulfilled (outcome_of (invitation sdk agent meeting other)) = true) ->
  (scheduleMeetingWithInvites sdk completion agent meeting w).2 = Rejected e.
Proof.
  intros Hevent Hr Hfail Hothers. rewrite scheduleMeetingWithInvites_run.
  pose proof (createCalendarEvent_outcome sdk agent (event_of_meeting meeting)
                (w ++ [ConsoleLog ("Orchestrating meeting workflow: " +:+ dq
                                   +:+ meeting_title meeting +:+ dq)])) as Hc.
  destruct (createCalendarEvent _ _ _ _) as [w2 o]. simpl in Hc.
  rewrite Hc, Hevent. cbv zeta.
  rewrite invite_outcome in Hfail.
  destruct (settled (invite sdk agent meeting attendee)) as [lines o'] eqn:Hs.
  simpl in Hfail. subst o'.
  destruct (promise_all_rejected completion
              (settled <$> (invite sdk agent meeting <$> meeting_attendees meeting))
              r lines e
              (w2 ++ concat (started <$> (invite sdk agent meeting
                                            <$> meeting_attendees meeting))))
    as (j & lines' & e' & Hj & Hres).
  { rewrite !list_lookup_fmap, Hr. simpl. by rewrite Hs. }
  destruct (promise_all _ _ _) as [w4 o']. simpl in Hres. subst o'.
  destruct (decide (j = r)) as [->|Hne].
  - rewrite !list_lookup_fmap, Hr in Hj. simpl in Hj. rewrite Hs in Hj. by injection Hj as _ ->.
  - rewrite !list_lookup_fmap in Hj.
    destruct (meeting_attendees meeting !! j) as [other|] eqn:Ho; [|done].
    specialize (Hothers j other Hne Ho). rewrite invite_outcome in Hothers.
    simpl in Hj. injection Hj as Hj. by rewrite Hj in Hothers.
Qed.

Lemma workflow_rejects_with_the_failure_witness :
  (scheduleMeetingWithInvites example_sdk [2; 0]%nat example_agent
     (example_meeting ["alice@example.com"; "bob@example.com"; "carol@example.com"])
     []).2
  = Rejected (Error "Recipient address rejected").
Proof.
  apply (workflow_rejects_with_the_failure example_sdk [2; 0]%nat example_agent
           (example_meeting ["alice@example.com"; "bob@example.com"; "carol@example.com"])
           (JObj [("tool", JStr "GOOGLECALENDAR_CREATE_EVENT"); ("for", JUndefined)])
           1%nat "bob@example.com" (Error "Recipient address rejected") []).
  - vm_compute. reflexivity.
  - reflexivity.
  - vm_compute. reflexivity.
  - intros [|[|[|i]]] other Hne Hi; simpl in Hi; try done;
      injection Hi as <-; vm_compute; reflexivity.
Defined.

(** ** composio-client: the wrappers around the SDK *)

Lemma calls_app (w1 w2 : list Observation) : calls (w1 ++ w2) = calls w1 ++ calls w2.
Proof. apply omap_app. Qed.

Lemma getAvailableTools_run services toolkits userId (w : list Observation) :
  Client.getAvailableTools services toolkits userId w =
  match tools_get_toolkits services (default "default" userId) toolkits 50 with
  | Fulfilled tools =>
      (w ++ [Log ("Fetching tools for toolkits: " +:+ String.concat ", " toolkits);
             Called (ToolsGetToolkits (default "default" userId) toolkits 50);
             Log ("Found " +:+ string_of_number (Z.of_nat (length tools))
                  +:+ " available tools")],
       Fulfilled tools)
  | Rejected e =>
      (w ++ [Log ("Fetching tools for toolkits: " +:+ String.concat ", " toolkits);
             Called (ToolsGetToolkits (default "default" userId) toolkits 50);
             LogError ("Failed to fetch tools: " +:+ error_message e)],
       Rejected e)
  end.
Proof.
  unfold Client.getAvailableTools, io_try_catch, io_bind, log, log_error, call,
    io_ret, io_throw.
  destruct (tools_get_toolkits _ _ _ _) as [tools|e]; simpl; by rewrite <- !app_assoc.
Qed.

(** X8.  [getAvailableTools], [setupAuthentication] and
    [waitForAuthentication] add nothing to the SDK call they wrap but
    console lines: each calls the SDK once, with the documented defaults
    (user 'default', limit 50, timeout 60000 ms), and settles as the SDK
    did, a failure being thrown again unchanged. *)
Theorem client_wrappers_are_transparent services (w : list Observation) :
  (forall toolkits userId,
      (Client.getAvailableTools services toolkits userId w).2
        = tools_get_toolkits services (default "default" userId) toolkits 50 /\
      calls (Client.getAvailableTools services toolkits userId w).1
        = calls w ++ [ToolsGetToolkits (default "default" userId) toolkits 50]) /\
  (forall userId toolkit,
      (Client.setupAuthentication services userId toolkit w).2
        = toolkits_authorize services userId toolkit /\
      calls (Client.setupAuthentication services userId toolkit w).1
        = calls w ++ [ToolkitsAuthorize userId toolkit]) /\
  (forall connectionRequestId timeoutMs,
      (Client.waitForAuthentication services connectionRequestId timeoutMs w).2
        = connectedAccounts_waitForConnection services connectionRequestId
            (default 60000%Z timeoutMs) /\
      calls (Client.waitForAuthentication services connectionRequestId timeoutMs w).1
        = calls w ++ [WaitForConnection connectionRequestId (default 60000%Z timeoutMs)]).
Proof.
  split; [|split].
  - intros toolkits userId. rewrite getAvailableTools_run.
    destruct (tools_get_toolkits _ _ _ _); simpl; rewrite calls_app; done.
  - intros userId toolkit.
    unfold Client.setupAuthentication, io_try_catch, io_bind, log, log_error, call,
      io_ret, io_throw.
    destruct (toolkits_authorize _ _ _) as [request|e]; simpl.
    + destruct (truthy_string (redirectUrl request)); simpl;
        rewrite !calls_app; simpl; rewrite ?app_nil_r; done.
    + rewrite !calls_app. simpl. by rewrite ?app_nil_r.
  - intros connectionRequestId timeoutMs.
    unfold Client.waitForAuthentication, io_try_catch, io_bind, log, log_error, call,
      io_ret, io_throw.
    destruct (connectedAccounts_waitForConnection _ _ _) as [account|e]; simpl;
      rewrite !calls_app; simpl; rewrite ?app_nil_r; done.
Qed.

(** X9.  [initializeComposio] checks the API key after its first line and
    before it touches the SDK: without a key (unset or empty) it rejects
    with 'COMPOSIO_API_KEY environment variable is required', having
    called nothing; with a key it lists one action and settles as that
    call did. *)
Theorem initializeComposio_requires_key services key (w : list Observation) :
  (truthy_string key = false ->
     Client.initializeComposio services key w =
       (w ++ [Log "Initializing Composio SDK...";
              LogError ("Failed to initialize Composio SDK: "
                        +:+ "COMPOSIO_API_KEY environment variable is required")],
        Rejected (Error "COMPOSIO_API_KEY environment variable is required"))) /\
  (truthy_string key = true ->
     calls (Client.initializeComposio services key w).1 = calls w ++ [ActionsList 1] /\
     (forall e,
         (Client.initializeComposio services key w).2 = Rejected e <->
         actions_list services 1 = Rejected e)).
Proof.
  unfold Client.initializeComposio, io_try_catch, io_bind, log, log_error, call,
    io_ret, io_throw.
  split; intros ->; simpl.
  - by rewrite <- !app_assoc.
  - destruct (actions_list services 1) as [actions|e0]; simpl.
    + rewrite !calls_app. simpl. rewrite ?app_nil_r. split; [done|].
      intros e. split; done.
    + rewrite !calls_app. simpl. rewrite ?app_nil_r. split; [done|].
      intros e. split; congruence.
Qed.

Lemma initializeComposio_requires_key_witness :
  Client.initializeComposio example_services (Some EmptyString) [] =
    ([Log "Initializing Composio SDK...";
      LogError ("Failed to initialize Composio SDK: "
                +:+ "COMPOSIO_API_KEY environment variable is required")],
     Rejected (Error "COMPOSIO_API_KEY environment variable is required")).
Proof.
  apply (proj1 (initializeComposio_requires_key example_services (Some EmptyString) [])).
  reflexivity.
Defined.

(** ** The initialization of the agent *)

Lemma check_services_spec services names :
  forall agent (w : list Observation),
    let result := Agent.check_services services names agent w in
    userId result.1 = userId agent /\
    connectedServices agent ⊆ connectedServices result.1 /\
    (forall s, s ∈ connectedServices result.1 ->
               s ∈ connectedServices agent \/
               (s ∈ names /\ lists_tools services (userId agent) s)) /\
    (is_fulfilled result.2.2 = true ->
     forall s, s ∈ names -> lists_tools services (userId agent) s ->
               s ∈ connectedServices result.1).
Proof.
  induction names as [|service rest IH]; intros agent w; simpl.
  - repeat split; try done.
    + intros s Hs. by left.
    + intros _ s Hs. by apply elem_of_nil in Hs.
  - rewrite getAvailableTools_run. simpl.
    destruct (tools_get_toolkits services (userId agent) [service] 50)
      as [tools|e] eqn:Htools.
    + case_bool_decide as Hlen.
      * edestruct (IH (Agent.connect service agent)) as (Hid & Hsub & Honly & Hall).
        simpl in Hid, Hsub, Honly, Hall.
        split; [exact Hid|].
        split; [intros s Hs; apply Hsub; apply elem_of_union; by right|]. split.
        -- intros s Hs. destruct (Honly s Hs) as [Hin|[Hin Htl]].
           ++ apply elem_of_union in Hin as [Hin|Hin]; [|by left].
              apply elem_of_singleton in Hin as ->. right.
              split; [apply list_elem_of_here|].
              exists tools. split; [done|].
              destruct tools; [simpl in Hlen; lia|done].
           ++ right. split; [by apply list_elem_of_further|done].
        -- intros Hok s Hs Htl. apply elem_of_cons in Hs as [->|Hs].
           ++ apply Hsub. apply elem_of_union. left. by apply elem_of_singleton.
           ++ by apply Hall.
      * edestruct (IH agent) as (Hid & Hsub & Honly & Hall).
        split; [exact Hid|]. split; [exact Hsub|]. split.
        -- intros s Hs. destruct (Honly s Hs) as [Hin|[Hin Htl]]; [by left|].
           right. split; [by apply list_elem_of_further|done].
        -- intros Hok s Hs Htl. apply elem_of_cons in Hs as [->|Hs].
           ++ destruct Htl as (tools' & Htl & Hne). rewrite Htools in Htl.
              injection Htl as <-. destruct tools; [done|]. simpl in Hlen. lia.
           ++ by apply Hall.
    + simpl. repeat split; try done. intros s Hs. by left.
Qed.

(** X10.  [initialize] only adds to [connectedServices]: whatever it
    settles to, every service connected before remains connected and every
    new one is a requested service for which the SDK lists at least one
    tool; when it fulfils, the connected services are exactly the former
    ones and those requested services.  The services left out default to
    'gmail', 'googlecalendar' and 'googledrive'. *)
Theorem initialize_connects_services_with_tools services agent names
    (w : list Observation) :
  let requested := default ["gmail"; "googlecalendar"; "googledrive"] names in
  let agent' := (Agent.initialize services agent names w).1 in
  userId agent' = userId agent /\
  connectedServices agent ⊆ connectedServices agent' /\
  (forall s, s ∈ connectedServices agent' ->
             s ∈ connectedServices agent \/
             (s ∈ requested /\ lists_tools services (userId agent) s)) /\
  (is_fulfilled (Agent.initialize services agent names w).2.2 = true ->
   forall s, s ∈ connectedServices agent' <->
             s ∈ connectedServices agent \/
             (s ∈ requested /\ lists_tools services (userId agent) s)).
Proof.
  cbv zeta. unfold Agent.initialize.
  destruct (check_services_spec services
              (default ["gmail"; "googlecalendar"; "googledrive"] names) agent
              (w ++ [Log ("Initializing Google Workspace Agent for user: "
                          +:+ userId agent)]))
    as (Hid & Hsub & Honly & Hall).
  destruct (Agent.check_services _ _ _ _) as [agent' [w' [[]|e]]]; simpl in *.
  - repeat split; try done.
    + apply Honly.
    + intros [Hin|[Hin Htl]]; [by apply Hsub|by apply Hall].
  - repeat split; try done.
Qed.

Lemma initialize_connects_services_with_tools_witness :
  "gmail" ∈ connectedServices
              (Agent.initialize example_services (Agent.new None) None []).1 <->
  "gmail" ∈ connectedServices (Agent.new None) \/
  ("gmail" ∈ ["gmail"; "googlecalendar"; "googledrive"] /\
   lists_tools example_services "default" "gmail").
Proof.
  refine (proj2 (proj2 (proj2 (initialize_connects_services_with_tools
                                 example_services (Agent.new None) None [])))
            _ "gmail").
  vm_compute. reflexivity.
Defined.

(** X11.  After an initialization that fulfils, [sendEmail] executes its
    tool, once, exactly when Gmail was connected before or was among the
    requested services with at least one tool listed; otherwise it
    rejects with the 'not connected' error and executes nothing. *)
Theorem initialize_then_sendEmail services sdk agent names (w0 : list Observation)
    to subject body options (w : Trace) :
  is_fulfilled (Agent.initialize services agent names w0).2.2 = true ->
  let agent' := (Agent.initialize services agent names w0).1 in
  let connected :=
    "gmail" ∈ connectedServices agent \/
    ("gmail" ∈ default ["gmail"; "googlecalendar"; "googledrive"] names /\
     lists_tools services (userId agent) "gmail") in
  (executions (sendEmail sdk agent' to subject body options w).1
     = executions w ++ [("GMAIL_SEND_EMAIL", userId agent,
                         emailData to subject body options)]
   <-> connected) /\
  (~ connected ->
   sendEmail sdk agent' to subject body options w
     = (w, Rejected (Error "Gmail not connected. Please authenticate first.")) /\
   executions (sendEmail sdk agent' to subject body options w).1 = executions w).
Proof.
  intros Hok. cbv zeta.
  destruct (initialize_connects_services_with_tools services agent names w0)
    as (Hid & _ & _ & Hiff).
  cbv zeta in Hid, Hiff. specialize (Hiff Hok "gmail"). rewrite <- Hiff.
  destruct (sendEmail_guarded sdk (Agent.initialize services agent names w0).1
              to subject body options w) as (Hnot & Hyes & Honly).
  rewrite Hid in Hyes. split; [split|].
  - intros Hex. apply Honly. rewrite Hex. intros Heq.
    apply (f_equal length) in Heq. rewrite length_app in Heq. simpl in Heq. lia.
  - apply Hyes.
  - intros Hout. rewrite (Hnot Hout). done.
Qed.

Lemma initialize_then_sendEmail_witness :
  executions
    (sendEmail example_sdk (Agent.initialize example_services (Agent.new None) None []).1
       "alice@example.com" "Hi" "Hello" None []).1
  = [("GMAIL_SEND_EMAIL", "default", emailData "alice@example.com" "Hi" "Hello" None)].
Proof.
  apply (proj2 (proj1 (initialize_then_sendEmail example_services example_sdk
                         (Agent.new None) None [] "alice@example.com" "Hi" "Hello"
                         None [] eq_refl))).
  right. split; [apply list_elem_of_here|].
  eexists. split; [reflexivity|discriminate].
Defined.

(** ** The service as [startService] runs it *)

Lemma initialize_ready sdk USER_ID PORT s :
  is_fulfilled (Service.initialize sdk USER_ID PORT s).2 = true ->
  isReady (Service.initialize sdk USER_ID PORT s).1 = true.
Proof.
  unfold Service.initialize.
  by destruct (initializeCustomTools sdk _) as [w [[]|e]].
Qed.

(** [initialize] is the call and the resumption of the step machine. *)
Lemma initialize_steps sdk USER_ID PORT s :
  running s = true ->
  service_step sdk USER_ID PORT (service_step sdk USER_ID PORT s CallInitialize)
    ResumeInitialize
  = (Service.initialize sdk USER_ID PORT s).1.
Proof.
  intros Hrun. unfold service_step, Service.initialize. rewrite Hrun. simpl.
  by destruct (initializeCustomTools sdk _) as [w [[]|e]].
Qed.

Lemma serve_ready sdk USER_ID PORT requests :
  forall p,
    (Service.listening p = true -> isReady (Service.state p) = true) ->
    forall reply,
      reply ∈ Service.serve sdk USER_ID PORT p requests ->
      match reply with
      | Service.HealthReply report => status report = "ready"
      | Service.StatusReply initialized tools_ready _ =>
          initialized = true /\ tools_ready = true
      | Service.ShutdownReply _ => True
      end.
Proof.
  induction requests as [|a rest IH]; intros p Hinv reply Hin; simpl in Hin.
  - by apply elem_of_nil in Hin.
  - assert (Hroute :
      forall a', (a' = GetHealth \/ a' = GetStatus \/ a' = GetShutdown) ->
        reply ∈ (if Service.listening p && running (Service.state p)
                 then match Service.reply_of USER_ID (Service.state p) a' with
                      | Some first =>
                          first :: Service.serve sdk USER_ID PORT
                                     {| Service.state :=
                                          service_step sdk USER_ID PORT (Service.state p) a';
                                        Service.listening := Service.listening p;
                                        Service.sigint_handler := Service.sigint_handler p;
                                        Service.exit_code := Service.exit_code p |} rest
                      | None => Service.serve sdk USER_ID PORT p rest
                      end
                 else Service.serve sdk USER_ID PORT p rest) ->
        match reply with
        | Service.HealthReply report => status report = "ready"
        | Service.StatusReply initialized tools_ready _ =>
            initialized = true /\ tools_ready = true
        | Service.ShutdownReply _ => True
        end).
    { intros a' Ha' Hin'.
      destruct (Service.listening p) eqn:Hl; simpl in Hin';
        [|apply (IH p); [intros Hl'; congruence|done]].
      specialize (Hinv eq_refl).
      destruct (running (Service.state p)) eqn:Hr; simpl in Hin';
        [|apply (IH p); [by rewrite Hl|done]].
      assert (Hnext : reply ∈ Service.serve sdk USER_ID PORT
                        {| Service.state :=
                             service_step sdk USER_ID PORT (Service.state p) a';
                           Service.listening := true;
                           Service.sigint_handler := Service.sigint_handler p;
                           Service.exit_code := Service.exit_code p |} rest ->
                      match reply with
                      | Service.HealthReply report => status report = "ready"
                      | Service.StatusReply initialized tools_ready _ =>
                          initialized = true /\ tools_ready = true
                      | Service.ShutdownReply _ => True
                      end).
      { apply IH. simpl. intros _. by apply service_step_keeps_ready. }
      destruct Ha' as [->|[->| ->]]; simpl in Hin';
        apply elem_of_cons in Hin' as [->|Hin']; try (by apply Hnext);
        simpl; by rewrite ?Hinv. }
    destruct a; simpl in Hin.
    + by apply (IH p).
    + by apply (IH p).
    + apply (Hroute GetHealth); [tauto|].
      by destruct (Service.listening p && running (Service.state p)).
    + apply (Hroute GetStatus); [tauto|].
      by destruct (Service.listening p && running (Service.state p)).
    + apply (Hroute GetShutdown); [tauto|].
      by destruct (Service.listening p && running (Service.state p)).
    + destruct (running (Service.state p) && exit_scheduled (Service.state p));
        simpl in Hin; [|by apply (IH p)].
      eapply IH; [|exact Hin]. simpl. done.
Qed.

(** X12.  Started with [startService], the service answers no request
    before its tools are initialized: every health reply it ever serves
    says "ready" and every status reply says initialized, because
    [start] opens the HTTP server only after [initialize] has fulfilled.
    When initialization fails the process exits with code 1 and serves
    nothing. *)
Theorem started_service_serves_ready_only sdk USER_ID PORT bound requests :
  (forall report,
      Service.HealthReply report
        ∈ Service.serve sdk USER_ID PORT
            (Service.startService sdk USER_ID PORT bound) requests ->
      status report = "ready") /\
  (forall initialized tools_ready user,
      Service.StatusReply initialized tools_ready user
        ∈ Service.serve sdk USER_ID PORT
            (Service.startService sdk USER_ID PORT bound) requests ->
      initialized = true /\ tools_ready = true) /\
  (is_fulfilled (Service.initialize sdk USER_ID PORT new_service).2 = false ->
   Service.exit_code (Service.startService sdk USER_ID PORT bound) = Some 1%Z /\
   Service.listening (Service.startService sdk USER_ID PORT bound) = false /\
   Service.serve sdk USER_ID PORT
     (Service.startService sdk USER_ID PORT bound) requests = []).
Proof.
  assert (Hinv : Service.listening (Service.startService sdk USER_ID PORT bound) = true ->
                 isReady (Service.state (Service.startService sdk USER_ID PORT bound))
                 = true).
  { unfold Service.startService, Service.start. simpl.
    pose proof (initialize_ready sdk USER_ID PORT new_service) as Hready.
    destruct (Service.initialize sdk USER_ID PORT new_service) as [s [[]|e]];
      simpl in *; [|done].
    intros ->. simpl. by apply Hready. }
  split; [|split].
  - intros report Hin.
    apply (serve_ready sdk USER_ID PORT requests _ Hinv _ Hin).
  - intros initialized tools_ready user Hin.
    apply (serve_ready sdk USER_ID PORT requests _ Hinv _ Hin).
  - intros Hfail. unfold Service.startService, Service.start. simpl.
    destruct (Service.initialize sdk USER_ID PORT new_service) as [s [[]|e]];
      simpl in *; [done|].
    repeat split.
    induction requests as [|[] rest IH]; simpl; done.
Qed.

Lemma started_service_serves_ready_only_witness :
  status {| status := "ready"; service := "google-workspace-tools";
            tools_count := 84; user_id := USER_ID_default |} = "ready".
Proof.
  apply (proj1 (started_service_serves_ready_only example_sdk USER_ID_default "8080"
                  true [GetHealth; GetStatus])).
  vm_compute. apply list_elem_of_here.
Defined.

(** ** Registrations that are refused *)

Lemma runs_bind sdk s1 s2 (m : M unit) (k : unit -> M unit) :
  runs sdk s1 m -> (forall a, runs sdk s2 (k a)) -> runs sdk (s1 ++ s2) (bind m k).
Proof.
  intros Hm Hk w. unfold bind. rewrite (Hm w). clear Hm. revert w.
  induction s1 as [|[line|tool] rest IH]; intros w; simpl.
  - unfold ret. apply Hk.
  - unfold bind, console_log, emit. apply IH.
  - unfold bind, createCustomTool.
    destruct (tools_createCustomTool sdk w tool) as [[]|e]; [apply IH|done].
Qed.

Lemma runs_console_log sdk line : runs sdk [Print line] (console_log line).
Proof. intros w. reflexivity. Qed.

Lemma runs_createCustomTools sdk tools :
  runs sdk (Submit <$> tools) (createCustomTools sdk tools).
Proof.
  induction tools as [|tool tools IH]; intros w; [done|].
  simpl. unfold bind. destruct (createCustomTool sdk tool w) as [w' [[]|e]]; [apply IH|done].
Qed.

Lemma runs_group sdk tools line (k : M unit) s :
  runs sdk s k ->
  runs sdk (group_steps tools line ++ s)
    (bind (bind (createCustomTools sdk tools) (fun _ => console_log line)) (fun _ => k)).
Proof.
  intros Hk. apply runs_bind; [|done].
  apply runs_bind; [apply runs_createCustomTools|].
  intros _. apply runs_console_log.
Qed.

Lemma initializeCustomTools_runs sdk :
  runs sdk initialization_steps (initializeCustomTools sdk).
Proof.
  unfold initializeCustomTools, initialization_steps.
  apply runs_bind; [apply runs_console_log|intros _].
  unfold createGmailCustomTools, createCalendarCustomTools, createDriveCustomTools,
    createDocsCustomTools, createSheetsCustomTools, createSlidesCustomTools,
    createFormsCustomTools, createChatCustomTools, createSearchCustomTools,
    createTasksCustomTools, createCommentCustomTools.
  do 11 apply runs_group.
  apply runs_console_log.
Qed.

(** A run of steps that is refused stops at the first tool that the SDK
    refuses. *)
Lemma run_steps_refused sdk steps (w : Trace) e :
  (run_steps sdk steps w).2 = Rejected e ->
  exists pre tool rest,
    steps = pre ++ Submit tool :: rest /\
    tools_createCustomTool sdk (w ++ (step_event <$> pre)) tool = Rejected e /\
    (forall pre' tool' rest',
        pre = pre' ++ Submit tool' :: rest' ->
        tools_createCustomTool sdk (w ++ (step_event <$> pre')) tool' = Fulfilled tt) /\
    (run_steps sdk steps w).1
      = w ++ (step_event <$> pre) ++ [ToolsCreateCustomTool (slug tool)].
Proof.
  revert w. induction steps as [|[line|tool] steps IH]; intros w; simpl.
  - done.
  - unfold bind, console_log, emit. intros Hrej.
    destruct (IH _ Hrej) as (pre & tool & rest & -> & Hrefused & Hbefore & Htrace).
    exists (Print line :: pre), tool, rest. split; [done|].
    rewrite fmap_cons. simpl. rewrite <- app_assoc in Hrefused. split; [done|].
    split.
    + intros pre' tool' rest' Heq. destruct pre' as [|s pre']; [done|].
      injection Heq as <- Heq. rewrite fmap_cons. simpl.
      rewrite <- (Hbefore _ _ _ Heq). by rewrite <- app_assoc.
    + rewrite Htrace. by rewrite <- app_assoc.
  - unfold bind, createCustomTool.
    destruct (tools_createCustomTool sdk w tool) as [[]|e'] eqn:Hanswer.
    + intros Hrej.
      destruct (IH _ Hrej) as (pre & tool0 & rest & -> & Hrefused & Hbefore & Htrace).
      exists (Submit tool :: pre), tool0, rest. split; [done|].
      rewrite fmap_cons. simpl. rewrite <- app_assoc in Hrefused. split; [done|].
      split.
      * intros pre' tool' rest' Heq. destruct pre' as [|s pre'].
        -- injection Heq as <- _. simpl. by rewrite app_nil_r.
        -- injection Heq as <- Heq. rewrite fmap_cons. simpl.
           rewrite <- (Hbefore _ _ _ Heq). by rewrite <- app_assoc.
      * rewrite Htrace. by rewrite <- app_assoc.
    + simpl. intros [= ->]. exists [], tool, steps. simpl. rewrite app_nil_r.
      split; [done|]. split; [done|]. split; [|done].
      intros pre' tool' rest' Heq. by destruct pre'.
Qed.

Lemma registrations_steps steps :
  registrations (step_event <$> steps) = slug <$> submitted steps.
Proof.
  induction steps as [|[line|tool] steps IH]; simpl; [done|apply IH|].
  f_equal. apply IH.
Qed.

Lemma submitted_app a b : submitted (a ++ b) = submitted a ++ submitted b.
Proof. apply omap_app. Qed.

Lemma submitted_initialization : submitted initialization_steps = customTools.
Proof. reflexivity. Qed.

Lemma initialization_steps_script :
  step_event <$> initialization_steps = initialization_script.
Proof. reflexivity. Qed.

(** X13.  When a registration is refused, [initializeCustomTools] stops
    there.  The steps of the method split into those before the refused
    tool, the tool, and the rest: the SDK accepted every tool submitted
    before, refused this one with the error that the method rejects with,
    and the events of the run are those of the steps before and the
    submission of the refused tool, nothing after.  So the tools submitted
    are the first [k] of the 86, the refused one being the [k]-th, and the
    last line is not printed. *)
Theorem refused_registration_stops_initialization sdk (w : Trace) e :
  (initializeCustomTools sdk w).2 = Rejected e ->
  exists pre tool rest,
    initialization_steps = pre ++ Submit tool :: rest /\
    tools_createCustomTool sdk (w ++ (step_event <$> pre)) tool = Rejected e /\
    (forall pre' tool' rest',
        pre = pre' ++ Submit tool' :: rest' ->
        tools_createCustomTool sdk (w ++ (step_event <$> pre')) tool' = Fulfilled tt) /\
    (initializeCustomTools sdk w).1
      = w ++ (step_event <$> pre) ++ [ToolsCreateCustomTool (slug tool)] /\
    (exists k, (1 <= k <= 86)%nat /\
       customTools !! (k - 1)%nat = Some tool /\
       registrations (initializeCustomTools sdk w).1 =
         registrations w ++ take k (slug <$> customTools)) /\
    (initialization_completed (initializeCustomTools sdk w).1 <->
     initialization_completed w).
Proof.
  rewrite (initializeCustomTools_runs sdk w). intros Hrej.
  destruct (run_steps_refused _ _ _ _ Hrej)
    as (pre & tool & rest & Hsteps & Hrefused & Hbefore & Htrace).
  exists pre, tool, rest. do 4 (split; [done|]).
  pose proof submitted_initialization as Htools.
  rewrite Hsteps, submitted_app in Htools.
  change (submitted (Submit tool :: rest)) with (tool :: submitted rest) in Htools.
  rewrite Htrace. split.
  - exists (S (length (submitted pre))). split; [|split].
    + split; [lia|].
      apply (f_equal length) in Htools. rewrite length_app in Htools. simpl in Htools.
      change (length customTools) with 86%nat in Htools. lia.
    + pose proof (list_lookup_middle (submitted pre) (submitted rest) tool
                    (S (length (submitted pre)) - 1)) as Hmid.
      rewrite Htools in Hmid. apply Hmid. lia.
    + rewrite !registrations_app, registrations_steps.
      change (registrations [ToolsCreateCustomTool (slug tool)]) with [slug tool].
      pose proof (take_app_add' (slug <$> submitted pre)
                    (slug <$> tool :: submitted rest) (length (submitted pre)) 1) as Htake.
      rewrite <- fmap_app, Htools in Htake.
      replace (S (length (submitted pre))) with (length (submitted pre) + 1)%nat by lia.
      rewrite Htake by (by rewrite length_fmap). done.
  - rewrite app_assoc. rewrite <- app_assoc. apply completed_app_lines.
    apply failed_run_not_completed.
    + rewrite <- initialization_steps_script, Hsteps, fmap_app, fmap_cons.
      exists (step_event <$> rest). simpl. by rewrite <- app_assoc.
    + by exists (step_event <$> pre), (slug tool).
Qed.

Lemma refused_registration_stops_initialization_witness :
  exists pre tool rest,
    initialization_steps = pre ++ Submit tool :: rest /\
    tools_createCustomTool refusing_sdk ([] ++ (step_event <$> pre)) tool
      = Rejected (Error "Tool registration refused") /\
    (forall pre' tool' rest',
        pre = pre' ++ Submit tool' :: rest' ->
        tools_createCustomTool refusing_sdk ([] ++ (step_event <$> pre')) tool'
          = Fulfilled tt) /\
    (initializeCustomTools refusing_sdk []).1
      = [] ++ (step_event <$> pre) ++ [ToolsCreateCustomTool (slug tool)] /\
    (exists k, (1 <= k <= 86)%nat /\
       customTools !! (k - 1)%nat = Some tool /\
       registrations (initializeCustomTools refusing_sdk []).1 =
         registrations [] ++ take k (slug <$> customTools)) /\
    (initialization_completed (initializeCustomTools refusing_sdk []).1 <->
     initialization_completed []).
Proof.
  apply (refused_registration_stops_initialization refusing_sdk []
           (Error "Tool registration refused")).
  vm_compute. reflexivity.
Defined.

Example refused_at_the_drive_upload :
  registrations (initializeCustomTools refusing_sdk []).1
  = take 22 (slug <$> customTools).
Proof. vm_compute. reflexivity. Qed.

(** ** custom-tools: refusals *)

Lemma settle_all_rejection_origin {A} (promises : list (Settled A)) order values e :
  (settle_all promises order values).2 = Rejected e ->
  exists j lines, promises !! j = Some (lines, Rejected e).
Proof.
  revert values. induction order as [|i rest IH]; intros values; simpl; [done|].
  destruct (values !! i) as [[v'|]|]; try apply IH.
  destruct (promises !! i) as [[lines [v|e']]|] eqn:Hp; try apply IH.
  - specialize (IH (<[i := Some v]> values)).
    destruct (settle_all promises rest (<[i := Some v]> values)). simpl in *. apply IH.
  - simpl. intros [= <-]. by exists i, lines.
Qed.

Lemma promise_all_rejection_origin {A} completion (promises : list (Settled A))
    (w : Trace) e :
  (promise_all completion promises w).2 = Rejected e ->
  exists j lines, promises !! j = Some (lines, Rejected e).
Proof.
  unfold promise_all.
  pose proof (settle_all_rejection_origin promises
                (completion ++ seq 0 (length promises))
                (replicate (length promises) None) e) as H.
  destruct (settle_all _ _ _). simpl in *. apply H.
Qed.

Lemma for_each_console_log_registrations {A} (line : A -> string) (l : list A)
    (w : Trace) :
  registrations (for_each (fun x => console_log (line x)) l w).1 = registrations w.
Proof.
  revert w. induction l as [|x l IH]; intros w; [done|].
  simpl. unfold bind, console_log, emit. rewrite IH, registrations_app. simpl.
  by rewrite app_nil_r.
Qed.

Lemma promise_all_registrations {A} completion (promises : list (Settled A))
    (w : Trace) :
  Forall (fun p => p.1 = []) promises ->
  registrations (promise_all completion promises w).1 = registrations w.
Proof.
  intros Hquiet. unfold promise_all.
  assert (H : forall order values, (settle_all promises order values).1 = []).
  { induction order as [|i rest IH]; intros values; [done|]. simpl.
    destruct (values !! i) as [[v'|]|]; try apply IH.
    destruct (promises !! i) as [[lines [v|e']]|] eqn:Hp; try apply IH.
    - specialize (IH (<[i := Some v]> values)).
      destruct (settle_all promises rest (<[i := Some v]> values)). simpl in *.
      rewrite IH, app_nil_r. apply (Forall_lookup_1 _ _ _ _ Hquiet Hp).
    - apply (Forall_lookup_1 _ _ _ _ Hquiet Hp). }
  specialize (H (completion ++ seq 0 (length promises))
                (replicate (length promises) None)).
  destruct (settle_all _ _ _). simpl in *. subst. by rewrite app_nil_r.
Qed.

(** X14.  The initialization of custom-tools submits its four tools
    before it awaits any of them: the four registrations are made, in
    order, whatever the SDK answers and in whatever order the answers
    come; and when it rejects, the error is the one of a refusal by the
    SDK. *)
Theorem customTools_are_all_submitted sdk completion (w : Trace) :
  registrations (CustomTools.initializeCustomTools sdk completion w).1 =
    registrations w ++ ["EMAIL_ANALYTICS"; "MEETING_OPTIMIZER";
                        "DOCUMENT_INTELLIGENCE"; "WORKSPACE_WORKFLOW"] /\
  (forall e,
      (CustomTools.initializeCustomTools sdk completion w).2 = Rejected e ->
      exists tool w',
        tool ∈ [CustomTools.emailAnalyticsTool; CustomTools.meetingOptimizerTool;
                CustomTools.documentIntelligenceTool;
                CustomTools.workflowAutomationTool] /\
        tools_createCustomTool sdk w' tool = Rejected e).
Proof.
  unfold CustomTools.initializeCustomTools, bind, try_catch, console_log, console_error,
    emit, throw.
  cbn [start_all]. unfold bind, ret.
  unfold CustomTools.createEmailAnalyticsTool, CustomTools.createMeetingOptimizerTool,
    CustomTools.createDocumentIntelligenceTool, CustomTools.createWorkflowAutomationTool.
  match goal with
  | |- context [promise_all completion ?ps ?w'] =>
      remember ps as promises eqn:Hps; remember w' as w1 eqn:Hw1
  end.
  assert (Hquiet : Forall (fun p : Settled CustomTool => p.1 = []) promises).
  { subst promises. repeat constructor. }
  pose proof (promise_all_registrations completion promises w1 Hquiet) as Hreg.
  pose proof (promise_all_rejection_origin completion promises w1) as Horigin.
  assert (Hw : registrations w1 =
               registrations w ++ ["EMAIL_ANALYTICS"; "MEETING_OPTIMIZER";
                                   "DOCUMENT_INTELLIGENCE"; "WORKSPACE_WORKFLOW"]).
  { subst w1. simpl. rewrite !registrations_app. simpl. by rewrite <- !app_assoc. }
  destruct (promise_all completion promises w1) as [w2 [tools|e0]]; simpl in *.
  - pose proof (for_each_console_log_registrations
                  (fun tool => "  • " +:+ name tool +:+ ": " +:+ description tool) tools
                  (w2 ++ [ConsoleLog ("Created "
                                      +:+ string_of_number (Z.of_nat (length tools))
                                      +:+ " custom tools:")])) as Hlog.
    pose proof (for_each_console_log
                  (fun tool => "  • " +:+ name tool +:+ ": " +:+ description tool) tools
                  (w2 ++ [ConsoleLog ("Created "
                                      +:+ string_of_number (Z.of_nat (length tools))
                                      +:+ " custom tools:")])) as Hok.
    destruct (for_each _ tools _) as [w3 o]. simpl in *. subst o. simpl.
    split; [|done].
    rewrite Hlog, registrations_app, Hreg, Hw. simpl. by rewrite app_nil_r.
  - split.
    + rewrite registrations_app, Hreg, Hw. simpl. by rewrite app_nil_r.
    + intros e [= <-]. destruct (Horigin e0 eq_refl) as (j & lines & Hj).
      subst promises.
      destruct j as [|[|[|[|j]]]]; simpl in Hj; try done;
        injection Hj as _ Hj;
        match type of Hj with
        | context [tools_createCustomTool sdk ?w' ?tool] =>
            exists tool, w'; split; [set_solver|];
            destruct (tools_createCustomTool sdk w' tool) as [[]|?]; congruence
        end.
Qed.

Lemma customTools_are_all_submitted_witness :
  exists tool w',
    tool ∈ [CustomTools.emailAnalyticsTool; CustomTools.meetingOptimizerTool;
            CustomTools.documentIntelligenceTool; CustomTools.workflowAutomationTool] /\
    tools_createCustomTool refusing_sdk w' tool = Rejected (Error "Tool registration refused").
Proof.
  apply (proj2 (customTools_are_all_submitted refusing_sdk [3; 0]%nat [])
           (Error "Tool registration refused")).
  vm_compute. reflexivity.
Defined.

(** ** GoogleWorkspaceMCP: the methods that go through the LLM *)





(** ** GoogleWorkspaceMCP: authentication, the trigger and [main] *)

(** X16.  [initializeAuthentication] waits for the connection only when
    the request carries a redirect URL; without one (missing or empty) it
    resolves to [undefined] after the one call.  With one it settles as
    the wait does, and a failure of either call is thrown again. *)
Theorem initializeAuthentication_waits_only_with_redirect services userId authConfigId
    (w : list Observation) :
  let run := MCP.initializeAuthentication services userId authConfigId w in
  (forall e,
      connectedAccounts_initiate services authConfigId userId = Rejected e ->
      run.2 = Rejected e /\
      calls run.1 = calls w ++ [ConnectedAccountsInitiate authConfigId userId]) /\
  (forall request,
      connectedAccounts_initiate services authConfigId userId = Fulfilled request ->
      truthy_string (redirectUrl request) = false ->
      run.2 = Fulfilled None /\
      calls run.1 = calls w ++ [ConnectedAccountsInitiate authConfigId userId]) /\
  (forall request,
      connectedAccounts_initiate services authConfigId userId = Fulfilled request ->
      truthy_string (redirectUrl request) = true ->
      run.2 = match request_waitForConnection services request with
              | Fulfilled account => Fulfilled (Some account)
              | Rejected e => Rejected e
              end /\
      calls run.1 = calls w ++ [ConnectedAccountsInitiate authConfigId userId;
                                RequestWaitForConnection]).
Proof.
  cbv zeta.
  unfold MCP.initializeAuthentication, io_try_catch, io_bind, log, log_error, call,
    io_ret, io_throw.
  split; [|split].
  - intros e ->. simpl. rewrite !calls_app. simpl. by rewrite ?app_nil_r.
  - intros request -> ->. simpl. rewrite !calls_app. simpl. by rewrite ?app_nil_r.
  - intros request -> ->. simpl.
    destruct (request_waitForConnection services request) as [account|e]; simpl;
      rewrite !calls_app; simpl; rewrite ?app_nil_r, <- ?app_assoc; done.
Qed.

Lemma initializeAuthentication_waits_only_with_redirect_witness :
  (MCP.initializeAuthentication example_services "default" "config-1" []).2
    = Fulfilled None /\
  calls (MCP.initializeAuthentication example_services "default" "config-1" []).1
    = [ConnectedAccountsInitiate "config-1" "default"].
Proof.
  apply (proj1 (proj2 (initializeAuthentication_waits_only_with_redirect
                         example_services "default" "config-1" []))
           {| redirectUrl := None; connectionRequestId := "req-2" |});
    reflexivity.
Defined.

(** X17.  [setupGmailTrigger] subscribes once, to the trigger that the
    SDK has just created for the user and the account, and only when the
    creation succeeded; it resolves to that trigger when both calls
    succeed and throws the failure of either again. *)
Theorem setupGmailTrigger_subscribes_to_created_trigger services userId connectedAccountId
    (w : list Observation) :
  let run := MCP.setupGmailTrigger services userId connectedAccountId w in
  let create := TriggersCreate userId "GMAIL_NEW_GMAIL_MESSAGE" connectedAccountId in
  (forall e,
      triggers_create services userId "GMAIL_NEW_GMAIL_MESSAGE" connectedAccountId
        = Rejected e ->
      run.2 = Rejected e /\ calls run.1 = calls w ++ [create]) /\
  (forall trigger,
      triggers_create services userId "GMAIL_NEW_GMAIL_MESSAGE" connectedAccountId
        = Fulfilled trigger ->
      calls run.1 = calls w ++ [create; TriggersSubscribe (triggerId trigger)] /\
      run.2 = match triggers_subscribe services (triggerId trigger) with
              | Fulfilled _ => Fulfilled trigger
              | Rejected e => Rejected e
              end).
Proof.
  cbv zeta.
  unfold MCP.setupGmailTrigger, io_try_catch, io_bind, log, log_error, call,
    io_ret, io_throw.
  split.
  - intros e ->. simpl. rewrite !calls_app. simpl. by rewrite ?app_nil_r.
  - intros trigger ->. simpl.
    destruct (triggers_subscribe services (triggerId trigger)) as [[]|e]; simpl;
      rewrite !calls_app; simpl; rewrite ?app_nil_r, <- ?app_assoc; done.
Qed.

Lemma setupGmailTrigger_subscribes_to_created_trigger_witness :
  calls (MCP.setupGmailTrigger example_services "default" "acc-1" []).1
    = [TriggersCreate "default" "GMAIL_NEW_GMAIL_MESSAGE" "acc-1";
       TriggersSubscribe "trigger-1"] /\
  (MCP.setupGmailTrigger example_services "default" "acc-1" []).2
    = Fulfilled {| triggerId := "trigger-1" |}.
Proof.
  apply (proj2 (setupGmailTrigger_subscribes_to_created_trigger
                  example_services "default" "acc-1" [])
           {| triggerId := "trigger-1" |}).
  reflexivity.
Defined.

Lemma log_all_run lines (w : list Observation) :
  MCP.log_all lines w = (w ++ (Log <$> lines), Fulfilled tt).
Proof.
  revert w. induction lines as [|line rest IH]; intros w; simpl.
  - by rewrite app_nil_r.
  - unfold io_bind, log. simpl. rewrite IH. by rewrite <- app_assoc.
Qed.

Lemma calls_logs lines : calls (Log <$> lines) = [].
Proof. by induction lines. Qed.

Lemma getGoogleWorkspaceTools_run services userId (w : list Observation) :
  let run := MCP.getGoogleWorkspaceTools services userId w in
  run.2 = tools_get_named services userId MCP.googleWorkspaceTools /\
  calls run.1 = calls w ++ [ToolsGetNamed userId MCP.googleWorkspaceTools].
Proof.
  cbv zeta.
  unfold MCP.getGoogleWorkspaceTools, io_try_catch, io_bind, log, log_error, call,
    io_ret, io_throw.
  destruct (tools_get_named _ _ _) as [tools|e]; simpl;
    rewrite !calls_app; simpl; rewrite ?app_nil_r; done.
Qed.

Lemma main_body_run services env (w : list Observation) :
  MCP.main_body services env w =
  let w0 := w ++ (Log <$> MCP.banner env) in
  if negb (truthy_string (MCP.COMPOSIO_API_KEY env)) then
    (w0, Rejected (Error "COMPOSIO_API_KEY environment variable is required"))
  else if negb (truthy_string (MCP.ANTHROPIC_API_KEY env)) then
    (w0, Rejected (Error "ANTHROPIC_API_KEY environment variable is required"))
  else
    match MCP.getGoogleWorkspaceTools services (MCP.USER_ID env)
            (w0 ++ [Log "Example 1: Listing Google Workspace tools"]) with
    | (w1, Fulfilled tools) => (w1 ++ (Log <$> MCP.usage tools), Fulfilled tt)
    | (w1, Rejected e) => (w1, Rejected e)
    end.
Proof.
  unfold MCP.main_body. unfold io_bind at 1. rewrite log_all_run. cbv zeta.
  unfold MCP.require, io_bind, io_throw, io_ret, log.
  destruct (truthy_string (MCP.COMPOSIO_API_KEY env)); [|done].
  destruct (truthy_string (MCP.ANTHROPIC_API_KEY env)); [|done].
  cbn [negb].
  destruct (MCP.getGoogleWorkspaceTools _ _ _) as [w1 [tools|e]]; [|done].
  by rewrite log_all_run.
Qed.

(** X18.  [main] checks the two API keys before it builds the server:
    when one is missing (unset or empty) it calls nothing, reports it
    ([COMPOSIO_API_KEY] first) and exits with code 1.  With both keys it
    asks once for the twenty tools of the default or configured user, and
    exits with code 1 exactly when that call fails. *)
Theorem main_exits_on_missing_key_or_failure services env (w : list Observation) :
  let run := MCP.main services env w in
  let failed reason := LogError ("Application failed: " +:+ reason) in
  (truthy_string (MCP.COMPOSIO_API_KEY env) = false ->
     run.2 = Some 1%Z /\ calls run.1 = calls w /\
     last run.1 = Some (failed "COMPOSIO_API_KEY environment variable is required")) /\
  (truthy_string (MCP.COMPOSIO_API_KEY env) = true ->
   truthy_string (MCP.ANTHROPIC_API_KEY env) = false ->
     run.2 = Some 1%Z /\ calls run.1 = calls w /\
     last run.1 = Some (failed "ANTHROPIC_API_KEY environment variable is required")) /\
  (truthy_string (MCP.COMPOSIO_API_KEY env) = true ->
   truthy_string (MCP.ANTHROPIC_API_KEY env) = true ->
     calls run.1 = calls w ++ [ToolsGetNamed (MCP.USER_ID env) MCP.googleWorkspaceTools] /\
     length MCP.googleWorkspaceTools = 20%nat /\
     (forall e,
         tools_get_named services (MCP.USER_ID env) MCP.googleWorkspaceTools = Rejected e ->
         run.2 = Some 1%Z /\ last run.1 = Some (failed (error_message e))) /\
     (is_fulfilled
        (tools_get_named services (MCP.USER_ID env) MCP.googleWorkspaceTools) = true ->
      run.2 = None)).
Proof.
  cbv zeta. unfold MCP.main. rewrite main_body_run. cbv zeta.
  split; [|split].
  - intros ->. cbn [negb fst snd].
    rewrite last_snoc, !calls_app, calls_logs. simpl. by rewrite !app_nil_r.
  - intros -> ->. cbn [negb fst snd].
    rewrite last_snoc, !calls_app, calls_logs. simpl. by rewrite !app_nil_r.
  - intros -> ->. cbn [negb].
    pose proof (getGoogleWorkspaceTools_run services (MCP.USER_ID env)
                  ((w ++ (Log <$> MCP.banner env))
                     ++ [Log "Example 1: Listing Google Workspace tools"]))
      as Hrun.
    cbv zeta in Hrun. destruct Hrun as [Hanswer Hcalls].
    rewrite !calls_app, calls_logs in Hcalls. simpl in Hcalls.
    rewrite !app_nil_r in Hcalls.
    destruct (MCP.getGoogleWorkspaceTools _ _ _) as [w' [tools|e]];
      simpl in Hanswer, Hcalls; cbn [fst snd].
    + rewrite calls_app, calls_logs, app_nil_r.
      split; [done|]. split; [done|]. split; [|done].
      intros e He. rewrite He in Hanswer. discriminate.
    + rewrite last_snoc, calls_app. simpl. rewrite app_nil_r.
      split; [done|]. split; [done|]. split.
      * intros e' He'. rewrite He' in Hanswer. by injection Hanswer as ->.
      * rewrite <- Hanswer. discriminate.
Qed.

Lemma main_exits_on_missing_key_or_failure_witness :
  (MCP.main example_services example_env []).2 = Some 1%Z /\
  calls (MCP.main example_services example_env []).1 = [] /\
  last (MCP.main example_services example_env []).1
    = Some (LogError ("Application failed: "
                      +:+ "COMPOSIO_API_KEY environment variable is required")).
Proof.
  apply (proj1 (main_exits_on_missing_key_or_failure example_services example_env [])).
  reflexivity.
Defined.

(** ** custom-tools: the report of [WORKSPACE_WORKFLOW] *)

Lemma total_execution_time_from (results : list WORKSPACE_WORKFLOW.StepResult) lo hi :
  Forall (fun r => lo <= WORKSPACE_WORKFLOW.execution_time r <= hi)%Z results ->
  forall sum,
    (sum + lo * Z.of_nat (length results)
       <= foldl (fun sum r => sum + WORKSPACE_WORKFLOW.execution_time r) sum results
       <= sum + hi * Z.of_nat (length results))%Z.
Proof.
  induction 1 as [|r results Hr _ IH]; intros sum; simpl; [lia|].
  specialize (IH (sum + WORKSPACE_WORKFLOW.execution_time r)%Z). lia.
Qed.

(** X19.  The report of the [WORKSPACE_WORKFLOW] executor has one step
    per action, in the order of the actions and numbered from 1; it
    counts every step as completed and none as failed, and its total time
    is the sum of the step times, so between 200 and 2199 ms per step
    when the random draws are in their range. *)
Theorem workflow_report_accounts_for_every_action env input :
  let report := get "data" (WORKSPACE_WORKFLOW.execute env input) in
  let summary := get "execution_summary" report in
  let actions := WORKSPACE_WORKFLOW.actions input in
  let results := WORKSPACE_WORKFLOW.executionResults env actions in
  let n := Z.of_nat (length actions) in
  get "step_results" report = JArr (WORKSPACE_WORKFLOW.step_object <$> results) /\
  length results = length actions /\
  (forall i a,
      actions !! i = Some a ->
      exists r,
        results !! i = Some r /\
        WORKSPACE_WORKFLOW.step r = (Z.of_nat i + 1)%Z /\
        WORKSPACE_WORKFLOW.step_app r
          = WORKSPACE_WORKFLOW.app_string (WORKSPACE_WORKFLOW.app a) /\
        WORKSPACE_WORKFLOW.step_action r = WORKSPACE_WORKFLOW.action a /\
        WORKSPACE_WORKFLOW.status r = "completed" /\
        WORKSPACE_WORKFLOW.execution_time r = (WORKSPACE_WORKFLOW.draw env i + 200)%Z) /\
  get "total_steps" summary = JNum n /\
  get "completed_steps" summary = JNum n /\
  get "failed_steps" summary = JNum 0 /\
  get "total_execution_time" summary
    = JNum (WORKSPACE_WORKFLOW.total_execution_time results) /\
  ((forall i, (i < length actions)%nat ->
              (0 <= WORKSPACE_WORKFLOW.draw env i < 2000)%Z) ->
   (200 * n <= WORKSPACE_WORKFLOW.total_execution_time results <= 2199 * n)%Z).
Proof.
  cbv zeta.
  split; [done|]. split; [apply length_imap|].
  split.
  { intros i a Ha. eexists. split.
    - unfold WORKSPACE_WORKFLOW.executionResults. rewrite list_lookup_imap, Ha. done.
    - done. }
  do 4 (split; [done|]).
  intros Hdraws.
  assert (Forall (fun r => 200 <= WORKSPACE_WORKFLOW.execution_time r <= 2199)%Z
            (WORKSPACE_WORKFLOW.executionResults env (WORKSPACE_WORKFLOW.actions input)))
    as Hsteps.
  { apply Forall_forall. intros r Hr.
    apply elem_of_lookup_imap_1 in Hr as (i & a & -> & Ha). simpl.
    apply lookup_lt_Some in Ha. specialize (Hdraws i Ha). lia. }
  pose proof (total_execution_time_from _ _ _ Hsteps 0%Z) as Hbounds.
  unfold WORKSPACE_WORKFLOW.executionResults in Hbounds.
  rewrite length_imap in Hbounds.
  unfold WORKSPACE_WORKFLOW.total_execution_time, WORKSPACE_WORKFLOW.executionResults.
  lia.
Qed.

Lemma workflow_report_accounts_for_every_action_witness :
  (200 * 2 <= WORKSPACE_WORKFLOW.total_execution_time
                (WORKSPACE_WORKFLOW.executionResults example_ambient
                   (WORKSPACE_WORKFLOW.actions example_workflow))
           <= 2199 * 2)%Z.
Proof.
  apply (proj2 (proj2 (proj2 (proj2 (proj2 (proj2 (proj2
           (workflow_report_accounts_for_every_action example_ambient
              example_workflow)))))))).
  intros i _. simpl. apply Z.mod_pos_bound. lia.
Defined.

(** ** The daily summary of the agent *)

Lemma getRecentEmails_connected sdk agent maxResults query (w : Trace) :
  "gmail" ∈ connectedServices agent ->
  getRecentEmails sdk agent (Some maxResults) query w =
  executeTool sdk "GMAIL_FETCH_EMAILS" (userId agent) (recentEmailsParams maxResults query)
    (w ++ [ConsoleLog ("Fetching " +:+ string_of_number maxResults +:+ " recent emails")]).
Proof.
  intros Hin. unfold getRecentEmails. rewrite bool_decide_eq_true_2 by done. done.
Qed.

Lemma getUpcomingEvents_connected sdk now agent maxResults timeMin (w : Trace) :
  "googlecalendar" ∈ connectedServices agent ->
  getUpcomingEvents sdk now agent (Some maxResults) timeMin w =
  executeTool sdk "GOOGLECALENDAR_LIST_EVENTS" (userId agent)
    (upcomingEventsParams now maxResults timeMin)
    (w ++ [ConsoleLog ("Fetching " +:+ string_of_number maxResults +:+ " upcoming events")]).
Proof.
  intros Hin. unfold getUpcomingEvents. rewrite bool_decide_eq_true_2 by done. done.
Qed.

Ltac daily_summary :=
  unfold generateDailySummary; cbv zeta;
  unfold bind at 1; unfold console_log at 1, emit; unfold try_catch; unfold bind at 1.

Ltac summary_trace :=
  rewrite <- ?app_assoc; eexists; split; [reflexivity|];
  rewrite ?executions_app; simpl; rewrite ?app_nil_r.

Ltac emails_fetched Hfetch :=
  rewrite getRecentEmails_connected by done; rewrite executeTool_run; cbv zeta;
  cbn [fst snd];
  let result := fresh "result" in
  destruct (executeTool_settled_success "GMAIL_FETCH_EMAILS" _ Hfetch)
    as (result & _ & _ & ->);
  cbn [fst snd]; unfold bind at 1.

Section DailySummaryRuns.
Variable sdk : Collaborators.
Variables now today : string.
Variable summaryText : string -> JSValue -> JSValue -> Outcome string.
Variable agent : GoogleWorkspaceAgent.
Variable date : option string.
Variable w : Trace.

Lemma summary_without_gmail :
  "gmail" ∉ connectedServices agent ->
  exists lines,
    generateDailySummary sdk now today summaryText agent date w =
      (w ++ lines,
       Fulfilled ("Failed to generate summary: "
                  +:+ "Error: Gmail not connected. Please authenticate first.")) /\
    executions lines = [].
Proof.
  intros Hgmail. daily_summary.
  unfold getRecentEmails. rewrite bool_decide_eq_false_2 by done.
  unfold throw, bind, console_error, emit, ret. cbn [negb fst snd]. by summary_trace.
Qed.

Lemma summary_emails_failed e :
  "gmail" ∈ connectedServices agent ->
  tool_failure (tools_execute sdk "GMAIL_FETCH_EMAILS" (userId agent)
                  (recentEmailsParams 50 (Some (emailQuery (targetDate today date)))))
    = Some e ->
  exists lines,
    generateDailySummary sdk now today summaryText agent date w =
      (w ++ lines, Fulfilled ("Failed to generate summary: " +:+ error_toString e)) /\
    executions lines = [emails_fetch agent (targetDate today date)].
Proof.
  intros Hgmail Hfetch. daily_summary.
  rewrite getRecentEmails_connected by done. rewrite executeTool_run. cbv zeta.
  cbn [fst snd].
  pose proof (executions_settled "GMAIL_FETCH_EMAILS"
                (tools_execute sdk "GMAIL_FETCH_EMAILS" (userId agent)
                   (recentEmailsParams 50 (Some (emailQuery (targetDate today date))))))
    as Hquiet.
  rewrite (executeTool_settled_failure _ _ _ Hfetch).
  unfold console_error, bind, emit, ret. cbn [fst snd].
  summary_trace. by rewrite Hquiet.
Qed.

Lemma summary_without_calendar :
  "gmail" ∈ connectedServices agent ->
  tool_failure (tools_execute sdk "GMAIL_FETCH_EMAILS" (userId agent)
                  (recentEmailsParams 50 (Some (emailQuery (targetDate today date)))))
    = None ->
  "googlecalendar" ∉ connectedServices agent ->
  exists lines,
    generateDailySummary sdk now today summaryText agent date w =
      (w ++ lines,
       Fulfilled ("Failed to generate summary: "
                  +:+ "Error: Google Calendar not connected. Please authenticate first.")) /\
    executions lines = [emails_fetch agent (targetDate today date)].
Proof.
  intros Hgmail Hfetch Hcal. daily_summary. emails_fetched Hfetch.
  unfold getUpcomingEvents. rewrite bool_decide_eq_false_2 by done.
  unfold throw, bind, console_error, emit, ret. cbn [negb fst snd]. by summary_trace.
Qed.

Lemma summary_with_both :
  "gmail" ∈ connectedServices agent ->
  tool_failure (tools_execute sdk "GMAIL_FETCH_EMAILS" (userId agent)
                  (recentEmailsParams 50 (Some (emailQuery (targetDate today date)))))
    = None ->
  "googlecalendar" ∈ connectedServices agent ->
  exists lines text,
    generateDailySummary sdk now today summaryText agent date w
      = (w ++ lines, Fulfilled text) /\
    executions lines = [emails_fetch agent (targetDate today date);
                        events_fetch now agent (targetDate today date)].
Proof.
  intros Hgmail Hfetch Hcal. daily_summary. emails_fetched Hfetch.
  rewrite getUpcomingEvents_connected by done. rewrite executeTool_run. cbv zeta.
  cbn [fst snd].
  pose proof (executions_settled "GOOGLECALENDAR_LIST_EVENTS"
                (tools_execute sdk "GOOGLECALENDAR_LIST_EVENTS" (userId agent)
                   (upcomingEventsParams now 20
                      (Some (targetDate today date +:+ "T00:00:00Z"))))) as Hquiet.
  destruct (executeTool_settled _ _) as [lines [events|e]]; cbn [fst snd] in *;
    unfold bind, console_log, console_error, emit, ret;
    [destruct (summaryText _ _ events) as [text|e]|]; cbn [fst snd];
    rewrite <- ?app_assoc; do 2 eexists; (split; [reflexivity|]);
    rewrite ?executions_app, Hquiet; done.
Qed.
End DailySummaryRuns.

(** X20.  [generateDailySummary] never rejects: what goes wrong comes
    back as the text 'Failed to generate summary: ...'.  Without Gmail it
    executes nothing; it asks the calendar only after the emails of the
    day (50 at most, 'after:' and 'before:' the same day) were fetched and
    the calendar is connected, and executes nothing else. *)
Theorem generateDailySummary_reports_failures_in_band sdk now today summaryText agent date
    (w : Trace) :
  let run := generateDailySummary sdk now today summaryText agent date w in
  let day := targetDate today date in
  let answer := tools_execute sdk "GMAIL_FETCH_EMAILS" (userId agent)
                  (recentEmailsParams 50 (Some (emailQuery day))) in
  (exists text, run.2 = Fulfilled text) /\
  ("gmail" ∉ connectedServices agent ->
     run.2 = Fulfilled ("Failed to generate summary: "
                        +:+ "Error: Gmail not connected. Please authenticate first.") /\
     executions run.1 = executions w) /\
  (forall e,
      "gmail" ∈ connectedServices agent -> tool_failure answer = Some e ->
      run.2 = Fulfilled ("Failed to generate summary: " +:+ error_toString e) /\
      executions run.1 = executions w ++ [emails_fetch agent day]) /\
  ("gmail" ∈ connectedServices agent -> tool_failure answer = None ->
   "googlecalendar" ∉ connectedServices agent ->
     run.2 = Fulfilled
               ("Failed to generate summary: "
                +:+ "Error: Google Calendar not connected. Please authenticate first.") /\
     executions run.1 = executions w ++ [emails_fetch agent day]) /\
  ("gmail" ∈ connectedServices agent -> tool_failure answer = None ->
   "googlecalendar" ∈ connectedServices agent ->
     executions run.1
       = executions w ++ [emails_fetch agent day; events_fetch now agent day]) /\
  get "query" (emails_fetch agent day).2
    = JStr ("after:" +:+ day +:+ " before:" +:+ day).
Proof.
  cbv zeta. split; [|split; [|split; [|split; [|split]]]].
  - destruct (decide ("gmail" ∈ connectedServices agent)) as [Hgmail|Hgmail].
    + destruct (tool_failure (tools_execute sdk "GMAIL_FETCH_EMAILS" (userId agent)
                  (recentEmailsParams 50 (Some (emailQuery (targetDate today date))))))
        as [e|] eqn:Hfetch.
      * destruct (summary_emails_failed sdk now today summaryText agent date w e
                    Hgmail Hfetch) as (lines & -> & _). by eexists.
      * destruct (decide ("googlecalendar" ∈ connectedServices agent)) as [Hcal|Hcal].
        -- destruct (summary_with_both sdk now today summaryText agent date w
                       Hgmail Hfetch Hcal) as (lines & text & -> & _). by eexists.
        -- destruct (summary_without_calendar sdk now today summaryText agent date w
                       Hgmail Hfetch Hcal) as (lines & -> & _). by eexists.
    + destruct (summary_without_gmail sdk now today summaryText agent date w Hgmail)
        as (lines & -> & _). by eexists.
  - intros Hgmail.
    destruct (summary_without_gmail sdk now today summaryText agent date w Hgmail)
      as (lines & -> & Hlines).
    cbn [fst snd]. by rewrite executions_app, Hlines, app_nil_r.
  - intros e Hgmail Hfetch.
    destruct (summary_emails_failed sdk now today summaryText agent date w e
                Hgmail Hfetch) as (lines & -> & Hlines).
    cbn [fst snd]. by rewrite executions_app, Hlines.
  - intros Hgmail Hfetch Hcal.
    destruct (summary_without_calendar sdk now today summaryText agent date w
                Hgmail Hfetch Hcal) as (lines & -> & Hlines).
    cbn [fst snd]. by rewrite executions_app, Hlines.
  - intros Hgmail Hfetch Hcal.
    destruct (summary_with_both sdk now today summaryText agent date w
                Hgmail Hfetch Hcal) as (lines & text & -> & Hlines).
    cbn [fst snd]. by rewrite executions_app, Hlines.
  - reflexivity.
Qed.

Lemma generateDailySummary_reports_failures_in_band_witness :
  (generateDailySummary example_sdk "2024-01-15T09:00:00.000Z" "2024-01-15"
     (fun _ _ _ => Fulfilled "summary") calendar_agent None []).2
    = Fulfilled ("Failed to generate summary: "
                 +:+ "Error: Gmail not connected. Please authenticate first.") /\
  executions (generateDailySummary example_sdk "2024-01-15T09:00:00.000Z" "2024-01-15"
                (fun _ _ _ => Fulfilled "summary") calendar_agent None []).1
    = executions [].
Proof.
  apply (proj1 (proj2 (generateDailySummary_reports_failures_in_band example_sdk
                         "2024-01-15T09:00:00.000Z" "2024-01-15"
                         (fun _ _ _ => Fulfilled "summary") calendar_agent None []))).
  vm_compute. intros H. inversion H.
Defined.
